(** * The 6502 interpreter, the 2C02 PPU and the NES system bus

    A shallow embedding of [6502/src/cpu6502.{h,c}], [6502/src/opcodes.c],
    [nes/src/cartridge.c], [nes/src/ppu.c] and [nes/src/nes.c], followed by
    the properties of the design document that concern them.

    Conventions.  C integers are modelled in [Z]; a store into a
    [uint8_t], [uint16_t] or [uint64_t] object whose value can leave the
    range of the type is wrapped with [u8], [u16] or [u64].  C arrays are total functions [Z -> Z] updated with [upd];
    every index the source uses is masked into range, so nothing is read
    out of bounds.  [fprintf] diagnostics are not modelled. *)

From Stdlib Require Import ZArith List Bool Lia.
Import ListNotations.
Local Open Scope Z_scope.

(** ** Fixed-width arithmetic *)

Definition u8 (z : Z) : Z := z mod 256.
Definition u16 (z : Z) : Z := z mod 65536.
Definition u64 (z : Z) : Z := z mod 18446744073709551616.

(** [(int8_t)b] for a byte [b]. *)
Definition i8 (z : Z) : Z := if u8 z <? 128 then u8 z else u8 z - 256.

(** Conversion of an integer to C [bool]. *)
Definition nz (z : Z) : bool := negb (z =? 0).

(** [arr[i] = v]. *)
Definition upd (arr : Z -> Z) (i v : Z) : Z -> Z :=
  fun j => if j =? i then v else arr j.

(** The bytes [0 .. 255], for exhaustive checks over [uint8_t]. *)
Definition bytes : list Z := map Z.of_nat (seq 0 256).

(* ===================================================================== *)
(** * cpu6502.h, cpu6502.c, opcodes.c *)
(* ===================================================================== *)

Module Cpu6502.

(** Status flag masks. *)
Definition CPU_FLAG_C : Z := 0x01.
Definition CPU_FLAG_Z : Z := 0x02.
Definition CPU_FLAG_I : Z := 0x04.
Definition CPU_FLAG_D : Z := 0x08.
Definition CPU_FLAG_B : Z := 0x10.
Definition CPU_FLAG_U : Z := 0x20.
Definition CPU_FLAG_V : Z := 0x40.
Definition CPU_FLAG_N : Z := 0x80.

(** [cpu6502_t] without its three bus members, which are the [bus]
    variable of the section below. *)
Record cpu6502_t : Type := mkCpu {
  a : Z; x : Z; y : Z; sp : Z; pc : Z; status : Z;
  cycles : Z;
  halted : bool;
  page_crossed : bool
}.

Definition set_a (v : Z) (c : cpu6502_t) : cpu6502_t :=
  mkCpu v (x c) (y c) (sp c) (pc c) (status c) (cycles c) (halted c) (page_crossed c).
Definition set_x (v : Z) (c : cpu6502_t) : cpu6502_t :=
  mkCpu (a c) v (y c) (sp c) (pc c) (status c) (cycles c) (halted c) (page_crossed c).
Definition set_y (v : Z) (c : cpu6502_t) : cpu6502_t :=
  mkCpu (a c) (x c) v (sp c) (pc c) (status c) (cycles c) (halted c) (page_crossed c).
Definition set_sp (v : Z) (c : cpu6502_t) : cpu6502_t :=
  mkCpu (a c) (x c) (y c) v (pc c) (status c) (cycles c) (halted c) (page_crossed c).
Definition set_pc (v : Z) (c : cpu6502_t) : cpu6502_t :=
  mkCpu (a c) (x c) (y c) (sp c) v (status c) (cycles c) (halted c) (page_crossed c).
Definition set_status (v : Z) (c : cpu6502_t) : cpu6502_t :=
  mkCpu (a c) (x c) (y c) (sp c) (pc c) v (cycles c) (halted c) (page_crossed c).
Definition set_cycles (v : Z) (c : cpu6502_t) : cpu6502_t :=
  mkCpu (a c) (x c) (y c) (sp c) (pc c) (status c) v (halted c) (page_crossed c).
Definition set_halted (v : bool) (c : cpu6502_t) : cpu6502_t :=
  mkCpu (a c) (x c) (y c) (sp c) (pc c) (status c) (cycles c) v (page_crossed c).
Definition set_page_crossed (v : bool) (c : cpu6502_t) : cpu6502_t :=
  mkCpu (a c) (x c) (y c) (sp c) (pc c) (status c) (cycles c) (halted c) v.

(** *** Flag helpers (cpu6502.h) *)

Definition cpu_set_flag (flag : Z) (val : bool) (c : cpu6502_t) : cpu6502_t :=
  if val then set_status (u8 (Z.lor (status c) flag)) c
  else set_status (u8 (Z.land (status c) (Z.lnot flag))) c.

Definition cpu_get_flag (c : cpu6502_t) (flag : Z) : bool :=
  nz (Z.land (status c) flag).

Definition cpu_set_nz (val : Z) (c : cpu6502_t) : cpu6502_t :=
  cpu_set_flag CPU_FLAG_Z (val =? 0)
    (cpu_set_flag CPU_FLAG_N (nz (Z.land val 0x80)) c).

(** *** Shared instruction cores that touch registers only (opcodes.c) *)

Definition carry_in (c : cpu6502_t) : Z :=
  if cpu_get_flag c CPU_FLAG_C then 1 else 0.

(** [do_adc]: the decimal branch first, as in the source. *)
Definition do_adc (val : Z) (c : cpu6502_t) : cpu6502_t :=
  if cpu_get_flag c CPU_FLAG_D then
    let a0 := a c in
    let carry := carry_in c in
    let bin := u16 (a0 + val + carry) in
    let c := cpu_set_flag CPU_FLAG_Z (Z.land bin 0xFF =? 0) c in
    let al := Z.land a0 0x0F + Z.land val 0x0F + carry in
    let al := if al >? 9 then al + 6 else al in
    let ah := Z.shiftr a0 4 + Z.shiftr val 4 + (if al >? 0x0F then 1 else 0) in
    let partial := u8 (Z.lor (Z.shiftl ah 4) (Z.land al 0x0F)) in
    let c := cpu_set_flag CPU_FLAG_N (nz (Z.land partial 0x80)) c in
    let c := cpu_set_flag CPU_FLAG_V
               (nz (Z.land (Z.land (Z.lnot (Z.lxor a0 val))
                                   (Z.lxor a0 (Z.shiftl ah 4))) 0x80)) c in
    let ah := if ah >? 9 then ah + 6 else ah in
    let c := cpu_set_flag CPU_FLAG_C (ah >? 0x0F) c in
    set_a (u8 (Z.lor (Z.shiftl (Z.land ah 0x0F) 4) (Z.land al 0x0F))) c
  else
    let sum := u16 (a c + val + carry_in c) in
    let c := cpu_set_flag CPU_FLAG_V
               (nz (Z.land (Z.land (Z.lnot (Z.lxor (a c) val))
                                   (Z.lxor (a c) sum)) 0x80)) c in
    let c := cpu_set_flag CPU_FLAG_C (sum >? 0xFF) c in
    let c := set_a (u8 (Z.land sum 0xFF)) c in
    cpu_set_nz (a c) c.

Definition do_sbc (val : Z) (c : cpu6502_t) : cpu6502_t :=
  if cpu_get_flag c CPU_FLAG_D then
    let a0 := a c in
    let borrow := if cpu_get_flag c CPU_FLAG_C then 0 else 1 in
    let bin := u16 (a0 - val - borrow) in
    let c := cpu_set_flag CPU_FLAG_C (negb (nz (Z.land bin 0x100))) c in
    let c := cpu_set_flag CPU_FLAG_Z (Z.land bin 0xFF =? 0) c in
    let c := cpu_set_flag CPU_FLAG_N (nz (Z.land bin 0x80)) c in
    let c := cpu_set_flag CPU_FLAG_V
               (nz (Z.land (Z.land (Z.lxor a0 val) (Z.lxor a0 bin)) 0x80)) c in
    let al := Z.land a0 0x0F - Z.land val 0x0F - borrow in
    let al := if al <? 0 then Z.land (al - 6) 0x0F - 0x10 else al in
    let ah := Z.shiftr a0 4 - Z.shiftr val 4 + (if al <? 0 then -1 else 0) in
    let ah := if ah <? 0 then ah - 6 else ah in
    set_a (u8 (Z.lor (Z.shiftl (Z.land ah 0x0F) 4) (Z.land al 0x0F))) c
  else
    do_adc (u8 (Z.lnot val)) c.

Definition do_cmp (reg val : Z) (c : cpu6502_t) : cpu6502_t :=
  let result := u16 (reg - val) in
  let c := cpu_set_flag CPU_FLAG_C (reg >=? val) c in
  let c := cpu_set_flag CPU_FLAG_Z (reg =? val) c in
  cpu_set_flag CPU_FLAG_N (nz (Z.land result 0x80)) c.

Definition do_and (val : Z) (c : cpu6502_t) : cpu6502_t :=
  let c := set_a (Z.land (a c) val) c in cpu_set_nz (a c) c.

Definition do_ora (val : Z) (c : cpu6502_t) : cpu6502_t :=
  let c := set_a (Z.lor (a c) val) c in cpu_set_nz (a c) c.

Definition do_eor (val : Z) (c : cpu6502_t) : cpu6502_t :=
  let c := set_a (Z.lxor (a c) val) c in cpu_set_nz (a c) c.

(** The shift cores return the shifted byte together with the new cpu. *)
Definition do_asl (val : Z) (c : cpu6502_t) : Z * cpu6502_t :=
  let c := cpu_set_flag CPU_FLAG_C (nz (Z.land val 0x80)) c in
  let val := u8 (Z.shiftl val 1) in
  (val, cpu_set_nz val c).

Definition do_lsr (val : Z) (c : cpu6502_t) : Z * cpu6502_t :=
  let c := cpu_set_flag CPU_FLAG_C (nz (Z.land val 0x01)) c in
  let val := u8 (Z.shiftr val 1) in
  (val, cpu_set_nz val c).

Definition do_rol (val : Z) (c : cpu6502_t) : Z * cpu6502_t :=
  let old_carry := if cpu_get_flag c CPU_FLAG_C then 1 else 0 in
  let c := cpu_set_flag CPU_FLAG_C (nz (Z.land val 0x80)) c in
  let val := u8 (Z.lor (Z.shiftl val 1) old_carry) in
  (val, cpu_set_nz val c).

Definition do_ror (val : Z) (c : cpu6502_t) : Z * cpu6502_t :=
  let old_carry := if cpu_get_flag c CPU_FLAG_C then 0x80 else 0 in
  let c := cpu_set_flag CPU_FLAG_C (nz (Z.land val 0x01)) c in
  let val := u8 (Z.lor (Z.shiftr val 1) old_carry) in
  (val, cpu_set_nz val c).

(** [cpu6502_init]: the bus members are installed by instantiating the
    section below. *)
Definition cpu6502_init (c : cpu6502_t) : cpu6502_t :=
  let c := set_a 0 c in
  let c := set_x 0 c in
  let c := set_y 0 c in
  let c := set_sp 0 c in
  let c := set_pc 0 c in
  let c := set_cycles 0 c in
  let c := set_halted false c in
  let c := set_page_crossed false c in
  set_status (Z.lor CPU_FLAG_U CPU_FLAG_I) c.

(** *** The bus *)

(** [bus_read_fn] and [bus_write_fn] acting on the object behind
    [bus_ctx]; a read may change that object (PPU registers, controller
    ports). *)
Record bus_t (B : Type) : Type := mkBus {
  read : B -> Z -> Z * B;
  write : B -> Z -> Z -> B
}.
Arguments read {B} _ _ _.
Arguments write {B} _ _ _ _.

(** *** Handlers: state passing over the cpu and the bus object *)

Section WithBus.

Context {B : Type} (bus : bus_t B).

(** A handler [void f(cpu6502_t *cpu)] is a state transformer over the
    cpu and the object behind [bus_ctx]. *)
Definition M (A : Type) : Type := cpu6502_t * B -> A * (cpu6502_t * B).

Definition ret {A : Type} (v : A) : M A := fun s => (v, s).

Definition bind {A C : Type} (m : M A) (f : A -> M C) : M C :=
  fun s => let r := m s in f (fst r) (snd r).

Notation "x <- m ;; k" := (bind m (fun x => k))
  (at level 61, m at next level, right associativity).
Notation "m ;; k" := (bind m (fun _ => k))
  (at level 61, right associativity).

Definition gets {A : Type} (f : cpu6502_t -> A) : M A :=
  fun s => (f (fst s), s).

Definition modify (f : cpu6502_t -> cpu6502_t) : M unit :=
  fun s => (tt, (f (fst s), snd s)).

(** A register-only core that also returns a value. *)
Definition call {A : Type} (f : cpu6502_t -> A * cpu6502_t) : M A :=
  fun s => let r := f (fst s) in (fst r, (snd r, snd s)).

(** [cpu_read]: the callback returns a [uint8_t]. *)
Definition cpu_read (addr : Z) : M Z :=
  fun s => let r := read bus (snd s) addr in (u8 (fst r), (fst s, snd r)).

Definition cpu_write (addr val : Z) : M unit :=
  fun s => (tt, (fst s, write bus (snd s) addr val)).

(** *** Stack helpers (cpu6502.h) *)

Definition cpu_push (val : Z) : M unit :=
  s <- gets sp ;;
  cpu_write (0x0100 + s) val ;;
  modify (fun c => set_sp (u8 (sp c - 1)) c).

Definition cpu_pull : M Z :=
  modify (fun c => set_sp (u8 (sp c + 1)) c) ;;
  s <- gets sp ;;
  cpu_read (0x0100 + s).

Definition cpu_push16 (val : Z) : M unit :=
  cpu_push (Z.land (Z.shiftr val 8) 0xFF) ;;
  cpu_push (Z.land val 0xFF).

Definition cpu_pull16 : M Z :=
  lo <- cpu_pull ;;
  hi <- cpu_pull ;;
  ret (Z.lor (Z.shiftl hi 8) lo).

(** *** Addressing mode helpers (opcodes.c, part 1) *)

(** [cpu_read(cpu, cpu->pc++)]. *)
Definition fetch : M Z :=
  p <- gets pc ;;
  modify (set_pc (u16 (p + 1))) ;;
  cpu_read p.

Definition addr_imm : M Z :=
  p <- gets pc ;;
  modify (set_pc (u16 (p + 1))) ;;
  ret p.

Definition addr_zpg : M Z := fetch.

Definition addr_zpx : M Z :=
  b <- fetch ;;
  r <- gets x ;;
  ret (Z.land (b + r) 0xFF).

Definition addr_zpy : M Z :=
  b <- fetch ;;
  r <- gets y ;;
  ret (Z.land (b + r) 0xFF).

Definition addr_abs : M Z :=
  lo <- fetch ;;
  hi <- fetch ;;
  ret (Z.lor (Z.shiftl hi 8) lo).

Definition addr_abx : M Z :=
  base <- addr_abs ;;
  r <- gets x ;;
  let addr := u16 (base + r) in
  modify (set_page_crossed (negb (Z.land base 0xFF00 =? Z.land addr 0xFF00))) ;;
  ret addr.

Definition addr_aby : M Z :=
  base <- addr_abs ;;
  r <- gets y ;;
  let addr := u16 (base + r) in
  modify (set_page_crossed (negb (Z.land base 0xFF00 =? Z.land addr 0xFF00))) ;;
  ret addr.

Definition addr_izx : M Z :=
  b <- fetch ;;
  r <- gets x ;;
  let ptr := u8 (Z.land (b + r) 0xFF) in
  lo <- cpu_read ptr ;;
  hi <- cpu_read (Z.land (ptr + 1) 0xFF) ;;
  ret (Z.lor (Z.shiftl hi 8) lo).

Definition addr_izy : M Z :=
  ptr <- fetch ;;
  lo <- cpu_read ptr ;;
  hi <- cpu_read (Z.land (ptr + 1) 0xFF) ;;
  let base := Z.lor (Z.shiftl hi 8) lo in
  r <- gets y ;;
  let addr := u16 (base + r) in
  modify (set_page_crossed (negb (Z.land base 0xFF00 =? Z.land addr 0xFF00))) ;;
  ret addr.

(** [cpu->cycles++]. *)
Definition inc_cycles (c : cpu6502_t) : cpu6502_t :=
  set_cycles (u64 (cycles c + 1)) c.

(** [if (cpu->page_crossed) cpu->cycles++;]. *)
Definition charge_page_cross (c : cpu6502_t) : cpu6502_t :=
  if page_crossed c then inc_cycles c else c.

(** *** Opcode handlers (opcodes.c, part 3) *)

Definition op_ill : M unit :=
  modify (set_halted true).

Definition op_lda_imm : M unit :=
  addr <- addr_imm ;;
  v <- cpu_read addr ;;
  modify (set_a v) ;;
  modify (fun c => cpu_set_nz (a c) c).

Definition op_lda_zpg : M unit :=
  addr <- addr_zpg ;;
  v <- cpu_read addr ;;
  modify (set_a v) ;;
  modify (fun c => cpu_set_nz (a c) c).

Definition op_lda_zpx : M unit :=
  addr <- addr_zpx ;;
  v <- cpu_read addr ;;
  modify (set_a v) ;;
  modify (fun c => cpu_set_nz (a c) c).

Definition op_lda_abs : M unit :=
  addr <- addr_abs ;;
  v <- cpu_read addr ;;
  modify (set_a v) ;;
  modify (fun c => cpu_set_nz (a c) c).

Definition op_lda_abx : M unit :=
  addr <- addr_abx ;;
  v <- cpu_read addr ;;
  modify (set_a v) ;;
  modify (fun c => cpu_set_nz (a c) c) ;;
  modify charge_page_cross.

Definition op_lda_aby : M unit :=
  addr <- addr_aby ;;
  v <- cpu_read addr ;;
  modify (set_a v) ;;
  modify (fun c => cpu_set_nz (a c) c) ;;
  modify charge_page_cross.

Definition op_lda_izx : M unit :=
  addr <- addr_izx ;;
  v <- cpu_read addr ;;
  modify (set_a v) ;;
  modify (fun c => cpu_set_nz (a c) c).

Definition op_lda_izy : M unit :=
  addr <- addr_izy ;;
  v <- cpu_read addr ;;
  modify (set_a v) ;;
  modify (fun c => cpu_set_nz (a c) c) ;;
  modify charge_page_cross.

Definition op_ldx_imm : M unit :=
  addr <- addr_imm ;;
  v <- cpu_read addr ;;
  modify (set_x v) ;;
  modify (fun c => cpu_set_nz (x c) c).

Definition op_ldx_zpg : M unit :=
  addr <- addr_zpg ;;
  v <- cpu_read addr ;;
  modify (set_x v) ;;
  modify (fun c => cpu_set_nz (x c) c).

Definition op_ldx_zpy : M unit :=
  addr <- addr_zpy ;;
  v <- cpu_read addr ;;
  modify (set_x v) ;;
  modify (fun c => cpu_set_nz (x c) c).

Definition op_ldx_abs : M unit :=
  addr <- addr_abs ;;
  v <- cpu_read addr ;;
  modify (set_x v) ;;
  modify (fun c => cpu_set_nz (x c) c).

Definition op_ldx_aby : M unit :=
  addr <- addr_aby ;;
  v <- cpu_read addr ;;
  modify (set_x v) ;;
  modify (fun c => cpu_set_nz (x c) c) ;;
  modify charge_page_cross.

Definition op_ldy_imm : M unit :=
  addr <- addr_imm ;;
  v <- cpu_read addr ;;
  modify (set_y v) ;;
  modify (fun c => cpu_set_nz (y c) c).

Definition op_ldy_zpg : M unit :=
  addr <- addr_zpg ;;
  v <- cpu_read addr ;;
  modify (set_y v) ;;
  modify (fun c => cpu_set_nz (y c) c).

Definition op_ldy_zpx : M unit :=
  addr <- addr_zpx ;;
  v <- cpu_read addr ;;
  modify (set_y v) ;;
  modify (fun c => cpu_set_nz (y c) c).

Definition op_ldy_abs : M unit :=
  addr <- addr_abs ;;
  v <- cpu_read addr ;;
  modify (set_y v) ;;
  modify (fun c => cpu_set_nz (y c) c).

Definition op_ldy_abx : M unit :=
  addr <- addr_abx ;;
  v <- cpu_read addr ;;
  modify (set_y v) ;;
  modify (fun c => cpu_set_nz (y c) c) ;;
  modify charge_page_cross.

Definition op_sta_zpg : M unit :=
  addr <- addr_zpg ;;
  r <- gets a ;;
  cpu_write addr r.

Definition op_sta_zpx : M unit :=
  addr <- addr_zpx ;;
  r <- gets a ;;
  cpu_write addr r.

Definition op_sta_abs : M unit :=
  addr <- addr_abs ;;
  r <- gets a ;;
  cpu_write addr r.

Definition op_sta_abx : M unit :=
  addr <- addr_abx ;;
  r <- gets a ;;
  cpu_write addr r.

Definition op_sta_aby : M unit :=
  addr <- addr_aby ;;
  r <- gets a ;;
  cpu_write addr r.

Definition op_sta_izx : M unit :=
  addr <- addr_izx ;;
  r <- gets a ;;
  cpu_write addr r.

Definition op_sta_izy : M unit :=
  addr <- addr_izy ;;
  r <- gets a ;;
  cpu_write addr r.

Definition op_stx_zpg : M unit :=
  addr <- addr_zpg ;;
  r <- gets x ;;
  cpu_write addr r.

Definition op_stx_zpy : M unit :=
  addr <- addr_zpy ;;
  r <- gets x ;;
  cpu_write addr r.

Definition op_stx_abs : M unit :=
  addr <- addr_abs ;;
  r <- gets x ;;
  cpu_write addr r.

Definition op_sty_zpg : M unit :=
  addr <- addr_zpg ;;
  r <- gets y ;;
  cpu_write addr r.

Definition op_sty_zpx : M unit :=
  addr <- addr_zpx ;;
  r <- gets y ;;
  cpu_write addr r.

Definition op_sty_abs : M unit :=
  addr <- addr_abs ;;
  r <- gets y ;;
  cpu_write addr r.

Definition op_adc_imm : M unit :=
  addr <- addr_imm ;;
  v <- cpu_read addr ;;
  modify (do_adc v).

Definition op_adc_zpg : M unit :=
  addr <- addr_zpg ;;
  v <- cpu_read addr ;;
  modify (do_adc v).

Definition op_adc_zpx : M unit :=
  addr <- addr_zpx ;;
  v <- cpu_read addr ;;
  modify (do_adc v).

Definition op_adc_abs : M unit :=
  addr <- addr_abs ;;
  v <- cpu_read addr ;;
  modify (do_adc v).

Definition op_adc_abx : M unit :=
  addr <- addr_abx ;;
  v <- cpu_read addr ;;
  modify (do_adc v) ;;
  modify charge_page_cross.

Definition op_adc_aby : M unit :=
  addr <- addr_aby ;;
  v <- cpu_read addr ;;
  modify (do_adc v) ;;
  modify charge_page_cross.

Definition op_adc_izx : M unit :=
  addr <- addr_izx ;;
  v <- cpu_read addr ;;
  modify (do_adc v).

Definition op_adc_izy : M unit :=
  addr <- addr_izy ;;
  v <- cpu_read addr ;;
  modify (do_adc v) ;;
  modify charge_page_cross.

Definition op_sbc_imm : M unit :=
  addr <- addr_imm ;;
  v <- cpu_read addr ;;
  modify (do_sbc v).

Definition op_sbc_zpg : M unit :=
  addr <- addr_zpg ;;
  v <- cpu_read addr ;;
  modify (do_sbc v).

Definition op_sbc_zpx : M unit :=
  addr <- addr_zpx ;;
  v <- cpu_read addr ;;
  modify (do_sbc v).

Definition op_sbc_abs : M unit :=
  addr <- addr_abs ;;
  v <- cpu_read addr ;;
  modify (do_sbc v).

Definition op_sbc_abx : M unit :=
  addr <- addr_abx ;;
  v <- cpu_read addr ;;
  modify (do_sbc v) ;;
  modify charge_page_cross.

Definition op_sbc_aby : M unit :=
  addr <- addr_aby ;;
  v <- cpu_read addr ;;
  modify (do_sbc v) ;;
  modify charge_page_cross.

Definition op_sbc_izx : M unit :=
  addr <- addr_izx ;;
  v <- cpu_read addr ;;
  modify (do_sbc v).

Definition op_sbc_izy : M unit :=
  addr <- addr_izy ;;
  v <- cpu_read addr ;;
  modify (do_sbc v) ;;
  modify charge_page_cross.

Definition op_cmp_imm : M unit :=
  addr <- addr_imm ;;
  v <- cpu_read addr ;;
  modify (fun c => do_cmp (a c) v c).

Definition op_cmp_zpg : M unit :=
  addr <- addr_zpg ;;
  v <- cpu_read addr ;;
  modify (fun c => do_cmp (a c) v c).

Definition op_cmp_zpx : M unit :=
  addr <- addr_zpx ;;
  v <- cpu_read addr ;;
  modify (fun c => do_cmp (a c) v c).

Definition op_cmp_abs : M unit :=
  addr <- addr_abs ;;
  v <- cpu_read addr ;;
  modify (fun c => do_cmp (a c) v c).

Definition op_cmp_abx : M unit :=
  addr <- addr_abx ;;
  v <- cpu_read addr ;;
  modify (fun c => do_cmp (a c) v c) ;;
  modify charge_page_cross.

Definition op_cmp_aby : M unit :=
  addr <- addr_aby ;;
  v <- cpu_read addr ;;
  modify (fun c => do_cmp (a c) v c) ;;
  modify charge_page_cross.

Definition op_cmp_izx : M unit :=
  addr <- addr_izx ;;
  v <- cpu_read addr ;;
  modify (fun c => do_cmp (a c) v c).

Definition op_cmp_izy : M unit :=
  addr <- addr_izy ;;
  v <- cpu_read addr ;;
  modify (fun c => do_cmp (a c) v c) ;;
  modify charge_page_cross.

Definition op_cpx_imm : M unit :=
  addr <- addr_imm ;;
  v <- cpu_read addr ;;
  modify (fun c => do_cmp (x c) v c).

Definition op_cpx_zpg : M unit :=
  addr <- addr_zpg ;;
  v <- cpu_read addr ;;
  modify (fun c => do_cmp (x c) v c).

Definition op_cpx_abs : M unit :=
  addr <- addr_abs ;;
  v <- cpu_read addr ;;
  modify (fun c => do_cmp (x c) v c).

Definition op_cpy_imm : M unit :=
  addr <- addr_imm ;;
  v <- cpu_read addr ;;
  modify (fun c => do_cmp (y c) v c).

Definition op_cpy_zpg : M unit :=
  addr <- addr_zpg ;;
  v <- cpu_read addr ;;
  modify (fun c => do_cmp (y c) v c).

Definition op_cpy_abs : M unit :=
  addr <- addr_abs ;;
  v <- cpu_read addr ;;
  modify (fun c => do_cmp (y c) v c).

Definition op_and_imm : M unit :=
  addr <- addr_imm ;;
  v <- cpu_read addr ;;
  modify (do_and v).

Definition op_and_zpg : M unit :=
  addr <- addr_zpg ;;
  v <- cpu_read addr ;;
  modify (do_and v).

Definition op_and_zpx : M unit :=
  addr <- addr_zpx ;;
  v <- cpu_read addr ;;
  modify (do_and v).

Definition op_and_abs : M unit :=
  addr <- addr_abs ;;
  v <- cpu_read addr ;;
  modify (do_and v).

Definition op_and_abx : M unit :=
  addr <- addr_abx ;;
  v <- cpu_read addr ;;
  modify (do_and v) ;;
  modify charge_page_cross.

Definition op_and_aby : M unit :=
  addr <- addr_aby ;;
  v <- cpu_read addr ;;
  modify (do_and v) ;;
  modify charge_page_cross.

Definition op_and_izx : M unit :=
  addr <- addr_izx ;;
  v <- cpu_read addr ;;
  modify (do_and v).

Definition op_and_izy : M unit :=
  addr <- addr_izy ;;
  v <- cpu_read addr ;;
  modify (do_and v) ;;
  modify charge_page_cross.

Definition op_eor_imm : M unit :=
  addr <- addr_imm ;;
  v <- cpu_read addr ;;
  modify (do_eor v).

Definition op_eor_zpg : M unit :=
  addr <- addr_zpg ;;
  v <- cpu_read addr ;;
  modify (do_eor v).

Definition op_eor_zpx : M unit :=
  addr <- addr_zpx ;;
  v <- cpu_read addr ;;
  modify (do_eor v).

Definition op_eor_abs : M unit :=
  addr <- addr_abs ;;
  v <- cpu_read addr ;;
  modify (do_eor v).

Definition op_eor_abx : M unit :=
  addr <- addr_abx ;;
  v <- cpu_read addr ;;
  modify (do_eor v) ;;
  modify charge_page_cross.

Definition op_eor_aby : M unit :=
  addr <- addr_aby ;;
  v <- cpu_read addr ;;
  modify (do_eor v) ;;
  modify charge_page_cross.

Definition op_eor_izx : M unit :=
  addr <- addr_izx ;;
  v <- cpu_read addr ;;
  modify (do_eor v).

Definition op_eor_izy : M unit :=
  addr <- addr_izy ;;
  v <- cpu_read addr ;;
  modify (do_eor v) ;;
  modify charge_page_cross.

Definition op_ora_imm : M unit :=
  addr <- addr_imm ;;
  v <- cpu_read addr ;;
  modify (do_ora v).

Definition op_ora_zpg : M unit :=
  addr <- addr_zpg ;;
  v <- cpu_read addr ;;
  modify (do_ora v).

Definition op_ora_zpx : M unit :=
  addr <- addr_zpx ;;
  v <- cpu_read addr ;;
  modify (do_ora v).

Definition op_ora_abs : M unit :=
  addr <- addr_abs ;;
  v <- cpu_read addr ;;
  modify (do_ora v).

Definition op_ora_abx : M unit :=
  addr <- addr_abx ;;
  v <- cpu_read addr ;;
  modify (do_ora v) ;;
  modify charge_page_cross.

Definition op_ora_aby : M unit :=
  addr <- addr_aby ;;
  v <- cpu_read addr ;;
  modify (do_ora v) ;;
  modify charge_page_cross.

Definition op_ora_izx : M unit :=
  addr <- addr_izx ;;
  v <- cpu_read addr ;;
  modify (do_ora v).

Definition op_ora_izy : M unit :=
  addr <- addr_izy ;;
  v <- cpu_read addr ;;
  modify (do_ora v) ;;
  modify charge_page_cross.

Definition op_bit_zpg : M unit :=
  addr <- addr_zpg ;;
  val <- cpu_read addr ;;
  modify (fun c => cpu_set_flag CPU_FLAG_Z (Z.land (a c) val =? 0) c) ;;
  modify (cpu_set_flag CPU_FLAG_N (nz (Z.land val 0x80))) ;;
  modify (cpu_set_flag CPU_FLAG_V (nz (Z.land val 0x40))).

Definition op_bit_abs : M unit :=
  addr <- addr_abs ;;
  val <- cpu_read addr ;;
  modify (fun c => cpu_set_flag CPU_FLAG_Z (Z.land (a c) val =? 0) c) ;;
  modify (cpu_set_flag CPU_FLAG_N (nz (Z.land val 0x80))) ;;
  modify (cpu_set_flag CPU_FLAG_V (nz (Z.land val 0x40))).

Definition op_asl_acc : M unit :=
  r <- gets a ;;
  val <- call (do_asl r) ;;
  modify (set_a val).

Definition op_asl_zpg : M unit :=
  addr <- addr_zpg ;;
  val <- cpu_read addr ;;
  val <- call (do_asl val) ;;
  cpu_write addr val.

Definition op_asl_zpx : M unit :=
  addr <- addr_zpx ;;
  val <- cpu_read addr ;;
  val <- call (do_asl val) ;;
  cpu_write addr val.

Definition op_asl_abs : M unit :=
  addr <- addr_abs ;;
  val <- cpu_read addr ;;
  val <- call (do_asl val) ;;
  cpu_write addr val.

Definition op_asl_abx : M unit :=
  addr <- addr_abx ;;
  val <- cpu_read addr ;;
  val <- call (do_asl val) ;;
  cpu_write addr val.

Definition op_lsr_acc : M unit :=
  r <- gets a ;;
  val <- call (do_lsr r) ;;
  modify (set_a val).

Definition op_lsr_zpg : M unit :=
  addr <- addr_zpg ;;
  val <- cpu_read addr ;;
  val <- call (do_lsr val) ;;
  cpu_write addr val.

Definition op_lsr_zpx : M unit :=
  addr <- addr_zpx ;;
  val <- cpu_read addr ;;
  val <- call (do_lsr val) ;;
  cpu_write addr val.

Definition op_lsr_abs : M unit :=
  addr <- addr_abs ;;
  val <- cpu_read addr ;;
  val <- call (do_lsr val) ;;
  cpu_write addr val.

Definition op_lsr_abx : M unit :=
  addr <- addr_abx ;;
  val <- cpu_read addr ;;
  val <- call (do_lsr val) ;;
  cpu_write addr val.

Definition op_rol_acc : M unit :=
  r <- gets a ;;
  val <- call (do_rol r) ;;
  modify (set_a val).

Definition op_rol_zpg : M unit :=
  addr <- addr_zpg ;;
  val <- cpu_read addr ;;
  val <- call (do_rol val) ;;
  cpu_write addr val.

Definition op_rol_zpx : M unit :=
  addr <- addr_zpx ;;
  val <- cpu_read addr ;;
  val <- call (do_rol val) ;;
  cpu_write addr val.

Definition op_rol_abs : M unit :=
  addr <- addr_abs ;;
  val <- cpu_read addr ;;
  val <- call (do_rol val) ;;
  cpu_write addr val.

Definition op_rol_abx : M unit :=
  addr <- addr_abx ;;
  val <- cpu_read addr ;;
  val <- call (do_rol val) ;;
  cpu_write addr val.

Definition op_ror_acc : M unit :=
  r <- gets a ;;
  val <- call (do_ror r) ;;
  modify (set_a val).

Definition op_ror_zpg : M unit :=
  addr <- addr_zpg ;;
  val <- cpu_read addr ;;
  val <- call (do_ror val) ;;
  cpu_write addr val.

Definition op_ror_zpx : M unit :=
  addr <- addr_zpx ;;
  val <- cpu_read addr ;;
  val <- call (do_ror val) ;;
  cpu_write addr val.

Definition op_ror_abs : M unit :=
  addr <- addr_abs ;;
  val <- cpu_read addr ;;
  val <- call (do_ror val) ;;
  cpu_write addr val.

Definition op_ror_abx : M unit :=
  addr <- addr_abx ;;
  val <- cpu_read addr ;;
  val <- call (do_ror val) ;;
  cpu_write addr val.

Definition op_inc_zpg : M unit :=
  addr <- addr_zpg ;;
  v <- cpu_read addr ;;
  let val := u8 (v + 1) in
  cpu_write addr val ;;
  modify (cpu_set_nz val).

Definition op_inc_zpx : M unit :=
  addr <- addr_zpx ;;
  v <- cpu_read addr ;;
  let val := u8 (v + 1) in
  cpu_write addr val ;;
  modify (cpu_set_nz val).

Definition op_inc_abs : M unit :=
  addr <- addr_abs ;;
  v <- cpu_read addr ;;
  let val := u8 (v + 1) in
  cpu_write addr val ;;
  modify (cpu_set_nz val).

Definition op_inc_abx : M unit :=
  addr <- addr_abx ;;
  v <- cpu_read addr ;;
  let val := u8 (v + 1) in
  cpu_write addr val ;;
  modify (cpu_set_nz val).

Definition op_dec_zpg : M unit :=
  addr <- addr_zpg ;;
  v <- cpu_read addr ;;
  let val := u8 (v - 1) in
  cpu_write addr val ;;
  modify (cpu_set_nz val).

Definition op_dec_zpx : M unit :=
  addr <- addr_zpx ;;
  v <- cpu_read addr ;;
  let val := u8 (v - 1) in
  cpu_write addr val ;;
  modify (cpu_set_nz val).

Definition op_dec_abs : M unit :=
  addr <- addr_abs ;;
  v <- cpu_read addr ;;
  let val := u8 (v - 1) in
  cpu_write addr val ;;
  modify (cpu_set_nz val).

Definition op_dec_abx : M unit :=
  addr <- addr_abx ;;
  v <- cpu_read addr ;;
  let val := u8 (v - 1) in
  cpu_write addr val ;;
  modify (cpu_set_nz val).

Definition op_inx : M unit :=
  modify (fun c => set_x (u8 (x c + 1)) c) ;;
  modify (fun c => cpu_set_nz (x c) c).

Definition op_iny : M unit :=
  modify (fun c => set_y (u8 (y c + 1)) c) ;;
  modify (fun c => cpu_set_nz (y c) c).

Definition op_dex : M unit :=
  modify (fun c => set_x (u8 (x c - 1)) c) ;;
  modify (fun c => cpu_set_nz (x c) c).

Definition op_dey : M unit :=
  modify (fun c => set_y (u8 (y c - 1)) c) ;;
  modify (fun c => cpu_set_nz (y c) c).

Definition op_bpl : M unit :=
  b <- fetch ;;
  let offset := i8 b in
  taken <- gets (fun c => negb (cpu_get_flag c CPU_FLAG_N)) ;;
  if taken then
    old_pc <- gets pc ;;
    modify (set_pc (u16 (old_pc + offset))) ;;
    modify inc_cycles ;;
    new_pc <- gets pc ;;
    if negb (Z.land old_pc 0xFF00 =? Z.land new_pc 0xFF00)
    then modify inc_cycles
    else ret tt
  else ret tt.

Definition op_bmi : M unit :=
  b <- fetch ;;
  let offset := i8 b in
  taken <- gets (fun c => cpu_get_flag c CPU_FLAG_N) ;;
  if taken then
    old_pc <- gets pc ;;
    modify (set_pc (u16 (old_pc + offset))) ;;
    modify inc_cycles ;;
    new_pc <- gets pc ;;
    if negb (Z.land old_pc 0xFF00 =? Z.land new_pc 0xFF00)
    then modify inc_cycles
    else ret tt
  else ret tt.

Definition op_bvc : M unit :=
  b <- fetch ;;
  let offset := i8 b in
  taken <- gets (fun c => negb (cpu_get_flag c CPU_FLAG_V)) ;;
  if taken then
    old_pc <- gets pc ;;
    modify (set_pc (u16 (old_pc + offset))) ;;
    modify inc_cycles ;;
    new_pc <- gets pc ;;
    if negb (Z.land old_pc 0xFF00 =? Z.land new_pc 0xFF00)
    then modify inc_cycles
    else ret tt
  else ret tt.

Definition op_bvs : M unit :=
  b <- fetch ;;
  let offset := i8 b in
  taken <- gets (fun c => cpu_get_flag c CPU_FLAG_V) ;;
  if taken then
    old_pc <- gets pc ;;
    modify (set_pc (u16 (old_pc + offset))) ;;
    modify inc_cycles ;;
    new_pc <- gets pc ;;
    if negb (Z.land old_pc 0xFF00 =? Z.land new_pc 0xFF00)
    then modify inc_cycles
    else ret tt
  else ret tt.

Definition op_bcc : M unit :=
  b <- fetch ;;
  let offset := i8 b in
  taken <- gets (fun c => negb (cpu_get_flag c CPU_FLAG_C)) ;;
  if taken then
    old_pc <- gets pc ;;
    modify (set_pc (u16 (old_pc + offset))) ;;
    modify inc_cycles ;;
    new_pc <- gets pc ;;
    if negb (Z.land old_pc 0xFF00 =? Z.land new_pc 0xFF00)
    then modify inc_cycles
    else ret tt
  else ret tt.

Definition op_bcs : M unit :=
  b <- fetch ;;
  let offset := i8 b in
  taken <- gets (fun c => cpu_get_flag c CPU_FLAG_C) ;;
  if taken then
    old_pc <- gets pc ;;
    modify (set_pc (u16 (old_pc + offset))) ;;
    modify inc_cycles ;;
    new_pc <- gets pc ;;
    if negb (Z.land old_pc 0xFF00 =? Z.land new_pc 0xFF00)
    then modify inc_cycles
    else ret tt
  else ret tt.

Definition op_bne : M unit :=
  b <- fetch ;;
  let offset := i8 b in
  taken <- gets (fun c => negb (cpu_get_flag c CPU_FLAG_Z)) ;;
  if taken then
    old_pc <- gets pc ;;
    modify (set_pc (u16 (old_pc + offset))) ;;
    modify inc_cycles ;;
    new_pc <- gets pc ;;
    if negb (Z.land old_pc 0xFF00 =? Z.land new_pc 0xFF00)
    then modify inc_cycles
    else ret tt
  else ret tt.

Definition op_beq : M unit :=
  b <- fetch ;;
  let offset := i8 b in
  taken <- gets (fun c => cpu_get_flag c CPU_FLAG_Z) ;;
  if taken then
    old_pc <- gets pc ;;
    modify (set_pc (u16 (old_pc + offset))) ;;
    modify inc_cycles ;;
    new_pc <- gets pc ;;
    if negb (Z.land old_pc 0xFF00 =? Z.land new_pc 0xFF00)
    then modify inc_cycles
    else ret tt
  else ret tt.

Definition op_jmp_abs : M unit :=
  addr <- addr_abs ;;
  modify (set_pc addr).

(** JMP indirect, with the page-wrap of the pointer's high byte. *)
Definition op_jmp_ind : M unit :=
  ptr <- addr_abs ;;
  lo <- cpu_read ptr ;;
  hi <- cpu_read (Z.lor (Z.land ptr 0xFF00) (Z.land (ptr + 1) 0x00FF)) ;;
  modify (set_pc (Z.lor (Z.shiftl hi 8) lo)).

Definition op_jsr : M unit :=
  addr <- addr_abs ;;
  p <- gets pc ;;
  cpu_push16 (u16 (p - 1)) ;;
  modify (set_pc addr).

Definition op_rts : M unit :=
  v <- cpu_pull16 ;;
  modify (set_pc (u16 (v + 1))).

(** The two vector reads are taken left to right. *)
Definition op_brk : M unit :=
  modify (fun c => set_pc (u16 (pc c + 1)) c) ;;
  p <- gets pc ;;
  cpu_push16 p ;;
  st <- gets status ;;
  cpu_push (Z.lor (Z.lor st CPU_FLAG_B) CPU_FLAG_U) ;;
  modify (cpu_set_flag CPU_FLAG_I true) ;;
  lo <- cpu_read 0xFFFE ;;
  hi <- cpu_read 0xFFFF ;;
  modify (set_pc (Z.lor lo (Z.shiftl hi 8))).

Definition op_rti : M unit :=
  st <- cpu_pull ;;
  modify (set_status st) ;;
  modify (fun c => set_status (u8 (Z.lor (status c) CPU_FLAG_U)) c) ;;
  modify (fun c => set_status (u8 (Z.land (status c) (Z.lnot CPU_FLAG_B))) c) ;;
  v <- cpu_pull16 ;;
  modify (set_pc v).

Definition op_pha : M unit :=
  r <- gets a ;;
  cpu_push r.

Definition op_pla : M unit :=
  v <- cpu_pull ;;
  modify (set_a v) ;;
  modify (fun c => cpu_set_nz (a c) c).

Definition op_php : M unit :=
  st <- gets status ;;
  cpu_push (Z.lor (Z.lor st CPU_FLAG_B) CPU_FLAG_U).

Definition op_plp : M unit :=
  st <- cpu_pull ;;
  modify (set_status st) ;;
  modify (fun c => set_status (u8 (Z.lor (status c) CPU_FLAG_U)) c) ;;
  modify (fun c => set_status (u8 (Z.land (status c) (Z.lnot CPU_FLAG_B))) c).

Definition op_tax : M unit :=
  modify (fun c => set_x (a c) c) ;;
  modify (fun c => cpu_set_nz (x c) c).

Definition op_tay : M unit :=
  modify (fun c => set_y (a c) c) ;;
  modify (fun c => cpu_set_nz (y c) c).

Definition op_txa : M unit :=
  modify (fun c => set_a (x c) c) ;;
  modify (fun c => cpu_set_nz (a c) c).

Definition op_tya : M unit :=
  modify (fun c => set_a (y c) c) ;;
  modify (fun c => cpu_set_nz (a c) c).

Definition op_tsx : M unit :=
  modify (fun c => set_x (sp c) c) ;;
  modify (fun c => cpu_set_nz (x c) c).

Definition op_txs : M unit :=
  modify (fun c => set_sp (x c) c).

Definition op_clc : M unit :=
  modify (cpu_set_flag CPU_FLAG_C false).

Definition op_sec : M unit :=
  modify (cpu_set_flag CPU_FLAG_C true).

Definition op_cli : M unit :=
  modify (cpu_set_flag CPU_FLAG_I false).

Definition op_sei : M unit :=
  modify (cpu_set_flag CPU_FLAG_I true).

Definition op_cld : M unit :=
  modify (cpu_set_flag CPU_FLAG_D false).

Definition op_sed : M unit :=
  modify (cpu_set_flag CPU_FLAG_D true).

Definition op_clv : M unit :=
  modify (cpu_set_flag CPU_FLAG_V false).

Definition op_nop : M unit := ret tt.

(** *** Exported tables (opcodes.c, part 4) *)

Definition opcode_table : list (M unit) :=
  [
    (* 0x00 *) op_brk; op_ora_izx; op_ill; op_ill; op_ill; op_ora_zpg; op_asl_zpg; op_ill;
               op_php; op_ora_imm; op_asl_acc; op_ill; op_ill; op_ora_abs; op_asl_abs; op_ill;
    (* 0x10 *) op_bpl; op_ora_izy; op_ill; op_ill; op_ill; op_ora_zpx; op_asl_zpx; op_ill;
               op_clc; op_ora_aby; op_ill; op_ill; op_ill; op_ora_abx; op_asl_abx; op_ill;
    (* 0x20 *) op_jsr; op_and_izx; op_ill; op_ill; op_bit_zpg; op_and_zpg; op_rol_zpg; op_ill;
               op_plp; op_and_imm; op_rol_acc; op_ill; op_bit_abs; op_and_abs; op_rol_abs; op_ill;
    (* 0x30 *) op_bmi; op_and_izy; op_ill; op_ill; op_ill; op_and_zpx; op_rol_zpx; op_ill;
               op_sec; op_and_aby; op_ill; op_ill; op_ill; op_and_abx; op_rol_abx; op_ill;
    (* 0x40 *) op_rti; op_eor_izx; op_ill; op_ill; op_ill; op_eor_zpg; op_lsr_zpg; op_ill;
               op_pha; op_eor_imm; op_lsr_acc; op_ill; op_jmp_abs; op_eor_abs; op_lsr_abs; op_ill;
    (* 0x50 *) op_bvc; op_eor_izy; op_ill; op_ill; op_ill; op_eor_zpx; op_lsr_zpx; op_ill;
               op_cli; op_eor_aby; op_ill; op_ill; op_ill; op_eor_abx; op_lsr_abx; op_ill;
    (* 0x60 *) op_rts; op_adc_izx; op_ill; op_ill; op_ill; op_adc_zpg; op_ror_zpg; op_ill;
               op_pla; op_adc_imm; op_ror_acc; op_ill; op_jmp_ind; op_adc_abs; op_ror_abs; op_ill;
    (* 0x70 *) op_bvs; op_adc_izy; op_ill; op_ill; op_ill; op_adc_zpx; op_ror_zpx; op_ill;
               op_sei; op_adc_aby; op_ill; op_ill; op_ill; op_adc_abx; op_ror_abx; op_ill;
    (* 0x80 *) op_ill; op_sta_izx; op_ill; op_ill; op_sty_zpg; op_sta_zpg; op_stx_zpg; op_ill;
               op_dey; op_ill; op_txa; op_ill; op_sty_abs; op_sta_abs; op_stx_abs; op_ill;
    (* 0x90 *) op_bcc; op_sta_izy; op_ill; op_ill; op_sty_zpx; op_sta_zpx; op_stx_zpy; op_ill;
               op_tya; op_sta_aby; op_txs; op_ill; op_ill; op_sta_abx; op_ill; op_ill;
    (* 0xA0 *) op_ldy_imm; op_lda_izx; op_ldx_imm; op_ill; op_ldy_zpg; op_lda_zpg; op_ldx_zpg; op_ill;
               op_tay; op_lda_imm; op_tax; op_ill; op_ldy_abs; op_lda_abs; op_ldx_abs; op_ill;
    (* 0xB0 *) op_bcs; op_lda_izy; op_ill; op_ill; op_ldy_zpx; op_lda_zpx; op_ldx_zpy; op_ill;
               op_clv; op_lda_aby; op_tsx; op_ill; op_ldy_abx; op_lda_abx; op_ldx_aby; op_ill;
    (* 0xC0 *) op_cpy_imm; op_cmp_izx; op_ill; op_ill; op_cpy_zpg; op_cmp_zpg; op_dec_zpg; op_ill;
               op_iny; op_cmp_imm; op_dex; op_ill; op_cpy_abs; op_cmp_abs; op_dec_abs; op_ill;
    (* 0xD0 *) op_bne; op_cmp_izy; op_ill; op_ill; op_ill; op_cmp_zpx; op_dec_zpx; op_ill;
               op_cld; op_cmp_aby; op_ill; op_ill; op_ill; op_cmp_abx; op_dec_abx; op_ill;
    (* 0xE0 *) op_cpx_imm; op_sbc_izx; op_ill; op_ill; op_cpx_zpg; op_sbc_zpg; op_inc_zpg; op_ill;
               op_inx; op_sbc_imm; op_nop; op_ill; op_cpx_abs; op_sbc_abs; op_inc_abs; op_ill;
    (* 0xF0 *) op_beq; op_sbc_izy; op_ill; op_ill; op_ill; op_sbc_zpx; op_inc_zpx; op_ill;
               op_sed; op_sbc_aby; op_ill; op_ill; op_ill; op_sbc_abx; op_inc_abx; op_ill ].

Definition opcode_cycles_table : list Z :=
  [
    (* 0x00 *) 7; 6; 0; 0; 0; 3; 5; 0; 3; 2; 2; 0; 0; 4; 6; 0;
    (* 0x10 *) 2; 5; 0; 0; 0; 4; 6; 0; 2; 4; 0; 0; 0; 4; 7; 0;
    (* 0x20 *) 6; 6; 0; 0; 3; 3; 5; 0; 4; 2; 2; 0; 4; 4; 6; 0;
    (* 0x30 *) 2; 5; 0; 0; 0; 4; 6; 0; 2; 4; 0; 0; 0; 4; 7; 0;
    (* 0x40 *) 6; 6; 0; 0; 0; 3; 5; 0; 3; 2; 2; 0; 3; 4; 6; 0;
    (* 0x50 *) 2; 5; 0; 0; 0; 4; 6; 0; 2; 4; 0; 0; 0; 4; 7; 0;
    (* 0x60 *) 6; 6; 0; 0; 0; 3; 5; 0; 4; 2; 2; 0; 5; 4; 6; 0;
    (* 0x70 *) 2; 5; 0; 0; 0; 4; 6; 0; 2; 4; 0; 0; 0; 4; 7; 0;
    (* 0x80 *) 0; 6; 0; 0; 3; 3; 3; 0; 2; 0; 2; 0; 4; 4; 4; 0;
    (* 0x90 *) 2; 6; 0; 0; 4; 4; 4; 0; 2; 5; 2; 0; 0; 5; 0; 0;
    (* 0xA0 *) 2; 6; 2; 0; 3; 3; 3; 0; 2; 2; 2; 0; 4; 4; 4; 0;
    (* 0xB0 *) 2; 5; 0; 0; 4; 4; 4; 0; 2; 4; 2; 0; 4; 4; 4; 0;
    (* 0xC0 *) 2; 6; 0; 0; 3; 3; 5; 0; 2; 2; 2; 0; 4; 4; 6; 0;
    (* 0xD0 *) 2; 5; 0; 0; 0; 4; 6; 0; 2; 4; 0; 0; 0; 4; 7; 0;
    (* 0xE0 *) 2; 6; 0; 0; 3; 3; 5; 0; 2; 2; 2; 0; 4; 4; 6; 0;
    (* 0xF0 *) 2; 5; 0; 0; 0; 4; 6; 0; 2; 4; 0; 0; 0; 4; 7; 0 ].

Definition opcode_fn (opcode : Z) : M unit :=
  nth (Z.to_nat opcode) opcode_table op_ill.

Definition opcode_cycles (opcode : Z) : Z :=
  nth (Z.to_nat opcode) opcode_cycles_table 0.

(** *** cpu6502.c *)

Definition cpu6502_reset : M unit :=
  lo <- cpu_read 0xFFFC ;;
  hi <- cpu_read 0xFFFD ;;
  modify (set_pc (Z.lor (Z.shiftl hi 8) lo)) ;;
  modify (set_sp 0xFD) ;;
  modify (fun c => set_status (u8 (Z.lor (status c) CPU_FLAG_I)) c) ;;
  modify (fun c => set_status (u8 (Z.lor (status c) CPU_FLAG_U)) c) ;;
  modify (set_halted false) ;;
  modify (fun c => set_cycles (u64 (cycles c + 7)) c).

Definition cpu6502_step : M unit :=
  h <- gets halted ;;
  if h then ret tt
  else
    modify (set_page_crossed false) ;;
    opcode <- fetch ;;
    modify (fun c => set_cycles (u64 (cycles c + opcode_cycles opcode)) c) ;;
    opcode_fn opcode.

(** The status byte an interrupt pushes: B clear, bit 5 set. *)
Definition interrupt_flags (st : Z) : Z :=
  u8 (Z.lor (u8 (Z.land st (Z.lnot CPU_FLAG_B))) CPU_FLAG_U).

Definition cpu6502_irq : M unit :=
  masked <- gets (fun c => cpu_get_flag c CPU_FLAG_I) ;;
  if masked then ret tt
  else
    p <- gets pc ;;
    cpu_push16 p ;;
    st <- gets status ;;
    cpu_push (interrupt_flags st) ;;
    modify (cpu_set_flag CPU_FLAG_I true) ;;
    lo <- cpu_read 0xFFFE ;;
    hi <- cpu_read 0xFFFF ;;
    modify (set_pc (Z.lor (Z.shiftl hi 8) lo)) ;;
    modify (fun c => set_cycles (u64 (cycles c + 7)) c).

Definition cpu6502_nmi : M unit :=
  p <- gets pc ;;
  cpu_push16 p ;;
  st <- gets status ;;
  cpu_push (interrupt_flags st) ;;
  modify (cpu_set_flag CPU_FLAG_I true) ;;
  lo <- cpu_read 0xFFFA ;;
  hi <- cpu_read 0xFFFB ;;
  modify (set_pc (Z.lor (Z.shiftl hi 8) lo)) ;;
  modify (fun c => set_cycles (u64 (cycles c + 7)) c).

End WithBus.

End Cpu6502.

(* ===================================================================== *)
(** * cartridge.h, cartridge.c: the NROM cartridge *)
(* ===================================================================== *)

Module Cartridge.

Inductive mirror_mode_t : Type := MIRROR_HORIZONTAL | MIRROR_VERTICAL.

(** The PRG and CHR images are the arrays behind the two pointers.  The
    iNES loader ([cartridge_load]) is modelled in [Loader] below. *)
Record cartridge_t : Type := mkCart {
  prg_rom : Z -> Z;
  chr_rom : Z -> Z;
  chr_ram : Z -> Z;
  prg_banks : Z;
  chr_banks : Z;
  mapper_id : Z;
  mirror : mirror_mode_t
}.

Definition set_chr_ram (x' : Z -> Z) (c : cartridge_t) : cartridge_t :=
  mkCart (prg_rom c) (chr_rom c) x' (prg_banks c) (chr_banks c) (mapper_id c)
    (mirror c).

Definition cartridge_cpu_read (cart : cartridge_t) (addr : Z) : Z :=
  if addr >=? 0x8000 then
    if addr <? 0xC000 then prg_rom cart (Z.land addr 0x3FFF)
    else if prg_banks cart =? 1 then prg_rom cart (Z.land addr 0x3FFF)
    else prg_rom cart (0x4000 + Z.land addr 0x3FFF)
  else 0.

Definition cartridge_cpu_write (cart : cartridge_t) (addr val : Z) : cartridge_t :=
  cart.

Definition cartridge_chr_read (cart : cartridge_t) (addr : Z) : Z :=
  if chr_banks cart >? 0 then chr_rom cart (Z.land addr 0x1FFF)
  else chr_ram cart (Z.land addr 0x1FFF).

Definition cartridge_chr_write (cart : cartridge_t) (addr val : Z) : cartridge_t :=
  if chr_banks cart =? 0
  then set_chr_ram (upd (chr_ram cart) (Z.land addr 0x1FFF) val) cart
  else cart.

End Cartridge.

(* ===================================================================== *)
(** * ppu.h, ppu.c: the 2C02 scanline renderer *)
(* ===================================================================== *)

Module Ppu.

Import Cartridge.

Definition NES_WIDTH : Z := 256.
Definition NES_HEIGHT : Z := 240.

(** [ppu_t].  The back-pointer [nes] is used only to reach [nes->cart];
    the functions below take the cartridge as an argument instead. *)
Record ppu_t : Type := mkPpu {
  nametable : Z -> Z;
  palette : Z -> Z;
  oam : Z -> Z;
  ctrl : Z;
  mask : Z;
  status : Z;
  oam_addr : Z;
  v : Z;
  t : Z;
  fine_x : Z;
  w : bool;
  data_buf : Z;
  scanline : Z;
  cycle : Z;
  frame : Z;
  nmi_occurred : bool;
  nmi_output : bool;
  framebuffer : Z -> Z
}.

Definition set_nametable (x' : Z -> Z) (p : ppu_t) : ppu_t :=
  mkPpu x' (palette p) (oam p) (ctrl p) (mask p) (status p) (oam_addr p)
    (v p) (t p) (fine_x p) (w p) (data_buf p) (scanline p) (cycle p)
    (frame p) (nmi_occurred p) (nmi_output p) (framebuffer p).
Definition set_palette (x' : Z -> Z) (p : ppu_t) : ppu_t :=
  mkPpu (nametable p) x' (oam p) (ctrl p) (mask p) (status p) (oam_addr p)
    (v p) (t p) (fine_x p) (w p) (data_buf p) (scanline p) (cycle p)
    (frame p) (nmi_occurred p) (nmi_output p) (framebuffer p).
Definition set_oam (x' : Z -> Z) (p : ppu_t) : ppu_t :=
  mkPpu (nametable p) (palette p) x' (ctrl p) (mask p) (status p)
    (oam_addr p) (v p) (t p) (fine_x p) (w p) (data_buf p) (scanline p)
    (cycle p) (frame p) (nmi_occurred p) (nmi_output p) (framebuffer p).
Definition set_ctrl (x' : Z) (p : ppu_t) : ppu_t :=
  mkPpu (nametable p) (palette p) (oam p) x' (mask p) (status p)
    (oam_addr p) (v p) (t p) (fine_x p) (w p) (data_buf p) (scanline p)
    (cycle p) (frame p) (nmi_occurred p) (nmi_output p) (framebuffer p).
Definition set_mask (x' : Z) (p : ppu_t) : ppu_t :=
  mkPpu (nametable p) (palette p) (oam p) (ctrl p) x' (status p)
    (oam_addr p) (v p) (t p) (fine_x p) (w p) (data_buf p) (scanline p)
    (cycle p) (frame p) (nmi_occurred p) (nmi_output p) (framebuffer p).
Definition set_status (x' : Z) (p : ppu_t) : ppu_t :=
  mkPpu (nametable p) (palette p) (oam p) (ctrl p) (mask p) x' (oam_addr p)
    (v p) (t p) (fine_x p) (w p) (data_buf p) (scanline p) (cycle p)
    (frame p) (nmi_occurred p) (nmi_output p) (framebuffer p).
Definition set_oam_addr (x' : Z) (p : ppu_t) : ppu_t :=
  mkPpu (nametable p) (palette p) (oam p) (ctrl p) (mask p) (status p) x'
    (v p) (t p) (fine_x p) (w p) (data_buf p) (scanline p) (cycle p)
    (frame p) (nmi_occurred p) (nmi_output p) (framebuffer p).
Definition set_v (x' : Z) (p : ppu_t) : ppu_t :=
  mkPpu (nametable p) (palette p) (oam p) (ctrl p) (mask p) (status p)
    (oam_addr p) x' (t p) (fine_x p) (w p) (data_buf p) (scanline p)
    (cycle p) (frame p) (nmi_occurred p) (nmi_output p) (framebuffer p).
Definition set_t (x' : Z) (p : ppu_t) : ppu_t :=
  mkPpu (nametable p) (palette p) (oam p) (ctrl p) (mask p) (status p)
    (oam_addr p) (v p) x' (fine_x p) (w p) (data_buf p) (scanline p)
    (cycle p) (frame p) (nmi_occurred p) (nmi_output p) (framebuffer p).
Definition set_fine_x (x' : Z) (p : ppu_t) : ppu_t :=
  mkPpu (nametable p) (palette p) (oam p) (ctrl p) (mask p) (status p)
    (oam_addr p) (v p) (t p) x' (w p) (data_buf p) (scanline p) (cycle p)
    (frame p) (nmi_occurred p) (nmi_output p) (framebuffer p).
Definition set_w (x' : bool) (p : ppu_t) : ppu_t :=
  mkPpu (nametable p) (palette p) (oam p) (ctrl p) (mask p) (status p)
    (oam_addr p) (v p) (t p) (fine_x p) x' (data_buf p) (scanline p)
    (cycle p) (frame p) (nmi_occurred p) (nmi_output p) (framebuffer p).
Definition set_data_buf (x' : Z) (p : ppu_t) : ppu_t :=
  mkPpu (nametable p) (palette p) (oam p) (ctrl p) (mask p) (status p)
    (oam_addr p) (v p) (t p) (fine_x p) (w p) x' (scanline p) (cycle p)
    (frame p) (nmi_occurred p) (nmi_output p) (framebuffer p).
Definition set_scanline (x' : Z) (p : ppu_t) : ppu_t :=
  mkPpu (nametable p) (palette p) (oam p) (ctrl p) (mask p) (status p)
    (oam_addr p) (v p) (t p) (fine_x p) (w p) (data_buf p) x' (cycle p)
    (frame p) (nmi_occurred p) (nmi_output p) (framebuffer p).
Definition set_cycle (x' : Z) (p : ppu_t) : ppu_t :=
  mkPpu (nametable p) (palette p) (oam p) (ctrl p) (mask p) (status p)
    (oam_addr p) (v p) (t p) (fine_x p) (w p) (data_buf p) (scanline p) x'
    (frame p) (nmi_occurred p) (nmi_output p) (framebuffer p).
Definition set_frame (x' : Z) (p : ppu_t) : ppu_t :=
  mkPpu (nametable p) (palette p) (oam p) (ctrl p) (mask p) (status p)
    (oam_addr p) (v p) (t p) (fine_x p) (w p) (data_buf p) (scanline p)
    (cycle p) x' (nmi_occurred p) (nmi_output p) (framebuffer p).
Definition set_nmi_occurred (x' : bool) (p : ppu_t) : ppu_t :=
  mkPpu (nametable p) (palette p) (oam p) (ctrl p) (mask p) (status p)
    (oam_addr p) (v p) (t p) (fine_x p) (w p) (data_buf p) (scanline p)
    (cycle p) (frame p) x' (nmi_output p) (framebuffer p).
Definition set_nmi_output (x' : bool) (p : ppu_t) : ppu_t :=
  mkPpu (nametable p) (palette p) (oam p) (ctrl p) (mask p) (status p)
    (oam_addr p) (v p) (t p) (fine_x p) (w p) (data_buf p) (scanline p)
    (cycle p) (frame p) (nmi_occurred p) x' (framebuffer p).
Definition set_framebuffer (x' : Z -> Z) (p : ppu_t) : ppu_t :=
  mkPpu (nametable p) (palette p) (oam p) (ctrl p) (mask p) (status p)
    (oam_addr p) (v p) (t p) (fine_x p) (w p) (data_buf p) (scanline p)
    (cycle p) (frame p) (nmi_occurred p) (nmi_output p) x'.

(** Standard 2C02 palette (64 entries, ARGB8888). *)
Definition nes_palette_table : list Z :=
  [
    0xFF666666; 0xFF002A88; 0xFF1412A7; 0xFF3B00A4;
    0xFF5C007E; 0xFF6E0040; 0xFF6C0600; 0xFF561D00;
    0xFF333500; 0xFF0B4800; 0xFF005200; 0xFF004F08;
    0xFF00404D; 0xFF000000; 0xFF000000; 0xFF000000;
    0xFFADADAD; 0xFF155FD9; 0xFF4240FF; 0xFF7527FE;
    0xFFA01ACC; 0xFFB71E7B; 0xFFB53120; 0xFF994E00;
    0xFF6B6D00; 0xFF388700; 0xFF0C9300; 0xFF008F32;
    0xFF007C8D; 0xFF000000; 0xFF000000; 0xFF000000;
    0xFFFFFFFF; 0xFF64B0FF; 0xFF9290FF; 0xFFC676FF;
    0xFFF36AFF; 0xFFFE6ECC; 0xFFFE8170; 0xFFEA9E22;
    0xFFBCBE00; 0xFF88D800; 0xFF5CE430; 0xFF45E082;
    0xFF48CDDE; 0xFF4F4F4F; 0xFF000000; 0xFF000000;
    0xFFFFFFFF; 0xFFC0DFFF; 0xFFD3D2FF; 0xFFE8C8FF;
    0xFFFBC2FF; 0xFFFEC4EA; 0xFFFECCC5; 0xFFF7D8A5;
    0xFFE4E594; 0xFFCFEF96; 0xFFBDF4AB; 0xFFB3F3CC;
    0xFFB5EBF2; 0xFFB8B8B8; 0xFF000000; 0xFF000000 ].

Definition nes_palette (i : Z) : Z := nth (Z.to_nat i) nes_palette_table 0.

(** [0, 1, .., n-1], the index range of a [for] loop. *)
Definition zrange (n : nat) : list Z := map Z.of_nat (seq 0 n).

(** *** PPU internal bus *)

(** Sprite-palette entries $10/$14/$18/$1C mirror $00/$04/$08/$0C. *)
Definition palette_index (idx : Z) : Z :=
  let idx := if idx =? 0x10 then 0x00 else idx in
  let idx := if idx =? 0x14 then 0x04 else idx in
  let idx := if idx =? 0x18 then 0x08 else idx in
  if idx =? 0x1C then 0x0C else idx.

(** Physical nametable index of a bus address in $2000-$3EFF. *)
Definition nametable_index (cart : cartridge_t) (addr : Z) : Z :=
  let addr := Z.land addr 0x2FFF in
  let offset := addr - 0x2000 in
  let table := offset / 0x0400 in
  let index := offset mod 0x0400 in
  match mirror cart with
  | MIRROR_VERTICAL => Z.land table 1 * 0x0400 + index
  | MIRROR_HORIZONTAL => table / 2 * 0x0400 + index
  end.

Definition ppu_bus_read (cart : cartridge_t) (ppu : ppu_t) (addr : Z) : Z :=
  let addr := Z.land addr 0x3FFF in
  if addr <? 0x2000 then cartridge_chr_read cart addr
  else if addr <? 0x3F00 then nametable ppu (nametable_index cart addr)
  else palette ppu (palette_index (Z.land addr 0x1F)).

Definition ppu_bus_write (cart : cartridge_t) (ppu : ppu_t) (addr val : Z)
  : ppu_t * cartridge_t :=
  let addr := Z.land addr 0x3FFF in
  if addr <? 0x2000 then (ppu, cartridge_chr_write cart addr val)
  else if addr <? 0x3F00 then
    (set_nametable (upd (nametable ppu) (nametable_index cart addr) val) ppu, cart)
  else
    (set_palette (upd (palette ppu) (palette_index (Z.land addr 0x1F))
                      (Z.land val 0x3F)) ppu, cart).

(** *** CPU-facing registers *)

(** [ppu->v += (ppu->ctrl & 0x04) ? 32 : 1]. *)
Definition increment_v (ppu : ppu_t) : ppu_t :=
  set_v (u16 (v ppu + (if nz (Z.land (ctrl ppu) 0x04) then 32 else 1))) ppu.

Definition ppu_cpu_write (cart : cartridge_t) (ppu : ppu_t) (addr val : Z)
  : ppu_t * cartridge_t :=
  let reg := Z.land addr 0x07 in
  if reg =? 0 then
    let ppu := set_ctrl val ppu in
    let prev_nmi := nmi_output ppu in
    let ppu := set_nmi_output (nz (Z.land val 0x80)) ppu in
    let ppu := set_t (Z.lor (Z.land (t ppu) 0xF3FF)
                            (Z.shiftl (Z.land val 0x03) 10)) ppu in
    let ppu :=
      if negb prev_nmi && nmi_output ppu && nmi_occurred ppu
      then set_nmi_occurred true ppu
      else ppu in
    (ppu, cart)
  else if reg =? 1 then (set_mask val ppu, cart)
  else if reg =? 3 then (set_oam_addr val ppu, cart)
  else if reg =? 4 then
    let ppu := set_oam (upd (oam ppu) (oam_addr ppu) val) ppu in
    (set_oam_addr (u8 (oam_addr ppu + 1)) ppu, cart)
  else if reg =? 5 then
    if negb (w ppu) then
      let ppu := set_t (Z.lor (Z.land (t ppu) 0xFFE0) (Z.shiftr val 3)) ppu in
      let ppu := set_fine_x (Z.land val 0x07) ppu in
      (set_w true ppu, cart)
    else
      let ppu := set_t (Z.lor (Z.lor (Z.land (t ppu) 0x8C1F)
                                     (Z.shiftl (Z.land val 0x07) 12))
                              (Z.shiftl (Z.land val 0xF8) 2)) ppu in
      (set_w false ppu, cart)
  else if reg =? 6 then
    if negb (w ppu) then
      let ppu := set_t (Z.lor (Z.land (t ppu) 0x00FF)
                              (Z.shiftl (Z.land val 0x3F) 8)) ppu in
      (set_w true ppu, cart)
    else
      let ppu := set_t (Z.lor (Z.land (t ppu) 0xFF00) val) ppu in
      let ppu := set_v (t ppu) ppu in
      (set_w false ppu, cart)
  else if reg =? 7 then
    let r := ppu_bus_write cart ppu (v ppu) val in
    (increment_v (fst r), snd r)
  else (ppu, cart).

Definition ppu_cpu_read (cart : cartridge_t) (ppu : ppu_t) (addr : Z)
  : Z * ppu_t :=
  let reg := Z.land addr 0x07 in
  if reg =? 2 then
    let result := Z.land (status ppu) 0xE0 in
    let result := if nmi_occurred ppu then Z.lor result 0x80 else result in
    let ppu := set_nmi_occurred false ppu in
    let ppu := set_w false ppu in
    (result, ppu)
  else if reg =? 4 then (oam ppu (oam_addr ppu), ppu)
  else if reg =? 7 then
    let r :=
      if v ppu <? 0x3F00 then
        let data := data_buf ppu in
        (data, set_data_buf (ppu_bus_read cart ppu (v ppu)) ppu)
      else
        let data := ppu_bus_read cart ppu (v ppu) in
        (data, set_data_buf (ppu_bus_read cart ppu (u16 (v ppu - 0x1000))) ppu) in
    (fst r, increment_v (snd r))
  else (0, ppu).

(** *** render_scanline *)

(** One background tile: the per-pixel buffers and the local copy of [v]. *)
Definition bg_tile (cart : cartridge_t) (ppu : ppu_t)
    (st : (Z -> Z) * (Z -> Z) * Z) (tile : Z) : (Z -> Z) * (Z -> Z) * Z :=
  let '(bg_pixel, bg_palette, v) := st in
  let nt_addr := Z.lor 0x2000 (Z.land v 0x0FFF) in
  let tile_id := ppu_bus_read cart ppu nt_addr in
  let attr_addr :=
    Z.lor (Z.lor (Z.lor 0x23C0 (Z.land v 0x0C00)) (Z.land (Z.shiftr v 4) 0x38))
          (Z.land (Z.shiftr v 2) 0x07) in
  let attr_byte := ppu_bus_read cart ppu attr_addr in
  let shift := Z.lor (Z.land (Z.shiftr v 4) 0x04) (Z.land v 0x02) in
  let pal := Z.land (Z.shiftr attr_byte shift) 0x03 in
  let pattern_base := if nz (Z.land (ctrl ppu) 0x10) then 0x1000 else 0x0000 in
  let fine_y := Z.land (Z.shiftr v 12) 0x07 in
  let plane0 := ppu_bus_read cart ppu (pattern_base + tile_id * 16 + fine_y) in
  let plane1 := ppu_bus_read cart ppu (pattern_base + tile_id * 16 + fine_y + 8) in
  let bufs :=
    fold_left
      (fun (b : (Z -> Z) * (Z -> Z)) (px : Z) =>
         let screen_x := tile * 8 + px - fine_x ppu in
         if (screen_x <? 0) || (screen_x >=? 256) then b
         else
           let bit := 7 - px in
           let pixel := u8 (Z.lor (Z.shiftl (Z.land (Z.shiftr plane1 bit) 1) 1)
                                  (Z.land (Z.shiftr plane0 bit) 1)) in
           (upd (fst b) screen_x pixel, upd (snd b) screen_x pal))
      (zrange 8) (bg_pixel, bg_palette) in
  let v :=
    if Z.land v 0x001F =? 31
    then Z.lxor (u16 (Z.land v (Z.lnot 0x001F))) 0x0400
    else u16 (v + 1) in
  (fst bufs, snd bufs, v).

(** The four per-pixel sprite buffers. *)
Record sprite_bufs : Type := mkSpr {
  spr_color : Z -> Z;
  spr_priority : Z -> Z;
  spr_opaque : Z -> Z;
  spr_zero : Z -> Z
}.

(** Sprite evaluation: the first eight OAM entries on scanline [y]. *)
Definition sprite_indices (ppu : ppu_t) (y sprite_height : Z) : list Z :=
  fold_left
    (fun (found : list Z) (i : Z) =>
       if Z.of_nat (length found) <? 8 then
         let sy := oam ppu (i * 4) in
         let row := y - (sy + 1) in
         if (row >=? 0) && (row <? sprite_height) then found ++ [i] else found
       else found)
    (zrange 64) [].

Definition draw_sprite (cart : cartridge_t) (ppu : ppu_t) (y sprite_height : Z)
    (bufs : sprite_bufs) (i : Z) : sprite_bufs :=
  let sy := oam ppu (i * 4 + 0) in
  let tile := oam ppu (i * 4 + 1) in
  let attr := oam ppu (i * 4 + 2) in
  let sx := oam ppu (i * 4 + 3) in
  let row := y - (sy + 1) in
  let row := if nz (Z.land attr 0x80) then sprite_height - 1 - row else row in
  let pattern_addr :=
    if sprite_height =? 8 then
      let table := if nz (Z.land (ctrl ppu) 0x08) then 0x1000 else 0x0000 in
      u16 (table + tile * 16 + row)
    else
      let table := if nz (Z.land tile 1) then 0x1000 else 0x0000 in
      let tile_num := Z.land tile 0xFE in
      let tile_num := if row >=? 8 then u8 (tile_num + 1) else tile_num in
      let row := if row >=? 8 then row - 8 else row in
      u16 (table + tile_num * 16 + row) in
  let plane0 := ppu_bus_read cart ppu pattern_addr in
  let plane1 := ppu_bus_read cart ppu (pattern_addr + 8) in
  fold_left
    (fun (b : sprite_bufs) (px : Z) =>
       let bit := if nz (Z.land attr 0x40) then px else 7 - px in
       let pixel := u8 (Z.lor (Z.shiftl (Z.land (Z.shiftr plane1 bit) 1) 1)
                              (Z.land (Z.shiftr plane0 bit) 1)) in
       if pixel =? 0 then b
       else
         let screen_x := sx + px in
         if screen_x >=? 256 then b
         else
           let spr_pal := Z.land attr 0x03 in
           let pal_addr := 0x10 + spr_pal * 4 + pixel in
           let pal_addr := if pal_addr =? 0x10 then 0x00 else pal_addr in
           mkSpr (upd (spr_color b) screen_x (palette ppu pal_addr))
                 (upd (spr_priority b) screen_x (Z.land (Z.shiftr attr 5) 1))
                 (upd (spr_opaque b) screen_x 1)
                 (if i =? 0 then upd (spr_zero b) screen_x 1 else spr_zero b))
    (zrange 8) bufs.

(** Composition of one pixel into the status register and framebuffer. *)
Definition compose_pixel (y : Z) (bg_pixel bg_palette : Z -> Z)
    (spr : sprite_bufs) (ppu : ppu_t) (x : Z) : ppu_t :=
  let show_bg := negb (bg_pixel x =? 0)
                 && nz (Z.land (mask ppu) 0x08)
                 && ((x >=? 8) || nz (Z.land (mask ppu) 0x02)) in
  let show_spr := nz (spr_opaque spr x)
                  && nz (Z.land (mask ppu) 0x10)
                  && ((x >=? 8) || nz (Z.land (mask ppu) 0x04)) in
  let ppu :=
    if show_bg && show_spr && nz (spr_zero spr x) && negb (x =? 255)
    then set_status (u8 (Z.lor (status ppu) 0x40)) ppu
    else ppu in
  let color :=
    if negb show_bg && negb show_spr then palette ppu 0
    else if show_spr && negb show_bg then spr_color spr x
    else if negb show_spr && show_bg
    then palette ppu (bg_palette x * 4 + bg_pixel x)
    else if spr_priority spr x =? 0 then spr_color spr x
    else palette ppu (bg_palette x * 4 + bg_pixel x) in
  set_framebuffer
    (upd (framebuffer ppu) (y * NES_WIDTH + x) (nes_palette (Z.land color 0x3F)))
    ppu.

(** Increment fine Y of [v], carrying into coarse Y. *)
Definition increment_fine_y (v : Z) : Z :=
  if negb (Z.land v 0x7000 =? 0x7000) then u16 (v + 0x1000)
  else
    let v := u16 (Z.land v (Z.lnot 0x7000)) in
    let cy := Z.shiftr (Z.land v 0x03E0) 5 in
    let v := if cy =? 29 then Z.lxor v 0x0800 else v in
    let cy := if cy =? 29 then 0 else if cy =? 31 then 0 else cy + 1 in
    u16 (Z.lor (Z.land v (Z.lnot 0x03E0)) (Z.shiftl cy 5)).

(** [render_scanline].  The buffers [spr_color] and [spr_priority] are
    uninitialised in the source and read only where [spr_opaque] was set
    together with them; they start at 0 here. *)
Definition render_scanline (cart : cartridge_t) (ppu : ppu_t) : ppu_t :=
  let y := scanline ppu in
  let zero := fun _ : Z => 0 in
  let bg :=
    if nz (Z.land (mask ppu) 0x08)
    then fold_left (bg_tile cart ppu) (zrange 33) (zero, zero, v ppu)
    else (zero, zero, v ppu) in
  let bg_pixel := fst (fst bg) in
  let bg_palette := snd (fst bg) in
  let spr :=
    if nz (Z.land (mask ppu) 0x10) then
      let sprite_height := if nz (Z.land (ctrl ppu) 0x20) then 16 else 8 in
      fold_left (draw_sprite cart ppu y sprite_height)
                (rev (sprite_indices ppu y sprite_height))
                (mkSpr zero zero zero zero)
    else mkSpr zero zero zero zero in
  let ppu := fold_left (compose_pixel y bg_pixel bg_palette spr) (zrange 256) ppu in
  let ppu := set_v (increment_fine_y (v ppu)) ppu in
  set_v (u16 (Z.lor (Z.land (v ppu) (Z.lnot 0x041F)) (Z.land (t ppu) 0x041F))) ppu.

(** *** ppu_step: one PPU cycle; returns whether an NMI should fire *)

(** The tail of [ppu_step]: advance to the next cycle/scanline. *)
Definition advance (ppu : ppu_t) : ppu_t :=
  let ppu := set_cycle (cycle ppu + 1) ppu in
  if cycle ppu >? 340 then
    let ppu := set_cycle 0 ppu in
    let ppu := set_scanline (scanline ppu + 1) ppu in
    if scanline ppu >? 260 then
      let ppu := set_scanline (-1) ppu in
      set_frame (u64 (frame ppu + 1)) ppu
    else ppu
  else ppu.

Definition ppu_step (cart : cartridge_t) (ppu : ppu_t) : bool * ppu_t :=
  let rendering_enabled := negb (Z.land (mask ppu) 0x18 =? 0) in
  let r :=
    if scanline ppu =? -1 then
      let ppu :=
        if cycle ppu =? 1 then
          let ppu := set_nmi_occurred false ppu in
          set_status (u8 (Z.land (status ppu) (Z.lnot 0xE0))) ppu
        else ppu in
      let ppu :=
        if rendering_enabled && (cycle ppu >=? 280) && (cycle ppu <=? 304)
        then set_v (u16 (Z.lor (Z.land (v ppu) (Z.lnot 0x7BE0))
                               (Z.land (t ppu) 0x7BE0))) ppu
        else ppu in
      (false, ppu)
    else if (scanline ppu >=? 0) && (scanline ppu <? 240) then
      if (cycle ppu =? 0) && rendering_enabled
      then (false, render_scanline cart ppu)
      else (false, ppu)
    else if (scanline ppu =? 241) && (cycle ppu =? 1) then
      let ppu := set_nmi_occurred true ppu in
      let ppu := set_status (u8 (Z.lor (status ppu) 0x80)) ppu in
      (nmi_output ppu, ppu)
    else (false, ppu) in
  (fst r, advance (snd r)).

(** [ppu_init] after the [memset]: every member zero, pre-render line. *)
Definition ppu_init : ppu_t :=
  let zero := fun _ : Z => 0 in
  mkPpu zero zero zero 0 0 0 0 0 0 0 false 0 (-1) 0 0 false false zero.

Definition ppu_reset (ppu : ppu_t) : ppu_t := ppu_init.

End Ppu.

(* ===================================================================== *)
(** * nes.h, nes.c: the system bus and the frame loop *)
(* ===================================================================== *)

Module Nes.

Import Cpu6502.

(** [struct nes_t] without its [cpu] member: [nes_bus_read] and
    [nes_bus_write] receive the system as [bus_ctx] and never touch
    [nes->cpu], so the cpu is carried beside this record (see [machine]). *)
Record nes_t : Type := mkNes {
  ppu : Ppu.ppu_t;
  cart : Cartridge.cartridge_t;
  ram : Z -> Z;
  controller : Z -> Z;
  controller_shift : Z -> Z;
  controller_strobe : bool;
  dma_pending : bool;
  dma_page : Z;
  dma_addr : Z;
  dma_dummy : bool;
  system_cycles : Z
}.

Definition set_ppu (x' : Ppu.ppu_t) (n : nes_t) : nes_t :=
  mkNes x' (cart n) (ram n) (controller n) (controller_shift n)
    (controller_strobe n) (dma_pending n) (dma_page n) (dma_addr n)
    (dma_dummy n) (system_cycles n).
Definition set_cart (x' : Cartridge.cartridge_t) (n : nes_t) : nes_t :=
  mkNes (ppu n) x' (ram n) (controller n) (controller_shift n)
    (controller_strobe n) (dma_pending n) (dma_page n) (dma_addr n)
    (dma_dummy n) (system_cycles n).
Definition set_ram (x' : Z -> Z) (n : nes_t) : nes_t :=
  mkNes (ppu n) (cart n) x' (controller n) (controller_shift n)
    (controller_strobe n) (dma_pending n) (dma_page n) (dma_addr n)
    (dma_dummy n) (system_cycles n).
Definition set_controller (x' : Z -> Z) (n : nes_t) : nes_t :=
  mkNes (ppu n) (cart n) (ram n) x' (controller_shift n)
    (controller_strobe n) (dma_pending n) (dma_page n) (dma_addr n)
    (dma_dummy n) (system_cycles n).
Definition set_controller_shift (x' : Z -> Z) (n : nes_t) : nes_t :=
  mkNes (ppu n) (cart n) (ram n) (controller n) x' (controller_strobe n)
    (dma_pending n) (dma_page n) (dma_addr n) (dma_dummy n)
    (system_cycles n).
Definition set_controller_strobe (x' : bool) (n : nes_t) : nes_t :=
  mkNes (ppu n) (cart n) (ram n) (controller n) (controller_shift n) x'
    (dma_pending n) (dma_page n) (dma_addr n) (dma_dummy n)
    (system_cycles n).
Definition set_dma_pending (x' : bool) (n : nes_t) : nes_t :=
  mkNes (ppu n) (cart n) (ram n) (controller n) (controller_shift n)
    (controller_strobe n) x' (dma_page n) (dma_addr n) (dma_dummy n)
    (system_cycles n).
Definition set_dma_page (x' : Z) (n : nes_t) : nes_t :=
  mkNes (ppu n) (cart n) (ram n) (controller n) (controller_shift n)
    (controller_strobe n) (dma_pending n) x' (dma_addr n) (dma_dummy n)
    (system_cycles n).

Definition set_oam_byte (i val : Z) (n : nes_t) : nes_t :=
  set_ppu (Ppu.set_oam (upd (Ppu.oam (ppu n)) i val) (ppu n)) n.

Definition nes_bus_read (nes : nes_t) (addr : Z) : Z * nes_t :=
  if addr <? 0x2000 then (ram nes (Z.land addr 0x07FF), nes)
  else if addr <? 0x4000 then
    let r := Ppu.ppu_cpu_read (cart nes) (ppu nes) (Z.land addr 0x0007) in
    (fst r, set_ppu (snd r) nes)
  else if addr =? 0x4016 then
    let bit := Z.land (controller_shift nes 0) 0x01 in
    (bit, set_controller_shift
            (upd (controller_shift nes) 0 (u8 (Z.shiftr (controller_shift nes 0) 1)))
            nes)
  else if addr =? 0x4017 then
    let bit := Z.land (controller_shift nes 1) 0x01 in
    (bit, set_controller_shift
            (upd (controller_shift nes) 1 (u8 (Z.shiftr (controller_shift nes 1) 1)))
            nes)
  else if addr <? 0x4020 then (0, nes)
  else (Cartridge.cartridge_cpu_read (cart nes) addr, nes).

Definition nes_bus_write (nes : nes_t) (addr val : Z) : nes_t :=
  if addr <? 0x2000 then set_ram (upd (ram nes) (Z.land addr 0x07FF) val) nes
  else if addr <? 0x4000 then
    let r := Ppu.ppu_cpu_write (cart nes) (ppu nes) (Z.land addr 0x0007) val in
    set_cart (snd r) (set_ppu (fst r) nes)
  else if addr =? 0x4014 then
    set_dma_page val (set_dma_pending true nes)
  else if addr =? 0x4016 then
    if nz (Z.land val 0x01) then set_controller_strobe true nes
    else if controller_strobe nes then
      let nes := set_controller_shift
                   (upd (controller_shift nes) 0 (controller nes 0)) nes in
      let nes := set_controller_shift
                   (upd (controller_shift nes) 1 (controller nes 1)) nes in
      set_controller_strobe false nes
    else nes
  else if addr <? 0x4020 then nes
  else set_cart (Cartridge.cartridge_cpu_write (cart nes) addr val) nes.

(** The callbacks installed by [cpu6502_init(&nes->cpu, nes_bus_read,
    nes_bus_write, nes)]. *)
Definition nes_bus : bus_t nes_t := mkBus nes_t nes_bus_read nes_bus_write.

(** The whole system: [nes->cpu] and the rest of [*nes]. *)
Definition machine : Type := (cpu6502_t * nes_t)%type.

(** [nes_init] once [cartridge_load] has produced [c]. *)
Definition nes_init (c : Cartridge.cartridge_t) : machine :=
  let zero := fun _ : Z => 0 in
  let nes := mkNes Ppu.ppu_init c zero zero zero false false 0 0 false 0 in
  let cpu := cpu6502_init (mkCpu 0 0 0 0 0 0 0 false false) in
  snd (cpu6502_reset nes_bus (cpu, nes)).

(** [if (ppu_step(&nes->ppu)) cpu6502_nmi(&nes->cpu);]. *)
Definition ppu_tick (m : machine) : machine :=
  let r := Ppu.ppu_step (cart (snd m)) (ppu (snd m)) in
  let m := (fst m, set_ppu (snd r) (snd m)) in
  if fst r then snd (cpu6502_nmi nes_bus m) else m.

Definition ppu_ticks (n : nat) (m : machine) : machine :=
  Nat.iter n ppu_tick m.

(** One byte of the OAM DMA copy. *)
Definition dma_copy_byte (nes : nes_t) (i : Z) : nes_t :=
  let src := Z.lor (u16 (Z.shiftl (dma_page nes) 8)) i in
  let r := nes_bus_read nes src in
  set_oam_byte i (fst r) (snd r).

(** The body of the [while] loop of [nes_step_frame]. *)
Definition nes_step_frame_body (m : machine) : machine :=
  if dma_pending (snd m) then
    let nes := fold_left dma_copy_byte (Ppu.zrange 256) (snd m) in
    let nes := set_dma_pending false nes in
    let m := ppu_ticks 1542 (fst m, nes) in
    (set_cycles (u64 (cycles (fst m) + 514)) (fst m), snd m)
  else
    let prev := cycles (fst m) in
    let m := snd (cpu6502_step nes_bus m) in
    let elapsed := u64 (cycles (fst m) - prev) in
    ppu_ticks (Z.to_nat (u64 (elapsed * 3))) m.

(** [while (nes->ppu.frame == start_frame) body], run for at most [fuel]
    iterations; [None] when the guard still holds after [fuel] of them. *)
Fixpoint nes_step_frame_loop (fuel : nat) (start_frame : Z) (m : machine)
  : option machine :=
  if Ppu.frame (ppu (snd m)) =? start_frame then
    match fuel with
    | O => None
    | S fuel' => nes_step_frame_loop fuel' start_frame (nes_step_frame_body m)
    end
  else Some m.

Definition nes_step_frame (fuel : nat) (m : machine) : option machine :=
  nes_step_frame_loop fuel (Ppu.frame (ppu (snd m))) m.

Definition nes_set_controller (nes : nes_t) (port buttons : Z) : nes_t :=
  if (port <? 0) || (port >? 1) then nes
  else set_controller (upd (controller nes) port buttons) nes.

End Nes.

(* ===================================================================== *)
(** * Definitions used by the statements *)
(* ===================================================================== *)

(** ** Decimal mode: the arithmetic reading of [do_adc] and [do_sbc] *)

Module Decimal.

(** ADC: low nibble sum, decimal-adjusted. *)
Definition adc_lo (a m c : Z) : Z :=
  let s := a mod 16 + m mod 16 + c in if 9 <? s then s + 6 else s.

(** ADC: high nibble sum with the carry of the low nibble, not yet
    adjusted. *)
Definition adc_hi (a m c : Z) : Z :=
  a / 16 + m / 16 + (if 15 <? adc_lo a m c then 1 else 0).

(** ADC: the byte as it stands before the high-nibble fixup. *)
Definition adc_partial (a m c : Z) : Z :=
  (16 * adc_hi a m c + adc_lo a m c mod 16) mod 256.

Definition adc_hi_fixed (a m c : Z) : Z :=
  let h := adc_hi a m c in if 9 <? h then h + 6 else h.

Definition adc_result (a m c : Z) : Z :=
  16 * (adc_hi_fixed a m c mod 16) + adc_lo a m c mod 16.

(** Operands of equal sign whose result has the other sign (bit 7). *)
Definition sign_overflow (a m r : Z) : bool :=
  Bool.eqb (Z.testbit a 7) (Z.testbit m 7)
  && negb (Bool.eqb (Z.testbit a 7) (Z.testbit r 7)).

(** SBC: the low nibble borrows. *)
Definition sbc_borrow_lo (a m b : Z) : bool := a mod 16 - m mod 16 - b <? 0.

Definition sbc_lo (a m b : Z) : Z :=
  let d := a mod 16 - m mod 16 - b in if d <? 0 then d - 6 else d.

Definition sbc_hi (a m b : Z) : Z :=
  let h := a / 16 - m / 16 + (if sbc_borrow_lo a m b then -1 else 0) in
  if h <? 0 then h - 6 else h.

Definition sbc_result (a m b : Z) : Z :=
  16 * (sbc_hi a m b mod 16) + sbc_lo a m b mod 16.

(** A signed difference that does not fit eight bits. *)
Definition signed_overflow (s : Z) : bool := (s <? -128) || (127 <? s).

(** The borrow SBC takes in: [1 - C]. *)
Definition borrow_in (c : Cpu6502.cpu6502_t) : Z := 1 - Cpu6502.carry_in c.

(** The value of a packed BCD byte, and the packed byte of a value. *)
Definition bcd_value (x : Z) : Z := 10 * (x / 16) + x mod 16.
Definition bcd_pack (n : Z) : Z := 16 * (n / 10) + n mod 10.

(** What decimal ADC does to a cpu with operand [m]. *)
Definition adc_decimal_spec (c : Cpu6502.cpu6502_t) (m : Z) : Prop :=
  let cin := Cpu6502.carry_in c in
  let c' := Cpu6502.do_adc m c in
  Cpu6502.a c' = adc_result (Cpu6502.a c) m cin /\
  Cpu6502.cpu_get_flag c' Cpu6502.CPU_FLAG_Z
    = ((Cpu6502.a c + m + cin) mod 256 =? 0) /\
  Cpu6502.cpu_get_flag c' Cpu6502.CPU_FLAG_N
    = Z.testbit (adc_partial (Cpu6502.a c) m cin) 7 /\
  Cpu6502.cpu_get_flag c' Cpu6502.CPU_FLAG_V
    = sign_overflow (Cpu6502.a c) m (adc_partial (Cpu6502.a c) m cin) /\
  Cpu6502.cpu_get_flag c' Cpu6502.CPU_FLAG_C
    = (15 <? adc_hi_fixed (Cpu6502.a c) m cin).

(** What decimal SBC does: [d] is the binary difference [A - M - (1 - C)]. *)
Definition sbc_decimal_spec (c : Cpu6502.cpu6502_t) (m : Z) : Prop :=
  let b := borrow_in c in
  let d := Cpu6502.a c - m - b in
  let c' := Cpu6502.do_sbc m c in
  Cpu6502.a c' = sbc_result (Cpu6502.a c) m b /\
  Cpu6502.cpu_get_flag c' Cpu6502.CPU_FLAG_C = (0 <=? d) /\
  Cpu6502.cpu_get_flag c' Cpu6502.CPU_FLAG_Z = (d mod 256 =? 0) /\
  Cpu6502.cpu_get_flag c' Cpu6502.CPU_FLAG_N = Z.testbit (d mod 256) 7 /\
  Cpu6502.cpu_get_flag c' Cpu6502.CPU_FLAG_V
    = signed_overflow (i8 (Cpu6502.a c) - i8 m - b).

End Decimal.

(** ** Status register: the two bits that never change in the cpu *)

Module Status.

Import Cpu6502.

(** Bit 5 and bit 4 of the live status register. *)
Definition live_bits (c : cpu6502_t) : bool * bool :=
  (Z.testbit (status c) 5, Z.testbit (status c) 4).

(** Bit 5 is 1 and bit 4 is 0. *)
Definition status_ok (c : cpu6502_t) : Prop :=
  Z.testbit (status c) 5 = true /\ Z.testbit (status c) 4 = false.

(** A flag other than B and U. *)
Definition arith_flag (f : Z) : Prop :=
  f = CPU_FLAG_C \/ f = CPU_FLAG_Z \/ f = CPU_FLAG_I \/ f = CPU_FLAG_D \/
  f = CPU_FLAG_V \/ f = CPU_FLAG_N.

(** The live status register keeps bit 5 = 1 and bit 4 = 0 across a step,
    an IRQ, an NMI and a reset from [(c, ctx)], and [cpu6502_init] sets
    them up from any [c0]. *)
Definition status_bits_kept {B : Type} (bus : bus_t B) (c : cpu6502_t) (ctx : B)
    (c0 : cpu6502_t) : Prop :=
  status_ok (fst (snd (cpu6502_step bus (c, ctx)))) /\
  status_ok (fst (snd (cpu6502_irq bus (c, ctx)))) /\
  status_ok (fst (snd (cpu6502_nmi bus (c, ctx)))) /\
  status_ok (fst (snd (cpu6502_reset bus (c, ctx)))) /\
  status_ok (cpu6502_init c0).

End Status.

(** ** Cycle accounting: which opcodes may charge extra cycles *)

Module Timing.

Import Cpu6502.

Inductive opclass : Type := Plain | IndexedRead | Branch.

(** BPL BMI BVC BVS BCC BCS BNE BEQ. *)
Definition branch_opcodes : list Z :=
  [0x10; 0x30; 0x50; 0x70; 0x90; 0xB0; 0xD0; 0xF0].

(** The reads through abs,X / abs,Y / (zp),Y: LDA LDX LDY ADC SBC CMP AND
    EOR ORA. *)
Definition indexed_read_opcodes : list Z :=
  [ 0xBD; 0xB9; 0xB1; 0xBE; 0xBC;
    0x7D; 0x79; 0x71; 0xFD; 0xF9; 0xF1; 0xDD; 0xD9; 0xD1;
    0x3D; 0x39; 0x31; 0x5D; 0x59; 0x51; 0x1D; 0x19; 0x11 ].

Definition classify (opcode : Z) : opclass :=
  if existsb (Z.eqb opcode) branch_opcodes then Branch
  else if existsb (Z.eqb opcode) indexed_read_opcodes then IndexedRead
  else Plain.

(** The condition a branch opcode tests, on the cpu before the step. *)
Definition branch_taken (opcode : Z) (c : cpu6502_t) : bool :=
  if opcode =? 0x10 then negb (cpu_get_flag c CPU_FLAG_N)
  else if opcode =? 0x30 then cpu_get_flag c CPU_FLAG_N
  else if opcode =? 0x50 then negb (cpu_get_flag c CPU_FLAG_V)
  else if opcode =? 0x70 then cpu_get_flag c CPU_FLAG_V
  else if opcode =? 0x90 then negb (cpu_get_flag c CPU_FLAG_C)
  else if opcode =? 0xB0 then cpu_get_flag c CPU_FLAG_C
  else if opcode =? 0xD0 then negb (cpu_get_flag c CPU_FLAG_Z)
  else if opcode =? 0xF0 then cpu_get_flag c CPU_FLAG_Z
  else false.

Definition page (addr : Z) : Z := Z.land addr 0xFF00.

(** The addressing mode of an indexed read. *)
Inductive index_mode : Type := AbsoluteX | AbsoluteY | IndirectY.

(** abs,X: LDA LDY ADC SBC CMP AND EOR ORA. *)
Definition abx_opcodes : list Z := [0xBD; 0xBC; 0x7D; 0xFD; 0xDD; 0x3D; 0x5D; 0x1D].

(** abs,Y: LDA LDX ADC SBC CMP AND EOR ORA. *)
Definition aby_opcodes : list Z := [0xB9; 0xBE; 0x79; 0xF9; 0xD9; 0x39; 0x59; 0x19].

(** The mode of an indexed-read opcode; the remaining ones are (zp),Y. *)
Definition index_mode_of (opcode : Z) : index_mode :=
  if existsb (Z.eqb opcode) abx_opcodes then AbsoluteX
  else if existsb (Z.eqb opcode) aby_opcodes then AbsoluteY
  else IndirectY.

(** What the handlers leave behind, read off the cpu before ([c]) and
    after ([c']) the step: the page of the program counter for a taken
    branch, the [page_crossed] flag for an indexed read.  [extra_cycles]
    below is stated on the operand instead; the two agree
    ([extra_observed_operand]). *)
Definition extra_observed (opcode : Z) (c c' : cpu6502_t) : Z :=
  match classify opcode with
  | Branch =>
      if branch_taken opcode c then
        if page (u16 (pc c + 2)) =? page (pc c') then 1 else 2
      else 0
  | IndexedRead => if page_crossed c' then 1 else 0
  | Plain => 0
  end.

(** The opcodes that dispatch to [op_ill]. *)
Definition illegal_opcodes : list Z :=
  [
    0x02; 0x03; 0x04; 0x07; 0x0B; 0x0C; 0x0F; 0x12; 0x13; 0x14; 0x17; 0x1A;
    0x1B; 0x1C; 0x1F; 0x22; 0x23; 0x27; 0x2B; 0x2F; 0x32; 0x33; 0x34; 0x37;
    0x3A; 0x3B; 0x3C; 0x3F; 0x42; 0x43; 0x44; 0x47; 0x4B; 0x4F; 0x52; 0x53;
    0x54; 0x57; 0x5A; 0x5B; 0x5C; 0x5F; 0x62; 0x63; 0x64; 0x67; 0x6B; 0x6F;
    0x72; 0x73; 0x74; 0x77; 0x7A; 0x7B; 0x7C; 0x7F; 0x80; 0x82; 0x83; 0x87;
    0x89; 0x8B; 0x8F; 0x92; 0x93; 0x97; 0x9B; 0x9C; 0x9E; 0x9F; 0xA3; 0xA7;
    0xAB; 0xAF; 0xB2; 0xB3; 0xB7; 0xBB; 0xBF; 0xC2; 0xC3; 0xC7; 0xCB; 0xCF;
    0xD2; 0xD3; 0xD4; 0xD7; 0xDA; 0xDB; 0xDC; 0xDF; 0xE2; 0xE3; 0xE7; 0xEB;
    0xEF; 0xF2; 0xF3; 0xF4; 0xF7; 0xFA; 0xFB; 0xFC; 0xFF ].

Section Judgements.

Context {B : Type}.

(** [m] leaves the observation [obs] of the cpu unchanged. *)
Definition keeps {X : Type} (obs : cpu6502_t -> X) {A : Type} (m : @M B A) : Prop :=
  forall s, obs (fst (snd (m s))) = obs (fst s).

(** [m] maintains the cpu invariant [I]. *)
Definition preserves (I : cpu6502_t -> Prop) {A : Type} (m : @M B A) : Prop :=
  forall s, I (fst s) -> I (fst (snd (m s))).

(** [m] charges one cycle exactly when it ends with [page_crossed] set. *)
Definition charges (m : @M B unit) : Prop :=
  forall s, let c' := fst (snd (m s)) in
    cycles c' = if page_crossed c' then u64 (cycles (fst s) + 1) else cycles (fst s).

(** [m] charges as the branch [opcode] does; [m] starts after the opcode
    fetch, so the next instruction is at [pc + 1]. *)
Definition branches (opcode : Z) (m : @M B unit) : Prop :=
  forall s, let c := fst s in let c' := fst (snd (m s)) in
    cycles c' =
      if branch_taken opcode c then
        if page (u16 (pc c + 1)) =? page (pc c') then u64 (cycles c + 1)
        else u64 (u64 (cycles c + 1) + 1)
      else cycles c.

Definition handler_cycles (opcode : Z) (h : @M B unit) : Prop :=
  match classify opcode with
  | Plain => keeps cycles h
  | IndexedRead => charges h
  | Branch => branches opcode h
  end.

End Judgements.

Section Operands.

Context {B : Type} (bus : bus_t B).

(** The state once the opcode has been fetched: the program counter at
    the operand, the bus after the read of the opcode. *)
Definition fetched (c : cpu6502_t) (ctx : B) : cpu6502_t * B :=
  (set_pc (u16 (pc c + 1)) c, snd (read bus ctx (pc c))).

(** The operand of an indexed read in the state [s] that has the program
    counter at the operand: the base address, held in the two operand
    bytes or in the zero-page pointer that the operand byte names, and the
    effective address, the base plus the index register modulo 2^16. *)
Definition indexed_operand (mode : index_mode) (s : cpu6502_t * B) : Z * Z :=
  let c := fst s in
  match mode with
  | AbsoluteX | AbsoluteY =>
      let lo := read bus (snd s) (pc c) in
      let hi := read bus (snd lo) (u16 (pc c + 1)) in
      let base := Z.lor (Z.shiftl (u8 (fst hi)) 8) (u8 (fst lo)) in
      (base, u16 (base + match mode with AbsoluteX => x c | _ => y c end))
  | IndirectY =>
      let p := read bus (snd s) (pc c) in
      let ptr := u8 (fst p) in
      let lo := read bus (snd p) ptr in
      let hi := read bus (snd lo) (Z.land (ptr + 1) 0xFF) in
      let base := Z.lor (Z.shiftl (u8 (fst hi)) 8) (u8 (fst lo)) in
      (base, u16 (base + y c))
  end.

(** The base address and the effective address lie in different pages. *)
Definition page_cross (mode : index_mode) (s : cpu6502_t * B) : bool :=
  let o := indexed_operand mode s in negb (page (fst o) =? page (snd o)).

(** Where a taken branch goes: the address after the operand byte plus the
    operand as a signed byte, modulo 2^16. *)
Definition branch_target (s : cpu6502_t * B) : Z :=
  let c := fst s in
  u16 (u16 (pc c + 1) + i8 (u8 (fst (read bus (snd s) (pc c))))).

(** [m] ends with [page_crossed] telling whether the operand crosses a
    page. *)
Definition crosses (mode : index_mode) (m : @M B unit) : Prop :=
  forall s, page_crossed (fst (snd (m s))) = page_cross mode s.

(** [m] ends at the branch target when the branch is taken and behind the
    operand byte otherwise. *)
Definition jumps (opcode : Z) (m : @M B unit) : Prop :=
  forall s, pc (fst (snd (m s))) =
    if branch_taken opcode (fst s) then branch_target s else u16 (pc (fst s) + 1).

Definition handler_operand (opcode : Z) (h : @M B unit) : Prop :=
  match classify opcode with
  | Plain => True
  | IndexedRead => crosses (index_mode_of opcode) h
  | Branch => jumps opcode h
  end.

(** The cycles a step from [(c, ctx)] charges beyond the base cost, read
    off the operand: a taken branch costs 1, or 2 when its target lies in
    another page than the next instruction; an indexed read costs 1 when
    the base address and the effective address lie in different pages. *)
Definition extra_cycles (c : cpu6502_t) (ctx : B) : Z :=
  let opcode := u8 (fst (read bus ctx (pc c))) in
  let s := fetched c ctx in
  match classify opcode with
  | Branch =>
      if branch_taken opcode c then
        if page (u16 (pc c + 2)) =? page (branch_target s) then 1 else 2
      else 0
  | IndexedRead => if page_cross (index_mode_of opcode) s then 1 else 0
  | Plain => 0
  end.

(** What the step leaves in the cpu follows the operand: after an indexed
    read [page_crossed] tells whether base and effective address lie in
    different pages; after a branch the program counter is the target when
    the branch is taken and the next instruction otherwise. *)
Definition step_tracks (c : cpu6502_t) (ctx : B) : Prop :=
  let opcode := u8 (fst (read bus ctx (pc c))) in
  let c' := fst (snd (cpu6502_step bus (c, ctx))) in
  let s := fetched c ctx in
  (classify opcode = IndexedRead ->
   page_crossed c' = page_cross (index_mode_of opcode) s) /\
  (classify opcode = Branch ->
   pc c' = if branch_taken opcode c then branch_target s else u16 (pc c + 2)).

(** One step from [(c, ctx)] charges the base cost of the fetched opcode
    plus [extra_cycles], which is 0, 1 or 2; 1 comes only from a taken
    branch or an indexed read whose base and effective address lie in
    different pages, 2 only from a taken branch into another page. *)
Definition step_charges (c : cpu6502_t) (ctx : B) : Prop :=
  let opcode := u8 (fst (read bus ctx (pc c))) in
  let c' := fst (snd (cpu6502_step bus (c, ctx))) in
  let operand := indexed_operand (index_mode_of opcode) (fetched c ctx) in
  let extra := extra_cycles c ctx in
  cycles c' = cycles c + opcode_cycles opcode + extra /\
  cycles c <= cycles c' /\
  (extra = 0 \/ extra = 1 \/ extra = 2) /\
  (extra = 1 ->
   (classify opcode = Branch /\ branch_taken opcode c = true) \/
   (classify opcode = IndexedRead /\ page (fst operand) <> page (snd operand))) /\
  (extra = 2 ->
   classify opcode = Branch /\ branch_taken opcode c = true /\
   page (u16 (pc c + 2)) <> page (pc c')).

(** The counter does not wrap during the step. *)
Definition no_wrap (c : cpu6502_t) (ctx : B) : Prop :=
  let opcode := u8 (fst (read bus ctx (pc c))) in
  0 <= cycles c /\
  cycles c + opcode_cycles opcode + extra_cycles c ctx < 18446744073709551616.

(** The cycle count of one step: in general the new count is the old one
    plus base cost plus [extra_cycles] modulo 2^64, the flag and the
    program counter follow the operand, and without wrap-around the step
    charges exactly that much. *)
Definition step_cycles (c : cpu6502_t) (ctx : B) : Prop :=
  let opcode := u8 (fst (read bus ctx (pc c))) in
  let c' := fst (snd (cpu6502_step bus (c, ctx))) in
  cycles c' = u64 (cycles c + opcode_cycles opcode + extra_cycles c ctx) /\
  step_tracks c ctx /\
  (no_wrap c ctx -> step_charges c ctx).

End Operands.

End Timing.

(** ** Runs of the PPU and of the controller port *)

Module Runs.

Import Cartridge Ppu Nes.

(** Tick the PPU until it stands at scanline [sl], cycle [cy]; the trace
    records where each tick started and whether it signalled an NMI. *)
Fixpoint ppu_run_until (fuel : nat) (sl cy : Z) (cart : cartridge_t) (ppu : ppu_t)
  : option (list (Z * Z * bool) * ppu_t) :=
  if (scanline ppu =? sl) && (cycle ppu =? cy) then Some ([], ppu)
  else
    match fuel with
    | O => None
    | S fuel' =>
        let r := ppu_step cart ppu in
        match ppu_run_until fuel' sl cy cart (snd r) with
        | Some (trace, ppu') => Some ((scanline ppu, cycle ppu, fst r) :: trace, ppu')
        | None => None
        end
    end.

Definition nmi_count (trace : list (Z * Z * bool)) : nat :=
  length (filter (fun e => snd e) trace).

(** Write [b] at [waddr] on the PPU bus, then read [raddr]. *)
Definition palette_readback (cart : cartridge_t) (ppu : ppu_t) (waddr raddr b : Z) : Z :=
  let w := ppu_bus_write cart ppu waddr b in
  ppu_bus_read (snd w) (fst w) raddr.

(** The results of [n] successive CPU reads of $4016. *)
Fixpoint controller_reads (n : nat) (nes : nes_t) : list Z :=
  match n with
  | O => []
  | S n' =>
      let r := nes_bus_read nes 0x4016 in
      fst r :: controller_reads n' (snd r)
  end.

End Runs.

(** ** Concrete machines *)

Module Examples.

Import Cpu6502.

Definition zero : Z -> Z := fun _ => 0.

(** A memory image holding [l] from address 0. *)
Definition mem_of (l : list Z) : Z -> Z := fun a => nth (Z.to_nat a) l 0.

(** [bus_flat_read] / [bus_flat_write] (bus.c): 64 KiB of flat RAM. *)
Definition bus_flat_read (ram : Z -> Z) (addr : Z) : Z * (Z -> Z) := (ram addr, ram).
Definition bus_flat_write (ram : Z -> Z) (addr val : Z) : Z -> Z := upd ram addr val.
Definition bus_flat : bus_t (Z -> Z) := mkBus (Z -> Z) bus_flat_read bus_flat_write.

(** D set, C clear, A = $15: the BCD addition 15 + 27. *)
Definition bcd_cpu : cpu6502_t := mkCpu 0x15 0 0 0xFD 0x0600 0x2C 0 false false.

(** [LDA $10FF,X] with X = 1 at address 0: a page-crossing indexed read. *)
Definition lda_cpu : cpu6502_t := mkCpu 0 1 0 0xFD 0 0x24 0 false false.
Definition lda_mem : Z -> Z := mem_of [0xBD; 0xFF; 0x10].

(** [NOP] with the cycle counter at its last value. *)
Definition wrap_cpu : cpu6502_t :=
  mkCpu 0 0 0 0xFD 0 0x24 18446744073709551615 false false.
Definition nop_mem : Z -> Z := mem_of [0xEA].

(** [PLP] pulling $FF from the stack. *)
Definition plp_cpu : cpu6502_t := mkCpu 0 0 0 0xFC 0 0x24 0 false false.
Definition plp_mem : Z -> Z := upd (mem_of [0x28]) 0x01FD 0xFF.

Definition cart_empty : Cartridge.cartridge_t :=
  Cartridge.mkCart zero zero zero 1 0 0 Cartridge.MIRROR_HORIZONTAL.

(** A cartridge whose NMI vector is $9000. *)
Definition nmi_cart : Cartridge.cartridge_t :=
  Cartridge.mkCart (fun a => if a =? 0x3FFB then 0x90 else 0) zero zero 1 0 0
    Cartridge.MIRROR_HORIZONTAL.

(** The PPU at the last tick before VBlank, NMI output enabled. *)
Definition pre_vblank_ppu : Ppu.ppu_t :=
  Ppu.set_nmi_output true (Ppu.set_cycle 340 (Ppu.set_scanline 240 Ppu.ppu_init)).

(** The PPU inside VBlank: [nmi_occurred] set, NMI output still off. *)
Definition vblank_ppu : Ppu.ppu_t :=
  Ppu.set_status 0x80 (Ppu.set_nmi_occurred true (Ppu.set_scanline 245 Ppu.ppu_init)).

(** [STA $2000] with A = $80, then [loop: JMP loop], during VBlank. *)
Definition ctrl_write_machine : Nes.machine :=
  (mkCpu 0x80 0 0 0xFD 0 0x24 0 false false,
   Nes.mkNes vblank_ppu nmi_cart (mem_of [0x8D; 0x00; 0x20; 0x4C; 0x03; 0x00])
             zero zero false false 0 0 false 0).

(** What the frame loop lets one see of the cpu and the PPU. *)
Definition observe (m : Nes.machine) : Z * Z * Z * (Z * bool * bool) * (Z * Z) :=
  (pc (fst m), sp (fst m), cycles (fst m),
   (Ppu.ctrl (Nes.ppu (snd m)), Ppu.nmi_output (Nes.ppu (snd m)),
    Ppu.nmi_occurred (Nes.ppu (snd m))),
   (Ppu.scanline (Nes.ppu (snd m)), Ppu.frame (Nes.ppu (snd m)))).

(** The illegal opcode $02 at address 0 of RAM. *)
Definition illegal_machine : Nes.machine :=
  (mkCpu 0 0 0 0xFD 0 0x24 7 false false,
   Nes.mkNes Ppu.ppu_init cart_empty (mem_of [0x02]) zero zero false false 0 0 false 0).

(** Button A held on controller 1, strobe low, shift registers empty. *)
Definition pad_nes : Nes.nes_t :=
  Nes.mkNes Ppu.ppu_init cart_empty zero (upd zero 0 0x01) zero false false 0 0 false 0.

(** Controller 1 holding $A5 with the strobe high. *)
Definition strobed_nes : Nes.nes_t :=
  Nes.mkNes Ppu.ppu_init cart_empty zero (upd zero 0 0xA5) zero true false 0 0 false 0.

End Examples.

(* ===================================================================== *)
(** * Runs of the cpu, the standalone driver and the raster *)
(* ===================================================================== *)

(** ** Dispatch: which opcodes halt *)

Module Dispatch.

Import Cpu6502.

(** The opcode is one of [Timing.illegal_opcodes]. *)
Definition is_illegal (opcode : Z) : bool :=
  existsb (Z.eqb opcode) Timing.illegal_opcodes.

(** What the tables hold for [opcode]: [op_ill] at no cost, or a handler
    that leaves [halted] alone and costs at least two cycles. *)
Definition halting_entry {B : Type} (opcode : Z) (h : @M B unit) : Prop :=
  if is_illegal opcode
  then h = op_ill /\ opcode_cycles opcode = 0
  else Timing.keeps halted h /\ 2 <= opcode_cycles opcode.

(** [n] calls of [cpu6502_step]. *)
Definition steps {B : Type} (bus : bus_t B) (n : nat) (s : cpu6502_t * B)
  : cpu6502_t * B :=
  Nat.iter n (fun s => snd (cpu6502_step bus s)) s.

(** What every bus access leaves unchanged in the object behind
    [bus_ctx]. *)
Definition bus_keeps {B X : Type} (bus : bus_t B) (obs : B -> X) : Prop :=
  (forall ctx addr, obs (snd (read bus ctx addr)) = obs ctx) /\
  (forall ctx addr val, obs (write bus ctx addr val) = obs ctx).

(** [m] leaves the observation [obs] of the bus object unchanged. *)
Definition keeps_ctx {B X : Type} (obs : B -> X) {A : Type} (m : @M B A) : Prop :=
  forall s, obs (snd (snd (m s))) = obs (snd s).

End Dispatch.

(** ** The stack on flat memory *)

Module Stack.

Import Cpu6502.

(** What an interrupt entry through [vector] leaves in the cpu and in flat
    memory: the return address and the status byte on the stack, I set,
    the program counter loaded from the vector, seven cycles charged. *)
Definition interrupt_entry (vector : Z) (c : cpu6502_t) (ram : Z -> Z)
  : cpu6502_t * (Z -> Z) :=
  let ram3 :=
    upd (upd (upd ram (0x100 + sp c) (Z.land (Z.shiftr (pc c) 8) 0xFF))
             (0x100 + u8 (sp c - 1)) (Z.land (pc c) 0xFF))
        (0x100 + u8 (u8 (sp c - 1) - 1)) (interrupt_flags (status c)) in
  (mkCpu (a c) (x c) (y c) (u8 (u8 (u8 (sp c - 1) - 1) - 1))
         (Z.lor (Z.shiftl (u8 (ram3 (vector + 1))) 8) (u8 (ram3 vector)))
         (u8 (Z.lor (status c) CPU_FLAG_I)) (u64 (cycles c + 7))
         (halted c) (page_crossed c),
   ram3).

End Stack.

(** ** main.c of the 6502 interpreter: the execution loop *)

Module Driver.

Import Cpu6502 Examples.

Definition CYCLE_LIMIT : Z := 100000000.

(** [main] up to its loop: the cpu after [cpu6502_init], [cpu6502_reset]
    and the optional override of the program counter.  [c0] is the
    uninitialised [cpu6502_t] on [main]'s stack. *)
Definition main_start (c0 : cpu6502_t) (ram : Z -> Z) (start_addr : option Z)
  : cpu6502_t * (Z -> Z) :=
  let s := snd (cpu6502_reset bus_flat (cpu6502_init c0, ram)) in
  match start_addr with
  | Some addr => (set_pc addr (fst s), snd s)
  | None => s
  end.

(** The execution loop of [main], for at most [fuel] iterations; the
    trace output is not modelled.  The boolean says whether the loop was
    left through the trap [break]. *)
Fixpoint run_loop (fuel : nat) (s : cpu6502_t * (Z -> Z))
  : option (bool * (cpu6502_t * (Z -> Z))) :=
  if negb (halted (fst s)) && (cycles (fst s) <? CYCLE_LIMIT) then
    match fuel with
    | O => None
    | S fuel' =>
        let prev_pc := pc (fst s) in
        let s' := snd (cpu6502_step bus_flat s) in
        if pc (fst s') =? prev_pc then Some (true, s') else run_loop fuel' s'
    end
  else Some (false, s).

End Driver.

(** ** The raster: where the PPU stands in the frame *)

Module Raster.

Import Cartridge Ppu.

(** 341 PPU cycles on each of 262 scanlines. *)
Definition DOTS_PER_FRAME : Z := 341 * 262.

(** The tick on which VBlank starts: scanline 241, cycle 1. *)
Definition VBLANK_DOT : Z := 242 * 341 + 1.

(** The position in the frame, counted from scanline -1, cycle 0. *)
Definition dot (p : ppu_t) : Z := (scanline p + 1) * 341 + cycle p.

(** The scanline and cycle counters are inside the raster. *)
Definition in_raster (p : ppu_t) : Prop :=
  -1 <= scanline p <= 260 /\ 0 <= cycle p <= 340.

(** [n] calls of [ppu_step]. *)
Fixpoint ticks (n : nat) (cart : cartridge_t) (p : ppu_t) : ppu_t :=
  match n with
  | O => p
  | S n' => ticks n' cart (snd (ppu_step cart p))
  end.

(** How many of [n] calls of [ppu_step] return the NMI signal. *)
Fixpoint nmi_signals (n : nat) (cart : cartridge_t) (p : ppu_t) : nat :=
  match n with
  | O => O
  | S n' =>
      ((if fst (ppu_step cart p) then 1 else 0)
       + nmi_signals n' cart (snd (ppu_step cart p)))%nat
  end.

(** Video memory, OAM and the registers written from the CPU side. *)
Definition cpu_side (p : ppu_t) :=
  (nametable p, palette p, oam p, (ctrl p, mask p, oam_addr p),
   (t p, fine_x p, w p, data_buf p, nmi_output p)).

(** The raster counters. *)
Definition counters (p : ppu_t) : Z * Z * Z := (scanline p, cycle p, frame p).

End Raster.

(** ** More concrete machines *)

Module Samples.

Import Cpu6502.

(** A memory image given by its non-zero bytes. *)
Definition image (l : list (Z * Z)) : Z -> Z :=
  fun addr =>
    match find (fun p => fst p =? addr) l with
    | Some p => snd p
    | None => 0
    end.

(** [JSR $0700] at $0600, [BRK] at $0610, [PHP; PLP] at $0620, [PHA] at
    $0630, [PLA] at $0640, [RTS] at $0700, [RTI] at $0710; the NMI and IRQ
    vectors point to $0710. *)
Definition rom : Z -> Z :=
  image [ (0x0600, 0x20); (0x0601, 0x00); (0x0602, 0x07);
          (0x0610, 0x00);
          (0x0620, 0x08); (0x0621, 0x28);
          (0x0630, 0x48); (0x0640, 0x68);
          (0x0700, 0x60);
          (0x0710, 0x40);
          (0xFFFA, 0x10); (0xFFFB, 0x07);
          (0xFFFE, 0x10); (0xFFFF, 0x07) ].

(** A cpu about to execute at [pc], with status $25 (C and I set). *)
Definition cpu_at (pc : Z) : cpu6502_t := mkCpu 0x42 0 0 0xFD pc 0x25 0 false false.

(** The same with interrupts enabled: status $21. *)
Definition cpu_enabled_at (pc : Z) : cpu6502_t :=
  mkCpu 0x42 0 0 0xFD pc 0x21 0 false false.

(** A system with an OAM DMA from RAM page 2 pending; byte 5 of that page
    is $77. *)
Definition dma_nes : Nes.nes_t :=
  Nes.mkNes Ppu.ppu_init Examples.cart_empty (image [(0x0205, 0x77)])
            Examples.zero Examples.zero false true 2 0 false 0.

End Samples.

(** ** The system: what the bus and the frame loop leave alone *)

Module System.

Import Cartridge Ppu Nes.

(** The read-only part of the cartridge: the two ROM images and the
    header fields. *)
Definition rom_image (c : cartridge_t) :=
  (prg_rom c, chr_rom c, (prg_banks c, chr_banks c, mapper_id c, mirror c)).

(** Where the PPU of the system stands: scanline, cycle and frame. *)
Definition position (nes : nes_t) : Z * Z * Z := Raster.counters (ppu nes).

(** [n] iterations of the loop body of [nes_step_frame]. *)
Definition iterations (n : nat) (m : machine) : machine :=
  Nat.iter n nes_step_frame_body m.

(** OAM and the DMA latch. *)
Definition dma_frame (nes : nes_t) :=
  (oam (ppu nes), dma_pending nes, dma_page nes).

End System.

(* ===================================================================== *)
(** * The PPU ports and the PPU bus seen from a program *)
(* ===================================================================== *)

Module Ports.
Import Cartridge Ppu Nes.

(** The address protocol of the PPU seen from the CPU: read $2002 to reset
    the write toggle, then write the high and the low byte to $2006. *)
Definition set_vram_addr (nes : nes_t) (hi lo : Z) : nes_t :=
  let nes := snd (nes_bus_read nes 0x2002) in
  let nes := nes_bus_write nes 0x2006 hi in
  nes_bus_write nes 0x2006 lo.

(** The address the two bytes select. *)
Definition vram_addr (hi lo : Z) : Z := Z.lor (Z.shiftl (Z.land hi 0x3F) 8) lo.

(** Addresses $2000 .. $2FFF. *)
Definition nametable_addrs : list Z := map (fun i => 0x2000 + i) (zrange 4096).

(** The nametable slot of an address under a mirroring mode. *)
Definition slot (m : mirror_mode_t) (addr : Z) : Z :=
  nametable_index (mkCart (fun _ => 0) (fun _ => 0) (fun _ => 0) 1 0 0 m) addr.

(** What is checked at every address of $2000-$2FFF. *)
Definition mirror_check (a : Z) : bool :=
  let h := slot MIRROR_HORIZONTAL in
  let u := slot MIRROR_VERTICAL in
  let a4 := Z.lxor a 0x400 in
  let a8 := Z.lxor a 0x800 in
  (0x2000 <=? a4) && (a4 <? 0x3000) && (0x2000 <=? a8) && (a8 <? 0x3000)
  && (h a4 =? h a) && negb (h a8 =? h a)
  && (u a8 =? u a) && negb (u a4 =? u a)
  && (h (a + 0x1000) =? h a) && (u (a + 0x1000) =? u a)
  && (0 <=? h a) && (h a <? 2048) && (0 <=? u a) && (u a <? 2048).

(** Two palette addresses, given by their low five bits, name the same
    entry: the same five bits, or a multiple of four and the same low four
    bits. *)
Definition same_entry (i j : Z) : bool :=
  (j =? i) || ((i mod 4 =? 0) && (j mod 16 =? i mod 16)).

(** What is checked at every pair of five-bit palette indices. *)
Definition palette_check (i j : Z) : bool :=
  Bool.eqb (palette_index j =? palette_index i) (same_entry i j)
  && (0 <=? palette_index i) && (palette_index i <? 32).

End Ports.

(* ===================================================================== *)
(** * cartridge.c: the iNES loader *)
(* ===================================================================== *)

Module Loader.
Import Cartridge.

Definition INES_HEADER_SIZE : nat := 16.
Definition PRG_BANK_SIZE : Z := 16384.
Definition CHR_BANK_SIZE : Z := 8192.
Definition TRAINER_SIZE : nat := 512.

Definition ines_magic : list Z := [0x4E; 0x45; 0x53; 0x1A].

(** [fread(buf, 1, n, fp)] on the rest of the file: the bytes read and what
    is left, or [None] when fewer than [n] bytes are left. *)
Definition fread (n : nat) (stream : list Z) : option (list Z * list Z) :=
  if (n <=? length stream)%nat then Some (firstn n stream, skipn n stream)
  else None.

(** The array behind a buffer holding [l]. *)
Definition buffer (l : list Z) : Z -> Z := fun i => nth (Z.to_nat i) l 0.

(** [cartridge_load] on the contents of the file at [path]; [None] for the
    file means that [fopen] failed, [None] for the result that the loader
    returned [false].  The bytes of a file are in [0, 255].  Allocation is
    taken to succeed; [fseek] past the end succeeds, as on a regular file,
    and the read that follows comes up short.  [chr_ram] is zero from the
    [memset] of the whole struct; without CHR banks [chr_rom] is [NULL],
    which [cartridge_chr_read] never looks at then, and is given here as
    the zero array. *)
Definition cartridge_load (file : option (list Z)) : option cartridge_t :=
  match file with
  | None => None
  | Some bytes =>
      match fread INES_HEADER_SIZE bytes with
      | None => None
      | Some (header, rest) =>
          if list_eq_dec Z.eq_dec (firstn 4 header) ines_magic then
            let h := fun i => nth i header 0 in
            let prg_banks := h 4%nat in
            let chr_banks := h 5%nat in
            let mapper_id :=
              u8 (Z.lor (Z.land (h 7%nat) 0xF0) (Z.shiftr (h 6%nat) 4)) in
            let mirror :=
              if nz (Z.land (h 6%nat) 0x01) then MIRROR_VERTICAL
              else MIRROR_HORIZONTAL in
            if negb (mapper_id =? 0) then None
            else if prg_banks =? 0 then None
            else
              let rest :=
                if nz (Z.land (h 6%nat) 0x04) then skipn TRAINER_SIZE rest
                else rest in
              match fread (Z.to_nat (prg_banks * PRG_BANK_SIZE)) rest with
              | None => None
              | Some (prg, rest) =>
                  if chr_banks >? 0 then
                    match fread (Z.to_nat (chr_banks * CHR_BANK_SIZE)) rest with
                    | None => None
                    | Some (chr, _) =>
                        Some (mkCart (buffer prg) (buffer chr) (fun _ => 0)
                                prg_banks chr_banks mapper_id mirror)
                    end
                  else
                    Some (mkCart (buffer prg) (fun _ => 0) (fun _ => 0)
                            prg_banks chr_banks mapper_id mirror)
              end
          else None
      end
  end.

(** The header fields of an image. *)
Definition header_prg (f : list Z) : Z := nth 4 f 0.
Definition header_chr (f : list Z) : Z := nth 5 f 0.
Definition header_mapper (f : list Z) : Z :=
  u8 (Z.lor (Z.land (nth 7 f 0) 0xF0) (Z.shiftr (nth 6 f 0) 4)).
Definition header_trainer (f : list Z) : Z :=
  if Z.testbit (nth 6 f 0) 2 then 512 else 0.

(** Where the PRG image starts in the file. *)
Definition prg_offset (f : list Z) : Z := 16 + header_trainer f.

(** An iNES image the loader accepts: the magic, mapper 0, at least one
    PRG bank, and as many bytes as the header announces. *)
Definition ines_ok (f : list Z) : bool :=
  (16 <=? Z.of_nat (length f))
  && (if list_eq_dec Z.eq_dec (firstn 4 f) ines_magic then true else false)
  && (header_mapper f =? 0)
  && negb (header_prg f =? 0)
  && (prg_offset f + header_prg f * PRG_BANK_SIZE + header_chr f * CHR_BANK_SIZE
      <=? Z.of_nat (length f)).

(** File contents are bytes. *)
Definition is_bytes (f : list Z) : Prop :=
  forallb (fun b => (0 <=? b) && (b <? 256)) f = true.

(** The offset in the PRG image that a CPU address of $8000-$FFFF reads. *)
Definition prg_index (prg_banks addr : Z) : Z :=
  if (addr <? 0xC000) || (prg_banks =? 1) then addr mod 0x4000
  else 0x4000 + addr mod 0x4000.

(** A 16 KiB image: one PRG bank of [NOP]s with the reset and IRQ vectors
    at $8000, no CHR bank, vertical mirroring. *)
Definition sample_image : list Z :=
  [0x4E; 0x45; 0x53; 0x1A; 1; 0; 1; 0; 0; 0; 0; 0; 0; 0; 0; 0]
  ++ repeat 0xEA (Z.to_nat 16380) ++ [0x00; 0x80; 0x00; 0x80].

End Loader.

(** ** nes_init on a file *)

Module Boot.
Import Cartridge Nes Loader.

(** [nes_init] on the contents of the file at [rom_path]. *)
Definition nes_init_file (file : option (list Z)) : option machine :=
  match cartridge_load file with
  | None => None
  | Some c => Some (nes_init c)
  end.

(** The byte of the image that a CPU read of [addr] in $8000-$FFFF
    returns. *)
Definition prg_byte (f : list Z) (addr : Z) : Z :=
  nth (Z.to_nat (prg_offset f + prg_index (header_prg f) addr)) f 0.

End Boot.

(* ===================================================================== *)
(** * Bit-level facts *)
(* ===================================================================== *)

Lemma bytes_In : forall z, 0 <= z < 256 -> In z bytes.
Proof.
  intros z Hz. unfold bytes. apply in_map_iff. exists (Z.to_nat z). split.
  - lia.
  - apply in_seq. lia.
Qed.

Lemma nz_land_pow2 : forall x i, 0 <= i -> nz (Z.land x (2 ^ i)) = Z.testbit x i.
Proof.
  intros x i Hi. unfold nz.
  destruct (Z.testbit x i) eqn:E.
  - apply negb_true_iff, Z.eqb_neq. intro H.
    assert (H0 : Z.testbit (Z.land x (2 ^ i)) i = false) by (rewrite H; apply Z.bits_0).
    rewrite Z.land_spec, E, Z.pow2_bits_true in H0 by lia. discriminate.
  - apply negb_false_iff, Z.eqb_eq. apply Z.bits_inj'. intros n Hn.
    rewrite Z.land_spec, Z.bits_0, Z.pow2_bits_eqb by lia.
    destruct (Z.eqb_spec i n); subst; [rewrite E|]; auto using andb_false_r.
Qed.

Lemma nz_land_1 : forall x, nz (Z.land x 1) = Z.testbit x 0.
Proof. intro x. apply (nz_land_pow2 x 0). lia. Qed.

Lemma nz_land_4 : forall x, nz (Z.land x 4) = Z.testbit x 2.
Proof. intro x. apply (nz_land_pow2 x 2). lia. Qed.

Lemma nz_land_128 : forall x, nz (Z.land x 128) = Z.testbit x 7.
Proof. intro x. apply (nz_land_pow2 x 7). lia. Qed.

Lemma nz_land_256 : forall x, nz (Z.land x 256) = Z.testbit x 8.
Proof. intro x. apply (nz_land_pow2 x 8). lia. Qed.

Lemma land_15 : forall x, Z.land x 15 = x mod 16.
Proof. intro x. change 15 with (Z.ones 4). rewrite Z.land_ones by lia. reflexivity. Qed.

Lemma land_255 : forall x, Z.land x 255 = x mod 256.
Proof. intro x. change 255 with (Z.ones 8). rewrite Z.land_ones by lia. reflexivity. Qed.

Lemma shiftr_4 : forall x, Z.shiftr x 4 = x / 16.
Proof. intro x. rewrite Z.shiftr_div_pow2 by lia. reflexivity. Qed.

Lemma u16_mod_256 : forall x, u16 x mod 256 = x mod 256.
Proof. intro x. unfold u16. apply Z.mod_mod_divide. exists 256. reflexivity. Qed.

Lemma u64_add_l : forall p q, u64 (u64 p + q) = u64 (p + q).
Proof. intros. unfold u64. apply Zplus_mod_idemp_l. Qed.

Lemma u16_add_l : forall p q, u16 (u16 p + q) = u16 (p + q).
Proof. intros. unfold u16. apply Zplus_mod_idemp_l. Qed.

Lemma u64_sub_self : forall k, u64 (u64 k - k) = 0.
Proof.
  intro k. unfold u64. rewrite Zminus_mod_idemp_l. rewrite Z.sub_diag. reflexivity.
Qed.

Lemma u64_small : forall k, 0 <= k < 18446744073709551616 -> u64 k = k.
Proof. intros k H. unfold u64. apply Z.mod_small. exact H. Qed.

Lemma testbit_small : forall l k n, 0 <= l < 2 ^ k -> k <= n -> Z.testbit l n = false.
Proof.
  intros l k n Hl Hn. assert (0 <= k).
  { destruct (Z.le_gt_cases 0 k); auto. rewrite Z.pow_neg_r in Hl by lia. lia. }
  rewrite <- (Z.mod_small l (2 ^ k)) by lia. apply Z.mod_pow2_bits_high. lia.
Qed.

Lemma testbit_u16_low : forall x n, 0 <= n < 16 -> Z.testbit (u16 x) n = Z.testbit x n.
Proof.
  intros. unfold u16. change 65536 with (2 ^ 16). apply Z.mod_pow2_bits_low. lia.
Qed.

Lemma testbit_u8_low : forall x n, 0 <= n < 8 -> Z.testbit (x mod 256) n = Z.testbit x n.
Proof.
  intros. change 256 with (2 ^ 8). apply Z.mod_pow2_bits_low. lia.
Qed.

Lemma testbit_u8_lor_128 : forall st, Z.testbit (u8 (Z.lor st 0x80)) 7 = true.
Proof.
  intro st. unfold u8. rewrite testbit_u8_low by lia.
  rewrite Z.lor_spec. apply orb_true_r.
Qed.

(** Bit 7 of a byte is its sign. *)
Lemma testbit7_byte : forall x, 0 <= x < 256 -> Z.testbit x 7 = (128 <=? x).
Proof.
  intros x Hx.
  assert (H : forallb (fun x => Bool.eqb (Z.testbit x 7) (128 <=? x)) bytes = true)
    by (vm_compute; reflexivity).
  rewrite forallb_forall in H. apply eqb_prop. apply H. apply bytes_In. exact Hx.
Qed.

(** Bit 8 of a difference of two bytes is its borrow. *)
Lemma testbit8_borrow : forall d, -256 <= d < 256 -> Z.testbit d 8 = (d <? 0).
Proof.
  intros d Hd. destruct (Z.ltb_spec d 0).
  - apply Z.testbit_true; [lia|]. change (2 ^ 8) with 256.
    replace (d / 256) with (-1); [reflexivity|].
    apply Z.div_unique with (r := d + 256); lia.
  - apply (testbit_small d 8 8); change (2 ^ 8) with 256; lia.
Qed.

(** A high part shifted above a low part: [|] is [+]. *)
Lemma lor_shiftl_low : forall h l k, 0 <= k -> 0 <= l < 2 ^ k ->
  Z.lor (Z.shiftl h k) l = h * 2 ^ k + l.
Proof.
  intros h l k Hk Hl.
  assert (E : Z.land (Z.shiftl h k) l = 0).
  { apply Z.bits_inj'. intros n Hn. rewrite Z.land_spec, Z.bits_0.
    destruct (Z.lt_ge_cases n k).
    - rewrite Z.shiftl_spec_low by lia. reflexivity.
    - rewrite (testbit_small l k n) by lia. apply andb_false_r. }
  rewrite <- Z.lxor_lor by exact E. rewrite <- Z.add_nocarry_lxor by exact E.
  rewrite Z.shiftl_mul_pow2 by lia. reflexivity.
Qed.

Lemma nibbles_byte : forall h l,
  u8 (Z.lor (Z.shiftl h 4) (l mod 16)) = (16 * h + l mod 16) mod 256.
Proof.
  intros. rewrite lor_shiftl_low; try lia.
  - unfold u8. f_equal. change (2 ^ 4) with 16. lia.
  - change (2 ^ 4) with 16. apply Z.mod_pos_bound. lia.
Qed.

Lemma nibbles_result : forall h l,
  u8 (Z.lor (Z.shiftl (h mod 16) 4) (l mod 16)) = 16 * (h mod 16) + l mod 16.
Proof.
  intros. rewrite nibbles_byte. apply Z.mod_small.
  pose proof (Z.mod_pos_bound h 16). pose proof (Z.mod_pos_bound l 16). lia.
Qed.

Lemma nibbles_bit7 : forall h l,
  Z.testbit ((16 * h + l mod 16) mod 256) 7 = Z.testbit (Z.shiftl h 4) 7.
Proof.
  intros. rewrite <- nibbles_byte. unfold u8. rewrite testbit_u8_low by lia.
  rewrite Z.lor_spec, <- land_15, Z.land_spec. change (Z.testbit 15 7) with false.
  rewrite andb_false_r. apply orb_false_r.
Qed.

Lemma upd_same : forall arr i v, upd arr i v i = v.
Proof. intros. unfold upd. rewrite Z.eqb_refl. reflexivity. Qed.

(* ===================================================================== *)
(** * The status flags *)
(* ===================================================================== *)

Section Flags.

Import Cpu6502 Status.

Lemma get_flag_bit : forall c i, 0 <= i ->
  cpu_get_flag c (2 ^ i) = Z.testbit (status c) i.
Proof. intros. apply nz_land_pow2; assumption. Qed.

Lemma status_set_flag : forall i j v c, 0 <= i -> 0 <= j < 8 ->
  Z.testbit (status (cpu_set_flag (2 ^ i) v c)) j =
  if i =? j then v else Z.testbit (status c) j.
Proof.
  intros i j v c Hi Hj. unfold cpu_set_flag, u8.
  destruct v; cbn [status set_status]; rewrite testbit_u8_low by lia.
  - rewrite Z.lor_spec, Z.pow2_bits_eqb by lia.
    destruct (i =? j); auto using orb_true_r, orb_false_r.
  - rewrite Z.land_spec, Z.lnot_spec, Z.pow2_bits_eqb by lia.
    destruct (i =? j); cbn; auto using andb_true_r, andb_false_r.
Qed.

Lemma status_set_a : forall v c, status (set_a v c) = status c.
Proof. reflexivity. Qed.

End Flags.

Ltac flags_as_bits :=
  change Cpu6502.CPU_FLAG_C with (2 ^ 0) in *;
  change Cpu6502.CPU_FLAG_Z with (2 ^ 1) in *;
  change Cpu6502.CPU_FLAG_I with (2 ^ 2) in *;
  change Cpu6502.CPU_FLAG_D with (2 ^ 3) in *;
  change Cpu6502.CPU_FLAG_B with (2 ^ 4) in *;
  change Cpu6502.CPU_FLAG_U with (2 ^ 5) in *;
  change Cpu6502.CPU_FLAG_V with (2 ^ 6) in *;
  change Cpu6502.CPU_FLAG_N with (2 ^ 7) in *.

(* ===================================================================== *)
(** * Decimal mode (ADC / SBC with D set) *)
(* ===================================================================== *)

Section DecimalMode.

Import Cpu6502 Decimal.

Lemma do_adc_decimal : forall c m,
  cpu_get_flag c CPU_FLAG_D = true -> adc_decimal_spec c m.
Proof.
  intros c m HD. unfold adc_decimal_spec. cbv zeta.
  unfold do_adc. rewrite HD. cbv zeta.
  flags_as_bits.
  rewrite !get_flag_bit by lia. rewrite !status_set_a.
  rewrite !status_set_flag by lia. cbn [Z.eqb Pos.eqb a set_a].
  rewrite !nz_land_128.
  unfold adc_result, adc_partial, adc_hi_fixed, adc_hi, adc_lo, sign_overflow.
  cbv zeta.
  rewrite !land_15, ?land_255, !shiftr_4, !Z.gtb_ltb, ?u16_mod_256.
  split; [|split; [|split; [|split]]].
  - apply nibbles_result.
  - reflexivity.
  - rewrite nibbles_byte. reflexivity.
  - rewrite nibbles_bit7.
    rewrite Z.land_spec, Z.lnot_spec, !Z.lxor_spec by lia.
    destruct (Z.testbit (a c) 7), (Z.testbit m 7), (Z.testbit (Z.shiftl _ 4) 7);
      reflexivity.
  - reflexivity.
Qed.

(** The low nibble of SBC as the source computes it. *)
Lemma sbc_lo_code : forall dl,
  let al := if dl <? 0 then Z.land (dl - 6) 15 - 16 else dl in
  (al <? 0) = (dl <? 0) /\ Z.land al 15 = (if dl <? 0 then dl - 6 else dl) mod 16.
Proof.
  intros dl al. subst al. rewrite !land_15.
  destruct (Z.ltb_spec dl 0) as [H|H].
  - pose proof (Z.mod_pos_bound (dl - 6) 16). split.
    + apply Z.ltb_lt. lia.
    + replace ((dl - 6) mod 16 - 16) with ((dl - 6) mod 16 + (-1) * 16) by lia.
      rewrite Z.mod_add by lia. apply Z.mod_mod. lia.
  - split; [apply Z.ltb_ge; lia | reflexivity].
Qed.

(** The V flag of SBC is the signed overflow of the binary difference. *)
Lemma sbc_overflow_signed : forall r m b,
  0 <= r < 256 -> 0 <= m < 256 -> b = 0 \/ b = 1 ->
  Z.testbit (Z.land (Z.lxor r m) (Z.lxor r (u16 (r - m - b)))) 7 =
  signed_overflow (i8 r - i8 m - b).
Proof.
  intros r m b Hr Hm Hb.
  rewrite Z.land_spec, !Z.lxor_spec.
  rewrite testbit_u16_low by lia.
  rewrite <- (testbit_u8_low (r - m - b) 7) by lia.
  pose proof (Z.mod_pos_bound (r - m - b) 256).
  rewrite !testbit7_byte by lia.
  unfold signed_overflow, i8, u8. rewrite (Z.mod_small r), (Z.mod_small m) by lia.
  pose proof (Z.div_mod (r - m - b) 256).
  assert (Hq : (r - m - b) / 256 = 0 \/ (r - m - b) / 256 = -1).
  { destruct (Z.lt_ge_cases (r - m - b) 0).
    - right. symmetry. apply Z.div_unique with (r := r - m - b + 256); lia.
    - left. apply Z.div_small. lia. }
  destruct (Z.leb_spec 128 r), (Z.leb_spec 128 m),
    (Z.leb_spec 128 ((r - m - b) mod 256)),
    (Z.ltb_spec r 128), (Z.ltb_spec m 128); try lia; cbn [xorb andb];
    symmetry; unfold orb;
    repeat match goal with
    | |- context [?p <? ?q] => destruct (Z.ltb_spec p q)
    end; try reflexivity; lia.
Qed.

Lemma do_sbc_decimal : forall c m,
  cpu_get_flag c CPU_FLAG_D = true -> 0 <= a c < 256 -> 0 <= m < 256 ->
  sbc_decimal_spec c m.
Proof.
  intros c m HD Ha Hm. unfold sbc_decimal_spec. cbv zeta.
  unfold do_sbc. rewrite HD. cbv zeta.
  set (b := borrow_in c).
  assert (Hb : (if cpu_get_flag c CPU_FLAG_C then 0 else 1) = b).
  { unfold b, borrow_in, carry_in. destruct (cpu_get_flag c CPU_FLAG_C); reflexivity. }
  rewrite Hb.
  assert (Hb01 : b = 0 \/ b = 1).
  { unfold b, borrow_in, carry_in. destruct (cpu_get_flag c CPU_FLAG_C); auto. }
  flags_as_bits.
  rewrite !get_flag_bit by lia. rewrite !status_set_a.
  rewrite !status_set_flag by lia. cbn [Z.eqb Pos.eqb a set_a].
  rewrite ?nz_land_128, ?nz_land_256.
  split; [|split; [|split; [|split]]].
  - destruct (sbc_lo_code (Z.land (a c) 15 - Z.land m 15 - b)) as [E1 E2].
    cbv zeta in E1, E2. rewrite E1, E2.
    unfold sbc_result, sbc_hi, sbc_lo, sbc_borrow_lo. cbv zeta.
    rewrite !land_15, !shiftr_4. apply nibbles_result.
  - rewrite testbit_u16_low by lia.
    rewrite testbit8_borrow by lia. rewrite Z.leb_antisym. reflexivity.
  - rewrite land_255, u16_mod_256. reflexivity.
  - rewrite testbit_u16_low, testbit_u8_low by lia. reflexivity.
  - apply sbc_overflow_signed; assumption.
Qed.

(** For operands that are packed BCD, the adjusted sum and difference are
    the decimal sum and difference. *)
Lemma adc_result_is_bcd_sum : forall ah al mh ml cin,
  0 <= ah < 10 -> 0 <= al < 10 -> 0 <= mh < 10 -> 0 <= ml < 10 ->
  cin = 0 \/ cin = 1 ->
  let s := (10 * ah + al) + (10 * mh + ml) + cin in
  adc_result (16 * ah + al) (16 * mh + ml) cin = bcd_pack (s mod 100) /\
  (15 <? adc_hi_fixed (16 * ah + al) (16 * mh + ml) cin) = (100 <=? s).
Proof.
  intros ah al mh ml cin Hah Hal Hmh Hml Hc.
  set (digits := map Z.of_nat (seq 0 10)).
  assert (D : forall d, 0 <= d < 10 -> In d digits).
  { intros d Hd. unfold digits. apply in_map_iff. exists (Z.to_nat d).
    split; [lia | apply in_seq; lia]. }
  assert (K : forallb (fun ah => forallb (fun al => forallb (fun mh => forallb (fun ml =>
            forallb (fun cin =>
              let s := (10 * ah + al) + (10 * mh + ml) + cin in
              (adc_result (16 * ah + al) (16 * mh + ml) cin =? bcd_pack (s mod 100))
              && Bool.eqb (15 <? adc_hi_fixed (16 * ah + al) (16 * mh + ml) cin)
                          (100 <=? s)) [0; 1])
            digits) digits) digits) digits = true) by (vm_compute; reflexivity).
  rewrite forallb_forall in K. specialize (K ah (D ah Hah)).
  rewrite forallb_forall in K. specialize (K al (D al Hal)).
  rewrite forallb_forall in K. specialize (K mh (D mh Hmh)).
  rewrite forallb_forall in K. specialize (K ml (D ml Hml)).
  rewrite forallb_forall in K.
  assert (Hin : In cin [0; 1]) by (destruct Hc; subst; cbn; auto).
  specialize (K cin Hin). cbv zeta in K. apply andb_true_iff in K.
  destruct K as [K1 K2]. split; [apply Z.eqb_eq, K1 | apply eqb_prop, K2].
Qed.

Lemma sbc_result_is_bcd_difference : forall ah al mh ml b,
  0 <= ah < 10 -> 0 <= al < 10 -> 0 <= mh < 10 -> 0 <= ml < 10 ->
  b = 0 \/ b = 1 ->
  sbc_result (16 * ah + al) (16 * mh + ml) b
    = bcd_pack (((10 * ah + al) - (10 * mh + ml) - b) mod 100).
Proof.
  intros ah al mh ml b Hah Hal Hmh Hml Hb.
  set (digits := map Z.of_nat (seq 0 10)).
  assert (D : forall d, 0 <= d < 10 -> In d digits).
  { intros d Hd. unfold digits. apply in_map_iff. exists (Z.to_nat d).
    split; [lia | apply in_seq; lia]. }
  assert (K : forallb (fun ah => forallb (fun al => forallb (fun mh => forallb (fun ml =>
            forallb (fun b =>
              sbc_result (16 * ah + al) (16 * mh + ml) b
                =? bcd_pack (((10 * ah + al) - (10 * mh + ml) - b) mod 100)) [0; 1])
            digits) digits) digits) digits = true) by (vm_compute; reflexivity).
  rewrite forallb_forall in K. specialize (K ah (D ah Hah)).
  rewrite forallb_forall in K. specialize (K al (D al Hal)).
  rewrite forallb_forall in K. specialize (K mh (D mh Hmh)).
  rewrite forallb_forall in K. specialize (K ml (D ml Hml)).
  rewrite forallb_forall in K.
  assert (Hin : In b [0; 1]) by (destruct Hb; subst; cbn; auto).
  apply Z.eqb_eq. exact (K b Hin).
Qed.

(** C1.  With the D flag set, for every operand byte [m]: ADC leaves in A
    the per-nibble decimal-adjusted sum, takes Z from the 8-bit binary sum
    A + M + C, and N and V from the byte as it stands before the
    high-nibble fixup; SBC leaves in A the per-nibble decimal-adjusted
    difference and takes C, Z, N and V from the binary difference
    A - M - (1 - C). *)
Theorem decimal_mode_adc_sbc : forall (c : cpu6502_t) (m : Z),
  cpu_get_flag c CPU_FLAG_D = true -> 0 <= a c < 256 -> 0 <= m < 256 ->
  adc_decimal_spec c m /\ sbc_decimal_spec c m.
Proof.
  intros c m HD Ha Hm. split.
  - apply do_adc_decimal. exact HD.
  - apply do_sbc_decimal; assumption.
Qed.

End DecimalMode.

Lemma decimal_mode_adc_sbc_witness :
  Cpu6502.cpu_get_flag Examples.bcd_cpu Cpu6502.CPU_FLAG_D = true /\
  0 <= Cpu6502.a Examples.bcd_cpu < 256 /\ 0 <= 0x27 < 256 /\
  Decimal.adc_decimal_spec Examples.bcd_cpu 0x27 /\
  Decimal.sbc_decimal_spec Examples.bcd_cpu 0x27.
Proof.
  split; [reflexivity|]. split; [cbn; lia|]. split; [lia|].
  apply (decimal_mode_adc_sbc Examples.bcd_cpu 0x27); [reflexivity | cbn; lia | lia].
Defined.

(* ===================================================================== *)
(** * Frame conditions of the handlers *)
(* ===================================================================== *)

Create Rewrite HintDb frame.

Section PureFrames.

Import Cpu6502 Status.

Lemma live_bits_set_flag : forall f v c, arith_flag f ->
  live_bits (cpu_set_flag f v c) = live_bits c.
Proof.
  intros f v c Hf. unfold live_bits.
  destruct Hf as [->|[->|[->|[->|[->| ->]]]]]; flags_as_bits;
    rewrite !status_set_flag by lia; reflexivity.
Qed.

Lemma cycles_set_flag : forall f v c, cycles (cpu_set_flag f v c) = cycles c.
Proof. intros. unfold cpu_set_flag. destruct v; reflexivity. Qed.

Lemma cycles_set_a : forall v c, cycles (set_a v c) = cycles c.
Proof. reflexivity. Qed.

Lemma live_bits_set_a : forall v c, live_bits (set_a v c) = live_bits c.
Proof. reflexivity. Qed.

End PureFrames.

#[local] Hint Rewrite cycles_set_flag cycles_set_a live_bits_set_a : frame.
#[local] Hint Rewrite live_bits_set_flag using (unfold Status.arith_flag; tauto) : frame.

(** Register-only cores: case on the flag tests, then rewrite the setters
    away. *)
Ltac frame_pure :=
  intros;
  repeat match goal with
         | |- context [if ?b then _ else _] =>
             lazymatch b with
             | Cpu6502.cpu_get_flag _ _ => destruct b
             | Cpu6502.page_crossed _ => destruct b
             end
         end;
  cbv zeta; cbn [fst snd];
  repeat (autorewrite with frame; cbv beta);
  try reflexivity.

Section CoreFrames.

Import Cpu6502 Status.

Lemma cycles_set_nz v c : cycles (cpu_set_nz v c) = cycles c.
Proof. unfold cpu_set_nz. frame_pure. Qed.

Lemma live_bits_set_nz v c : live_bits (cpu_set_nz v c) = live_bits c.
Proof. unfold cpu_set_nz. frame_pure. Qed.

Hint Rewrite cycles_set_nz live_bits_set_nz : frame.

Lemma cycles_do_adc v c : cycles (do_adc v c) = cycles c.
Proof. unfold do_adc. frame_pure. Qed.

Lemma live_bits_do_adc v c : live_bits (do_adc v c) = live_bits c.
Proof. unfold do_adc. frame_pure. Qed.

Hint Rewrite cycles_do_adc live_bits_do_adc : frame.

Lemma cycles_do_sbc v c : cycles (do_sbc v c) = cycles c.
Proof. unfold do_sbc. frame_pure. Qed.

Lemma live_bits_do_sbc v c : live_bits (do_sbc v c) = live_bits c.
Proof. unfold do_sbc. frame_pure. Qed.

Lemma cycles_do_cmp r v c : cycles (do_cmp r v c) = cycles c.
Proof. unfold do_cmp. frame_pure. Qed.

Lemma live_bits_do_cmp r v c : live_bits (do_cmp r v c) = live_bits c.
Proof. unfold do_cmp. frame_pure. Qed.

Lemma cycles_do_and v c : cycles (do_and v c) = cycles c.
Proof. unfold do_and. frame_pure. Qed.

Lemma live_bits_do_and v c : live_bits (do_and v c) = live_bits c.
Proof. unfold do_and. frame_pure. Qed.

Lemma cycles_do_ora v c : cycles (do_ora v c) = cycles c.
Proof. unfold do_ora. frame_pure. Qed.

Lemma live_bits_do_ora v c : live_bits (do_ora v c) = live_bits c.
Proof. unfold do_ora. frame_pure. Qed.

Lemma cycles_do_eor v c : cycles (do_eor v c) = cycles c.
Proof. unfold do_eor. frame_pure. Qed.

Lemma live_bits_do_eor v c : live_bits (do_eor v c) = live_bits c.
Proof. unfold do_eor. frame_pure. Qed.

Lemma cycles_do_asl v c : cycles (snd (do_asl v c)) = cycles c.
Proof. unfold do_asl. frame_pure. Qed.

Lemma live_bits_do_asl v c : live_bits (snd (do_asl v c)) = live_bits c.
Proof. unfold do_asl. frame_pure. Qed.

Lemma cycles_do_lsr v c : cycles (snd (do_lsr v c)) = cycles c.
Proof. unfold do_lsr. frame_pure. Qed.

Lemma live_bits_do_lsr v c : live_bits (snd (do_lsr v c)) = live_bits c.
Proof. unfold do_lsr. frame_pure. Qed.

Lemma cycles_do_rol v c : cycles (snd (do_rol v c)) = cycles c.
Proof. unfold do_rol. frame_pure. Qed.

Lemma live_bits_do_rol v c : live_bits (snd (do_rol v c)) = live_bits c.
Proof. unfold do_rol. frame_pure. Qed.

Lemma cycles_do_ror v c : cycles (snd (do_ror v c)) = cycles c.
Proof. unfold do_ror. frame_pure. Qed.

Lemma live_bits_do_ror v c : live_bits (snd (do_ror v c)) = live_bits c.
Proof. unfold do_ror. frame_pure. Qed.

Lemma live_bits_charge c : live_bits (charge_page_cross c) = live_bits c.
Proof. unfold charge_page_cross. frame_pure. Qed.

End CoreFrames.

#[local] Hint Rewrite cycles_set_nz live_bits_set_nz cycles_do_adc live_bits_do_adc
  cycles_do_sbc live_bits_do_sbc cycles_do_cmp live_bits_do_cmp
  cycles_do_and live_bits_do_and cycles_do_ora live_bits_do_ora
  cycles_do_eor live_bits_do_eor cycles_do_asl live_bits_do_asl
  cycles_do_lsr live_bits_do_lsr cycles_do_rol live_bits_do_rol
  cycles_do_ror live_bits_do_ror live_bits_charge : frame.

(** The cores of the indexed reads leave [page_crossed] alone. *)
Section CrossFrames.

Import Cpu6502.

Lemma crossed_set_flag f v c : page_crossed (cpu_set_flag f v c) = page_crossed c.
Proof. unfold cpu_set_flag. destruct v; reflexivity. Qed.

Lemma crossed_set_nz v c : page_crossed (cpu_set_nz v c) = page_crossed c.
Proof. unfold cpu_set_nz. rewrite !crossed_set_flag. reflexivity. Qed.

Lemma crossed_do_adc v c : page_crossed (do_adc v c) = page_crossed c.
Proof.
  unfold do_adc. destruct (cpu_get_flag c CPU_FLAG_D); cbv zeta;
    rewrite ?crossed_set_nz, ?crossed_set_flag; cbn [page_crossed set_a];
    rewrite ?crossed_set_flag; reflexivity.
Qed.

Lemma crossed_do_sbc v c : page_crossed (do_sbc v c) = page_crossed c.
Proof.
  unfold do_sbc. destruct (cpu_get_flag c CPU_FLAG_D); cbv zeta.
  - cbn [page_crossed set_a]. rewrite !crossed_set_flag. reflexivity.
  - apply crossed_do_adc.
Qed.

Lemma crossed_do_cmp r v c : page_crossed (do_cmp r v c) = page_crossed c.
Proof. unfold do_cmp. cbv zeta. rewrite !crossed_set_flag. reflexivity. Qed.

Lemma crossed_do_and v c : page_crossed (do_and v c) = page_crossed c.
Proof. unfold do_and. cbv zeta. rewrite crossed_set_nz. reflexivity. Qed.

Lemma crossed_do_ora v c : page_crossed (do_ora v c) = page_crossed c.
Proof. unfold do_ora. cbv zeta. rewrite crossed_set_nz. reflexivity. Qed.

Lemma crossed_do_eor v c : page_crossed (do_eor v c) = page_crossed c.
Proof. unfold do_eor. cbv zeta. rewrite crossed_set_nz. reflexivity. Qed.

Lemma crossed_charge c : page_crossed (charge_page_cross c) = page_crossed c.
Proof. unfold charge_page_cross. destruct (page_crossed c) eqn:E; exact E. Qed.

End CrossFrames.

#[local] Hint Rewrite crossed_set_flag crossed_set_nz crossed_do_adc crossed_do_sbc
  crossed_do_cmp crossed_do_and crossed_do_ora crossed_do_eor crossed_charge : frame.

Section KeepsRules.

Import Cpu6502 Timing.

Context {B : Type} (bus : bus_t B).
Context {X : Type} (obs : cpu6502_t -> X).

Lemma keeps_ret {A} (v : A) : keeps (B:=B) obs (ret v).
Proof. intro s. reflexivity. Qed.

Lemma keeps_bind {A C} (m : @M B A) (f : A -> @M B C) :
  keeps obs m -> (forall v, keeps obs (f v)) -> keeps obs (bind m f).
Proof.
  intros Hm Hf s. unfold bind. cbv zeta. rewrite Hf. apply Hm.
Qed.

Lemma keeps_gets {A} (f : cpu6502_t -> A) : keeps (B:=B) obs (gets f).
Proof. intro s. reflexivity. Qed.

Lemma keeps_modify (f : cpu6502_t -> cpu6502_t) :
  (forall c, obs (f c) = obs c) -> keeps (B:=B) obs (modify f).
Proof. intros H s. apply H. Qed.

Lemma keeps_call {A} (f : cpu6502_t -> A * cpu6502_t) :
  (forall c, obs (snd (f c)) = obs c) -> keeps (B:=B) obs (call f).
Proof. intros H s. apply H. Qed.

Lemma keeps_read addr : keeps obs (cpu_read bus addr).
Proof. intro s. reflexivity. Qed.

Lemma keeps_write addr val : keeps obs (cpu_write bus addr val).
Proof. intro s. reflexivity. Qed.

End KeepsRules.

Ltac head_of t := lazymatch t with ?f _ => head_of f | _ => t end.

(** Side conditions [obs (f c) = obs c] of register-only functions. *)
Ltac frame_side :=
  intros; cbv beta;
  first [ reflexivity
        | solve [ repeat (autorewrite with frame; cbv beta); reflexivity ] ].

(** One structural step through a handler; helpers are unfolded on the
    way. *)
Ltac keeps_step :=
  lazymatch goal with
  | |- Timing.keeps _ (Cpu6502.bind _ _) => apply keeps_bind; [| intro]
  | |- Timing.keeps _ (Cpu6502.ret _) => apply keeps_ret
  | |- Timing.keeps _ (Cpu6502.gets _) => apply keeps_gets
  | |- Timing.keeps _ (Cpu6502.cpu_read _ _) => apply keeps_read
  | |- Timing.keeps _ (Cpu6502.cpu_write _ _ _) => apply keeps_write
  | |- Timing.keeps _ (Cpu6502.modify _) => apply keeps_modify; frame_side
  | |- Timing.keeps _ (Cpu6502.call _) => apply keeps_call; frame_side
  | |- Timing.keeps _ (if ?b then _ else _) => destruct b
  | |- Timing.keeps _ (let _ := _ in _) => cbv zeta
  | |- Timing.keeps _ ?m => let h := head_of m in unfold h
  end.

Ltac keeps_tac := repeat keeps_step.

(* ===================================================================== *)
(** * The dispatch table: cycles and status bits of every handler *)
(* ===================================================================== *)

Section ChargeRules.

Import Cpu6502 Timing.

Context {B : Type} (bus : bus_t B).

Lemma charges_bind {A} (m : @M B A) (f : A -> @M B unit) :
  keeps cycles m -> (forall v, charges (f v)) -> charges (bind m f).
Proof.
  intros Hm Hf s. unfold bind. cbv zeta. rewrite <- (Hm s). apply Hf.
Qed.

Lemma charges_charge : charges (B:=B) (modify charge_page_cross).
Proof.
  intros [c ctx]. cbn. unfold charge_page_cross.
  destruct (page_crossed c) eqn:E; cbn; rewrite E; reflexivity.
Qed.

End ChargeRules.

Ltac charges_tac :=
  lazymatch goal with |- Timing.charges ?m => let h := head_of m in unfold h end;
  repeat (apply charges_bind; [solve [keeps_tac] | intro]);
  apply charges_charge.

(** A branch handler, run symbolically: case on the tested flag, then on
    the page comparison. *)
Ltac branches_tac :=
  intros [[a0 x0 y0 sp0 pc0 st0 cyc0 h0 pg0] ctx];
  lazymatch goal with
  | |- context [fst (snd (?m _))] => let h := head_of m in unfold h
  end;
  unfold Timing.branch_taken, Cpu6502.cpu_get_flag; cbn [Z.eqb Pos.eqb];
  unfold Cpu6502.fetch, Cpu6502.bind, Cpu6502.gets, Cpu6502.modify,
    Cpu6502.cpu_read, Cpu6502.ret, Cpu6502.inc_cycles, Timing.page;
  cbn [fst snd Cpu6502.pc Cpu6502.cycles Cpu6502.status Cpu6502.set_pc
       Cpu6502.set_cycles];
  lazymatch goal with
  | |- context [nz (Z.land st0 ?f)] => destruct (nz (Z.land st0 f))
  end;
  cbn [negb fst snd Cpu6502.pc Cpu6502.cycles Cpu6502.status Cpu6502.set_pc
       Cpu6502.set_cycles];
  try lazymatch goal with
  | |- context [?p =? ?q] =>
      let E := fresh "E" in
      destruct (p =? q) eqn:E;
      cbn [negb fst snd Cpu6502.pc Cpu6502.cycles Cpu6502.status Cpu6502.set_pc
           Cpu6502.set_cycles];
      rewrite E
  end;
  reflexivity.

Ltac cycles_entry :=
  cbn [fst snd];
  lazymatch goal with
  | |- Timing.handler_cycles ?i _ =>
      unfold Timing.handler_cycles;
      let cl := eval vm_compute in (Timing.classify i) in
      change (Timing.classify i) with cl; cbv iota;
      lazymatch cl with
      | Timing.Plain => solve [keeps_tac]
      | Timing.IndexedRead => solve [charges_tac]
      | Timing.Branch => solve [branches_tac]
      end
  end.

Section OperandRules.

Import Cpu6502 Timing.

Context {B : Type} (bus : bus_t B).

Lemma crosses_bind {A} (mode : index_mode) (m : @M B A) (f : A -> @M B unit) :
  (forall s, page_crossed (fst (snd (m s))) = page_cross bus mode s) ->
  (forall v, keeps page_crossed (f v)) ->
  crosses bus mode (bind m f).
Proof.
  intros Hm Hf s. unfold bind. cbv zeta. rewrite (Hf _ (snd (m s))). apply Hm.
Qed.

(** An addressing helper, run on a symbolic state. *)
Ltac run_addr :=
  intros [[a0 x0 y0 sp0 pc0 st0 cyc0 h0 pg0] ctx];
  cbv beta iota zeta delta
    [addr_abx addr_aby addr_izy addr_abs fetch bind gets modify ret cpu_read
     fst snd pc x y page_crossed set_pc set_page_crossed
     page_cross indexed_operand page];
  reflexivity.

(** The flag that [addr_abx], [addr_aby] and [addr_izy] set is the page
    comparison of the operand. *)
Lemma addr_abx_cross : forall s,
  page_crossed (fst (snd (addr_abx bus s))) = page_cross bus AbsoluteX s.
Proof. run_addr. Qed.

Lemma addr_aby_cross : forall s,
  page_crossed (fst (snd (addr_aby bus s))) = page_cross bus AbsoluteY s.
Proof. run_addr. Qed.

Lemma addr_izy_cross : forall s,
  page_crossed (fst (snd (addr_izy bus s))) = page_cross bus IndirectY s.
Proof. run_addr. Qed.

End OperandRules.

(** An indexed read: the addressing helper sets the flag, the rest of the
    handler keeps it. *)
Ltac crosses_tac :=
  lazymatch goal with |- Timing.crosses _ _ ?m => let h := head_of m in unfold h end;
  apply crosses_bind;
  [ lazymatch goal with
    | |- context [Cpu6502.addr_abx] => exact (addr_abx_cross _)
    | |- context [Cpu6502.addr_aby] => exact (addr_aby_cross _)
    | |- context [Cpu6502.addr_izy] => exact (addr_izy_cross _)
    end
  | intro; solve [keeps_tac] ].

(** A branch handler, run symbolically for its program counter. *)
Ltac jumps_tac :=
  intros [[a0 x0 y0 sp0 pc0 st0 cyc0 h0 pg0] ctx];
  lazymatch goal with
  | |- context [fst (snd (?m _))] => let h := head_of m in unfold h
  end;
  unfold Timing.branch_taken, Cpu6502.cpu_get_flag, Timing.branch_target;
  cbn [Z.eqb Pos.eqb];
  unfold Cpu6502.fetch, Cpu6502.bind, Cpu6502.gets, Cpu6502.modify,
    Cpu6502.cpu_read, Cpu6502.ret, Cpu6502.inc_cycles;
  cbn [fst snd Cpu6502.pc Cpu6502.cycles Cpu6502.status Cpu6502.set_pc
       Cpu6502.set_cycles];
  lazymatch goal with
  | |- context [nz (Z.land st0 ?f)] => destruct (nz (Z.land st0 f))
  end;
  cbn [negb fst snd Cpu6502.pc Cpu6502.cycles Cpu6502.status Cpu6502.set_pc
       Cpu6502.set_cycles];
  try lazymatch goal with
  | |- context [?p =? ?q] =>
      destruct (p =? q);
      cbn [negb fst snd Cpu6502.pc Cpu6502.cycles Cpu6502.status Cpu6502.set_pc
           Cpu6502.set_cycles]
  end;
  reflexivity.

Ltac operand_entry :=
  cbn [fst snd];
  lazymatch goal with
  | |- Timing.handler_operand _ ?i _ =>
      unfold Timing.handler_operand;
      let cl := eval vm_compute in (Timing.classify i) in
      change (Timing.classify i) with cl; cbv iota;
      lazymatch cl with
      | Timing.Plain => exact I
      | Timing.IndexedRead =>
          let md := eval vm_compute in (Timing.index_mode_of i) in
          change (Timing.index_mode_of i) with md; solve [crosses_tac]
      | Timing.Branch => solve [jumps_tac]
      end
  end.

Section DispatchTable.

Import Cpu6502 Status Timing.

Context {B : Type} (bus : bus_t B).

Lemma opcode_table_length : length (opcode_table bus) = 256%nat.
Proof. reflexivity. Qed.

Lemma zrange_nth : forall k n, (n < k)%nat -> nth n (Ppu.zrange k) 0 = Z.of_nat n.
Proof.
  intros k n H. unfold Ppu.zrange.
  change 0 with (Z.of_nat 0). rewrite map_nth. rewrite seq_nth by assumption.
  reflexivity.
Qed.

Lemma zrange_length : forall k, length (Ppu.zrange k) = k.
Proof. intro k. unfold Ppu.zrange. rewrite length_map. apply length_seq. Qed.

(** A property checked entry by entry holds of whatever is dispatched. *)
Lemma opcode_fn_indexed (P : Z -> @M B unit -> Prop) :
  Forall (fun p => P (fst p) (snd p))
         (combine (Ppu.zrange 256) (opcode_table bus)) ->
  forall opcode, 0 <= opcode < 256 -> P opcode (opcode_fn bus opcode).
Proof.
  intros H opcode Hop. rewrite Forall_forall in H.
  assert (Hn : (Z.to_nat opcode < 256)%nat) by lia.
  specialize (H (nth (Z.to_nat opcode)
                     (combine (Ppu.zrange 256) (opcode_table bus)) (0, op_ill))).
  rewrite combine_nth in H by (rewrite zrange_length; reflexivity).
  rewrite zrange_nth in H by assumption. rewrite Z2Nat.id in H by lia.
  apply H. rewrite <- (Z2Nat.id opcode) at 1 by lia.
  rewrite <- (zrange_nth 256) by assumption.
  rewrite <- combine_nth by (rewrite zrange_length; reflexivity).
  apply nth_In. rewrite length_combine, zrange_length, opcode_table_length.
  apply Nat.min_glb_lt; assumption.
Qed.

Lemma opcode_table_cycles :
  Forall (fun p => handler_cycles (fst p) (snd p))
         (combine (Ppu.zrange 256) (opcode_table bus)).
Proof.
  unfold opcode_table.
  let l := eval vm_compute in (Ppu.zrange 256) in change (Ppu.zrange 256) with l.
  cbn [combine].
  repeat (apply Forall_cons; [cycles_entry|]).
  apply Forall_nil.
Qed.

Lemma opcode_table_operand :
  Forall (fun p => handler_operand bus (fst p) (snd p))
         (combine (Ppu.zrange 256) (opcode_table bus)).
Proof.
  unfold opcode_table.
  let l := eval vm_compute in (Ppu.zrange 256) in change (Ppu.zrange 256) with l.
  cbn [combine].
  repeat (apply Forall_cons; [operand_entry|]).
  apply Forall_nil.
Qed.

Lemma opcode_cycles_bounds : forall opcode, 0 <= opcode_cycles opcode <= 7.
Proof.
  intro opcode. unfold opcode_cycles.
  assert (H : Forall (fun n => 0 <= n <= 7) opcode_cycles_table).
  { unfold opcode_cycles_table. repeat (apply Forall_cons; [lia|]). apply Forall_nil. }
  rewrite Forall_forall in H.
  destruct (Nat.lt_ge_cases (Z.to_nat opcode) (length opcode_cycles_table)) as [Hl|Hl].
  - apply H. apply nth_In. exact Hl.
  - rewrite nth_overflow by exact Hl. lia.
Qed.

(** *** Status bits *)

Lemma status_ok_live_bits : forall c c',
  live_bits c' = live_bits c -> status_ok c -> status_ok c'.
Proof.
  unfold live_bits, status_ok. intros c c' H [H5 H4].
  pose proof (f_equal fst H) as E5. pose proof (f_equal snd H) as E4.
  cbn [fst snd] in E5, E4. rewrite E5, E4. auto.
Qed.

Lemma keeps_preserves_ok {A} (m : @M B A) :
  keeps live_bits m -> preserves status_ok m.
Proof. intros H s. apply status_ok_live_bits. apply H. Qed.

(** [status |= U; status &= ~B] on any byte. *)
Lemma force_bits : forall v,
  let s := u8 (Z.land (u8 (Z.lor v CPU_FLAG_U)) (Z.lnot CPU_FLAG_B)) in
  Z.testbit s 5 = true /\ Z.testbit s 4 = false.
Proof.
  intro v. cbv zeta. unfold u8.
  rewrite !testbit_u8_low by lia.
  rewrite !Z.land_spec, !Z.lnot_spec by lia.
  rewrite !testbit_u8_low by lia.
  rewrite !Z.lor_spec.
  change (Z.testbit CPU_FLAG_U 5) with true.
  change (Z.testbit CPU_FLAG_B 5) with false.
  change (Z.testbit CPU_FLAG_B 4) with true.
  rewrite orb_true_r. split; [reflexivity | apply andb_false_r].
Qed.

Lemma op_plp_ok : forall s, status_ok (fst (snd (op_plp bus s))).
Proof. intros [c ctx]. apply force_bits. Qed.

Lemma op_rti_ok : forall s, status_ok (fst (snd (op_rti bus s))).
Proof. intros [c ctx]. apply force_bits. Qed.

Ltac ok_entry :=
  lazymatch goal with
  | |- preserves _ (op_plp _) => intros ? ?; apply op_plp_ok
  | |- preserves _ (op_rti _) => intros ? ?; apply op_rti_ok
  | |- _ => solve [apply keeps_preserves_ok; keeps_tac]
  end.

Lemma opcode_table_status :
  Forall (fun h => preserves status_ok h) (opcode_table bus).
Proof.
  unfold opcode_table.
  repeat (apply Forall_cons; [ok_entry|]).
  apply Forall_nil.
Qed.

Lemma opcode_fn_status : forall opcode, preserves status_ok (opcode_fn bus opcode).
Proof.
  intro opcode. unfold opcode_fn.
  pose proof opcode_table_status as H. rewrite Forall_forall in H.
  destruct (Nat.lt_ge_cases (Z.to_nat opcode) (length (opcode_table bus))) as [Hl|Hl].
  - apply H. apply nth_In. exact Hl.
  - rewrite nth_overflow by exact Hl. apply keeps_preserves_ok. keeps_tac.
Qed.

(** *** cpu6502_step, unfolded *)

Lemma cpu6502_step_running : forall c ctx, halted c = false ->
  let r := read bus ctx (pc c) in
  let opcode := u8 (fst r) in
  cpu6502_step bus (c, ctx) =
  opcode_fn bus opcode
    (set_cycles (u64 (cycles c + opcode_cycles opcode))
       (set_pc (u16 (pc c + 1)) (set_page_crossed false c)), snd r).
Proof.
  intros c ctx H.
  unfold cpu6502_step, bind, gets, fetch, bind, gets, modify, cpu_read.
  cbn [fst snd]. rewrite H. reflexivity.
Qed.

Lemma cpu6502_step_halted : forall c ctx, halted c = true ->
  cpu6502_step bus (c, ctx) = (tt, (c, ctx)).
Proof.
  intros c ctx H. unfold cpu6502_step, bind, gets. cbn [fst snd]. rewrite H.
  reflexivity.
Qed.

Lemma reset_ok : preserves status_ok (cpu6502_reset bus).
Proof.
  intros [c ctx] [H5 H4]. unfold status_ok.
  unfold cpu6502_reset, bind, modify, cpu_read.
  cbn [fst snd status set_cycles set_halted set_status set_sp set_pc].
  unfold u8.
  rewrite !testbit_u8_low by lia. rewrite !Z.lor_spec.
  rewrite !testbit_u8_low by lia. rewrite !Z.lor_spec.
  cbn [fst] in H5, H4. rewrite H5, H4. split; reflexivity.
Qed.

Lemma illegal_dispatch :
  Forall (fun op => opcode_fn bus op = op_ill /\ opcode_cycles op = 0)
         illegal_opcodes.
Proof.
  unfold illegal_opcodes.
  repeat (apply Forall_cons; [split; reflexivity|]). apply Forall_nil.
Qed.

(** C4.  From a cpu whose status has bit 5 = 1 and bit 4 = 0, a step (any
    opcode, PLP and RTI included), an IRQ, an NMI and a reset all leave
    bit 5 = 1 and bit 4 = 0 in the live status register; [cpu6502_init]
    sets them up from any state. *)
Theorem status_bits_invariant : forall (c : cpu6502_t) (ctx : B) (c0 : cpu6502_t),
  status_ok c -> status_bits_kept bus c ctx c0.
Proof.
  intros c ctx c0 Hok. unfold status_bits_kept.
  split; [|split; [|split; [|split]]].
  - destruct (halted c) eqn:Hh.
    + rewrite cpu6502_step_halted by exact Hh. apply Hok.
    + rewrite cpu6502_step_running by exact Hh. cbv zeta.
      apply opcode_fn_status. exact Hok.
  - assert (K : keeps live_bits (cpu6502_irq bus)) by keeps_tac.
    apply (keeps_preserves_ok _ K (c, ctx)); apply Hok.
  - assert (K : keeps live_bits (cpu6502_nmi bus)) by keeps_tac.
    apply (keeps_preserves_ok _ K (c, ctx)); apply Hok.
  - apply (reset_ok (c, ctx)); apply Hok.
  - split; reflexivity.
Qed.

(** *** Cycles *)

Lemma branch_taken_status : forall opcode c c',
  status c' = status c -> branch_taken opcode c' = branch_taken opcode c.
Proof.
  intros opcode c c' H. unfold branch_taken, cpu_get_flag. rewrite H. reflexivity.
Qed.

(** The count after a step, modulo 2^64, with the extra cycles read off
    the cpu after the step. *)
Lemma cpu6502_step_cycles_mod : forall (c : cpu6502_t) (ctx : B),
  halted c = false ->
  let opcode := u8 (fst (read bus ctx (pc c))) in
  let c' := fst (snd (cpu6502_step bus (c, ctx))) in
  cycles c' = u64 (cycles c + opcode_cycles opcode + extra_observed opcode c c').
Proof.
  intros c ctx Hh opcode c'. subst c'.
  rewrite cpu6502_step_running by exact Hh. cbv zeta. fold opcode.
  assert (Hop : 0 <= opcode < 256) by (apply Z.mod_pos_bound; lia).
  pose proof (opcode_fn_indexed handler_cycles opcode_table_cycles opcode Hop) as H.
  unfold handler_cycles in H. unfold extra_observed.
  set (c1 := set_cycles (u64 (cycles c + opcode_cycles opcode))
               (set_pc (u16 (pc c + 1)) (set_page_crossed false c))) in *.
  set (s1 := (c1, snd (read bus ctx (pc c)))) in *.
  destruct (classify opcode).
  - rewrite (H s1). cbn [fst s1 c1 cycles set_cycles]. rewrite Z.add_0_r.
    reflexivity.
  - rewrite (H s1). cbn [fst s1 c1 cycles set_cycles].
    destruct (page_crossed _).
    + apply u64_add_l.
    + rewrite Z.add_0_r. reflexivity.
  - rewrite (H s1). cbn [fst s1 c1 cycles set_cycles pc set_pc].
    rewrite (branch_taken_status opcode c c1) by reflexivity.
    rewrite u16_add_l. replace (pc c + 1 + 1) with (pc c + 2) by lia.
    destruct (branch_taken opcode c).
    + destruct (_ =? _).
      * apply u64_add_l.
      * rewrite (u64_add_l (cycles c + opcode_cycles opcode) 1), u64_add_l.
        f_equal. lia.
    + rewrite Z.add_0_r. reflexivity.
Qed.

(** The flag and the program counter after the step follow the operand. *)
Lemma step_tracks_operand : forall (c : cpu6502_t) (ctx : B),
  halted c = false -> step_tracks bus c ctx.
Proof.
  intros c ctx Hh. unfold step_tracks. cbv zeta.
  rewrite cpu6502_step_running by exact Hh. cbv zeta.
  set (opcode := u8 (fst (read bus ctx (pc c)))).
  assert (Hop : 0 <= opcode < 256) by (apply Z.mod_pos_bound; lia).
  pose proof (opcode_fn_indexed (handler_operand bus) opcode_table_operand
                opcode Hop) as H.
  unfold handler_operand in H.
  split; intro Hc; rewrite Hc in H; rewrite (H _).
  - reflexivity.
  - unfold branch_taken, cpu_get_flag, branch_target, fetched.
    cbn [fst snd pc status set_pc set_cycles set_page_crossed].
    match goal with |- (if ?b then _ else _) = _ => destruct b end;
      [reflexivity | rewrite u16_add_l; f_equal; lia].
Qed.

(** Hence the extra cycles read off the cpu are those of the operand. *)
Lemma extra_observed_operand : forall (c : cpu6502_t) (ctx : B),
  halted c = false ->
  extra_observed (u8 (fst (read bus ctx (pc c)))) c
    (fst (snd (cpu6502_step bus (c, ctx))))
  = extra_cycles bus c ctx.
Proof.
  intros c ctx Hh. destruct (step_tracks_operand c ctx Hh) as [Hx Hb].
  cbv zeta in Hx, Hb. unfold extra_observed, extra_cycles. cbv zeta.
  destruct (classify (u8 (fst (read bus ctx (pc c))))).
  - reflexivity.
  - rewrite Hx by reflexivity. reflexivity.
  - rewrite Hb by reflexivity.
    destruct (branch_taken _ c); reflexivity.
Qed.

(** C2, amended.  For a cpu that is not halted, on any bus, one step
    leaves the cycle counter at the old count plus the base cost of the
    fetched opcode plus 0, 1 or 2, modulo 2^64.  The extra is determined by
    the operand: 1 for an indexed read whose base address and effective
    address (base plus index register) lie in different pages, which is
    what [page_crossed] holds after the step; 1 for a taken branch, whose
    target is the next instruction plus the signed operand, and 2 when
    that target lies in another page than the next instruction; 0
    otherwise.  When the count does not wrap the counter rises by exactly
    that much and does not decrease. *)
Theorem cpu6502_step_cycles : forall (c : cpu6502_t) (ctx : B),
  halted c = false -> step_cycles bus c ctx.
Proof.
  intros c ctx Hh. unfold step_cycles. cbv zeta.
  pose proof (cpu6502_step_cycles_mod c ctx Hh) as E. cbv zeta in E.
  rewrite (extra_observed_operand c ctx Hh) in E.
  pose proof (step_tracks_operand c ctx Hh) as T.
  split; [exact E|]. split; [exact T|].
  intros [Hc Hw]. unfold step_charges. cbv zeta.
  destruct T as [Tx Tb]. cbv zeta in Tx, Tb.
  set (opcode := u8 (fst (read bus ctx (pc c)))) in *.
  set (c' := fst (snd (cpu6502_step bus (c, ctx)))) in *.
  pose proof (opcode_cycles_bounds opcode) as Hb.
  assert (Hx : 0 <= extra_cycles bus c ctx <= 2).
  { unfold extra_cycles. cbv zeta. fold opcode. destruct (classify opcode);
      repeat match goal with |- context [if ?b then _ else _] => destruct b end; lia. }
  rewrite u64_small in E by lia.
  split; [exact E|]. split; [lia|]. split; [lia|].
  unfold extra_cycles. cbv zeta. fold opcode. split.
  - intro H1. destruct (classify opcode); [lia | |].
    + right. split; [reflexivity|]. unfold page_cross in H1. cbv zeta in H1.
      match type of H1 with context [?p =? ?q] => destruct (Z.eqb_spec p q) end;
        [cbn [negb] in H1; lia | assumption].
    + left. split; [reflexivity|]. destruct (branch_taken opcode c); [reflexivity | lia].
  - intro H2. destruct (classify opcode);
      [lia | destruct (page_cross _ _ _); lia |].
    split; [reflexivity|].
    rewrite Tb by reflexivity.
    destruct (branch_taken opcode c); [|lia]. split; [reflexivity|].
    match type of H2 with context [?p =? ?q] => destruct (Z.eqb_spec p q) end;
      [lia | assumption].
Qed.

End DispatchTable.

Lemma status_bits_invariant_witness :
  Status.status_ok Examples.plp_cpu /\
  Status.status_bits_kept Examples.bus_flat Examples.plp_cpu Examples.plp_mem
    Examples.plp_cpu.
Proof.
  split; [split; reflexivity|].
  apply (status_bits_invariant Examples.bus_flat Examples.plp_cpu Examples.plp_mem
           Examples.plp_cpu).
  split; reflexivity.
Defined.

Lemma cpu6502_step_cycles_witness :
  Cpu6502.halted Examples.lda_cpu = false /\
  Timing.indexed_operand Examples.bus_flat Timing.AbsoluteX
    (Timing.fetched Examples.bus_flat Examples.lda_cpu Examples.lda_mem)
    = (0x10FF, 0x1100) /\
  Timing.extra_cycles Examples.bus_flat Examples.lda_cpu Examples.lda_mem = 1 /\
  Timing.no_wrap Examples.bus_flat Examples.lda_cpu Examples.lda_mem /\
  Timing.step_charges Examples.bus_flat Examples.lda_cpu Examples.lda_mem /\
  Timing.step_cycles Examples.bus_flat Examples.lda_cpu Examples.lda_mem.
Proof.
  assert (W : Timing.no_wrap Examples.bus_flat Examples.lda_cpu Examples.lda_mem)
    by (split; vm_compute; [discriminate | reflexivity]).
  assert (H : Cpu6502.halted Examples.lda_cpu = false) by reflexivity.
  split; [exact H|]. split; [reflexivity|]. split; [reflexivity|]. split; [exact W|].
  pose proof (cpu6502_step_cycles Examples.bus_flat Examples.lda_cpu Examples.lda_mem H)
    as K.
  split; [exact (proj2 (proj2 K) W) | exact K].
Defined.

(** C2 as stated fails where the counter wraps: a NOP executed with the
    counter at 2^64 - 1 leaves it at 1. *)
Lemma cycle_counter_wraps :
  Cpu6502.halted Examples.wrap_cpu = false /\
  Cpu6502.cycles Examples.wrap_cpu = 18446744073709551615 /\
  Cpu6502.cycles
    (fst (snd (Cpu6502.cpu6502_step Examples.bus_flat
                 (Examples.wrap_cpu, Examples.nop_mem)))) = 1 /\
  ~ Timing.step_charges Examples.bus_flat Examples.wrap_cpu Examples.nop_mem.
Proof.
  split; [reflexivity|]. split; [reflexivity|]. split; [reflexivity|].
  intros [_ [H _]]. vm_compute in H. apply H. reflexivity.
Qed.

(* ===================================================================== *)
(** * The PPU *)
(* ===================================================================== *)

Section PpuFacts.

Import Cartridge Ppu Runs.

Lemma land_u16_3FFF : forall x, Z.land (u16 x) 0x3FFF = Z.land x 0x3FFF.
Proof.
  intro x. change 0x3FFF with (Z.ones 14). rewrite !Z.land_ones by lia.
  unfold u16. apply Z.mod_mod_divide. exists 4. reflexivity.
Qed.

Lemma ppu_bus_read_u16 : forall cart ppu addr,
  ppu_bus_read cart ppu (u16 addr) = ppu_bus_read cart ppu addr.
Proof. intros. unfold ppu_bus_read. rewrite land_u16_3FFF. reflexivity. Qed.

(** The $2007 register, seen from [ppu_cpu_read]. *)
Lemma ppu_cpu_read_data : forall cart ppu addr,
  Z.land addr 0x07 = 7 ->
  ppu_cpu_read cart ppu addr =
    (if v ppu <? 0x3F00 then data_buf ppu else ppu_bus_read cart ppu (v ppu),
     increment_v
       (set_data_buf
          (ppu_bus_read cart ppu (if v ppu <? 0x3F00 then v ppu else v ppu - 0x1000))
          ppu)).
Proof.
  intros cart ppu addr H. unfold ppu_cpu_read. rewrite H. cbn [Z.eqb Pos.eqb].
  destruct (v ppu <? 0x3F00); cbn [fst snd]; rewrite ?ppu_bus_read_u16; reflexivity.
Qed.

(** *** VBlank *)

Lemma ppu_run_until_done : forall fuel sl cy cart ppu,
  scanline ppu = sl -> cycle ppu = cy ->
  ppu_run_until fuel sl cy cart ppu = Some ([], ppu).
Proof.
  intros fuel sl cy cart ppu Hs Hc.
  destruct fuel; cbn [ppu_run_until]; rewrite Hs, Hc, !Z.eqb_refl; reflexivity.
Qed.

Lemma ppu_run_until_step : forall fuel sl cy cart ppu,
  (scanline ppu =? sl) && (cycle ppu =? cy) = false ->
  ppu_run_until (S fuel) sl cy cart ppu =
    match ppu_run_until fuel sl cy cart (snd (ppu_step cart ppu)) with
    | Some (trace, ppu') =>
        Some ((scanline ppu, cycle ppu, fst (ppu_step cart ppu)) :: trace, ppu')
    | None => None
    end.
Proof. intros fuel sl cy cart ppu H. cbn [ppu_run_until]. rewrite H. reflexivity. Qed.

(** Outside the pre-render and visible lines only VBlank start does
    anything. *)
Lemma ppu_step_vblank_line : forall cart ppu,
  240 <= scanline ppu ->
  ppu_step cart ppu =
    if (scanline ppu =? 241) && (cycle ppu =? 1)
    then (nmi_output ppu,
          advance (set_status (u8 (Z.lor (status ppu) 0x80))
                              (set_nmi_occurred true ppu)))
    else (false, advance ppu).
Proof.
  intros cart ppu H. unfold ppu_step.
  replace (scanline ppu =? -1) with false by (symmetry; apply Z.eqb_neq; lia).
  replace (scanline ppu <? 240) with false by (symmetry; apply Z.ltb_ge; lia).
  rewrite andb_false_r.
  destruct ((scanline ppu =? 241) && (cycle ppu =? 1)); reflexivity.
Qed.

(** [ppu_step] signals an NMI at the VBlank-start tick and nowhere else. *)
Lemma ppu_step_signal : forall cart ppu,
  fst (ppu_step cart ppu) =
    (scanline ppu =? 241) && (cycle ppu =? 1) && nmi_output ppu.
Proof.
  intros cart ppu. unfold ppu_step.
  destruct (Z.eqb_spec (scanline ppu) (-1)) as [E|E].
  - rewrite E. reflexivity.
  - destruct ((scanline ppu >=? 0) && (scanline ppu <? 240)) eqn:V.
    + apply andb_true_iff in V. destruct V as [_ V]. apply Z.ltb_lt in V.
      replace (scanline ppu =? 241) with false by (symmetry; apply Z.eqb_neq; lia).
      destruct ((cycle ppu =? 0) && _); reflexivity.
    + destruct ((scanline ppu =? 241) && (cycle ppu =? 1)); reflexivity.
Qed.

Lemma advance_within : forall ppu, cycle ppu < 340 ->
  advance ppu = set_cycle (cycle ppu + 1) ppu.
Proof.
  intros ppu H. unfold advance. cbn [cycle set_cycle].
  replace (cycle ppu + 1 >? 340) with false; [reflexivity|].
  symmetry. rewrite Z.gtb_ltb. apply Z.ltb_ge. lia.
Qed.

Lemma advance_wrap : forall ppu, cycle ppu = 340 -> scanline ppu < 260 ->
  advance ppu =
    set_scanline (scanline ppu + 1) (set_cycle 0 (set_cycle (cycle ppu + 1) ppu)).
Proof.
  intros ppu H Hs. unfold advance. cbn [cycle set_cycle scanline set_scanline].
  rewrite H.
  cbn [Z.add Z.gtb Z.compare Pos.compare Pos.compare_cont Pos.add Pos.succ].
  replace (scanline ppu + 1 >? 260) with false; [reflexivity|].
  symmetry. rewrite Z.gtb_ltb. apply Z.ltb_ge. lia.
Qed.

(** C6.  From scanline 240, cycle 340, with NMI output enabled, ticking the
    PPU until it stands at scanline 241, cycle 2 takes three ticks; the NMI
    signal is returned exactly once, by the tick that starts at scanline
    241, cycle 1, and that tick sets [nmi_occurred] and bit 7 of the status
    latch. *)
Theorem vblank_nmi_once : forall cart ppu (fuel : nat),
  scanline ppu = 240 -> cycle ppu = 340 -> nmi_output ppu = true ->
  exists ppu',
    ppu_run_until (3 + fuel) 241 2 cart ppu =
      Some ([(240, 340, false); (241, 0, false); (241, 1, true)], ppu') /\
    nmi_count [(240, 340, false); (241, 0, false); (241, 1, true)] = 1%nat /\
    nmi_occurred ppu' = true /\
    Z.testbit (status ppu') 7 = true /\
    scanline ppu' = 241 /\ cycle ppu' = 2.
Proof.
  intros cart ppu fuel Hs Hc Hn.
  (* the tick at (240, 340) *)
  assert (E1 : ppu_step cart ppu =
               (false, set_scanline 241 (set_cycle 0 (set_cycle 341 ppu)))).
  { rewrite ppu_step_vblank_line by lia. rewrite Hs. cbn [Z.eqb Pos.eqb andb].
    rewrite advance_wrap by lia. rewrite Hs, Hc. reflexivity. }
  set (p1 := set_scanline 241 (set_cycle 0 (set_cycle 341 ppu))) in *.
  (* the tick at (241, 0) *)
  assert (E2 : ppu_step cart p1 = (false, set_cycle 1 p1)).
  { rewrite ppu_step_vblank_line by (cbn; lia).
    cbn [scanline cycle p1 set_scanline set_cycle Z.eqb Pos.eqb andb].
    rewrite advance_within by (cbn; lia). reflexivity. }
  set (p2 := set_cycle 1 p1) in *.
  (* the tick at (241, 1) *)
  set (p3 := set_cycle 2 (set_status (u8 (Z.lor (status p2) 0x80))
                                     (set_nmi_occurred true p2))).
  assert (E3 : ppu_step cart p2 = (true, p3)).
  { rewrite ppu_step_vblank_line by (cbn; lia).
    cbn [scanline cycle p2 p1 set_scanline set_cycle Z.eqb Pos.eqb andb].
    rewrite advance_within by (cbn; lia).
    unfold p2, p1. cbn [nmi_output set_cycle set_scanline]. rewrite Hn.
    reflexivity. }
  exists p3. split; [|split; [|split; [|split; [|split]]]].
  - change (3 + fuel)%nat with (S (S (S fuel))).
    rewrite ppu_run_until_step by (rewrite Hs; reflexivity).
    rewrite E1. cbn [fst snd].
    rewrite ppu_run_until_step by reflexivity.
    rewrite E2. cbn [fst snd].
    rewrite ppu_run_until_step by reflexivity.
    rewrite E3. cbn [fst snd].
    rewrite ppu_run_until_done by reflexivity.
    rewrite Hs, Hc. reflexivity.
  - reflexivity.
  - reflexivity.
  - apply testbit_u8_lor_128.
  - reflexivity.
  - reflexivity.
Qed.

(** *** Palette *)

(** C7, amended.  A byte [b] written on the PPU bus at $3F00 reads back at
    $3F10 as [b & 0x3F], and the other way round; the same for $3F04/$3F14,
    $3F08/$3F18 and $3F0C/$3F1C. *)
Theorem palette_alias_readback : forall cart ppu b,
  palette_readback cart ppu 0x3F00 0x3F10 b = Z.land b 0x3F /\
  palette_readback cart ppu 0x3F10 0x3F00 b = Z.land b 0x3F /\
  palette_readback cart ppu 0x3F04 0x3F14 b = Z.land b 0x3F /\
  palette_readback cart ppu 0x3F14 0x3F04 b = Z.land b 0x3F /\
  palette_readback cart ppu 0x3F08 0x3F18 b = Z.land b 0x3F /\
  palette_readback cart ppu 0x3F18 0x3F08 b = Z.land b 0x3F /\
  palette_readback cart ppu 0x3F0C 0x3F1C b = Z.land b 0x3F /\
  palette_readback cart ppu 0x3F1C 0x3F0C b = Z.land b 0x3F.
Proof.
  intros cart ppu b. unfold palette_readback, ppu_bus_write, ppu_bus_read.
  repeat split; cbn; apply upd_same.
Qed.

(** A byte below $40 reads back unchanged. *)
Lemma land_3F_small : forall b, 0 <= b < 64 -> Z.land b 0x3F = b.
Proof.
  intros b H. change 0x3F with (Z.ones 6). rewrite Z.land_ones by lia.
  apply Z.mod_small. exact H.
Qed.

(** *** PPUCTRL *)

(** What a write of [val] to $2000 stores. *)
Lemma ppuctrl_write_stores : forall cart ppu val,
  let ppu' := fst (ppu_cpu_write cart ppu 0x2000 val) in
  ctrl ppu' = val /\
  nmi_output ppu' = Z.testbit val 7 /\
  t ppu' = Z.lor (Z.land (t ppu) 0xF3FF) (Z.shiftl (Z.land val 0x03) 10) /\
  Z.testbit (t ppu') 10 = Z.testbit val 0 /\
  Z.testbit (t ppu') 11 = Z.testbit val 1.
Proof.
  intros cart ppu val. cbv zeta. unfold ppu_cpu_write.
  change (Z.land 0x2000 0x07) with 0. cbn [Z.eqb fst].
  rewrite nz_land_128.
  assert (T : forall p, t (if negb (nmi_output (set_ctrl val ppu))
                              && nmi_output p && nmi_occurred p
                           then set_nmi_occurred true p else p) = t p)
    by (intro p; destruct (_ && _); reflexivity).
  split; [destruct (_ && _); reflexivity|].
  split; [destruct (_ && _); reflexivity|].
  rewrite T. cbn [t set_t set_nmi_output set_ctrl].
  split; [reflexivity|].
  rewrite !Z.lor_spec, !Z.land_spec, !Z.shiftl_spec by lia.
  change (Z.testbit 0xF3FF 10) with false. change (Z.testbit 0xF3FF 11) with false.
  rewrite !andb_false_r. cbn [orb Z.sub Z.add Z.opp Z.pos_sub Pos.pred_double].
  rewrite !Z.land_spec.
  change (Z.testbit 3 0) with true. change (Z.testbit 3 1) with true.
  rewrite !andb_true_r. split; reflexivity.
Qed.

(** The write returns nothing and its result does not depend on the old
    [nmi_output]: a 0 -> 1 edge of NMI output leaves no trace. *)
Lemma ppuctrl_edge_untraceable : forall cart ppu val,
  nmi_occurred ppu = true ->
  ppu_cpu_write cart (set_nmi_output false ppu) 0x2000 val =
  ppu_cpu_write cart (set_nmi_output true ppu) 0x2000 val.
Proof.
  intros cart ppu val H. destruct ppu. cbn in H. subst.
  unfold ppu_cpu_write. change (Z.land 0x2000 0x07) with 0. cbn [Z.eqb].
  cbn. destruct (nz (Z.land val 128)); reflexivity.
Qed.

End PpuFacts.

Lemma vblank_nmi_once_witness :
  Ppu.scanline Examples.pre_vblank_ppu = 240 /\
  Ppu.cycle Examples.pre_vblank_ppu = 340 /\
  Ppu.nmi_output Examples.pre_vblank_ppu = true /\
  exists ppu',
    Runs.ppu_run_until (3 + 0) 241 2 Examples.cart_empty Examples.pre_vblank_ppu =
      Some ([(240, 340, false); (241, 0, false); (241, 1, true)], ppu') /\
    Runs.nmi_count [(240, 340, false); (241, 0, false); (241, 1, true)] = 1%nat /\
    Ppu.nmi_occurred ppu' = true /\
    Z.testbit (Ppu.status ppu') 7 = true /\
    Ppu.scanline ppu' = 241 /\ Ppu.cycle ppu' = 2.
Proof.
  split; [reflexivity|]. split; [reflexivity|]. split; [reflexivity|].
  apply (vblank_nmi_once Examples.cart_empty Examples.pre_vblank_ppu 0);
    reflexivity.
Defined.

(** C7 as stated fails for bytes above $3F: $FF written at $3F00 reads back
    at $3F10 as $3F. *)
Lemma palette_readback_masked :
  Runs.palette_readback Examples.cart_empty Ppu.ppu_init 0x3F00 0x3F10 0xFF = 0x3F /\
  Runs.palette_readback Examples.cart_empty Ppu.ppu_init 0x3F00 0x3F10 0xFF <> 0xFF.
Proof. split; [reflexivity | discriminate]. Qed.

(* ===================================================================== *)
(** * The system bus and the frame loop *)
(* ===================================================================== *)

Section NesFacts.

Import Cpu6502 Ppu Nes Runs Timing.

(** C5.  A CPU read of $2007 returns the data buffer when [v < 0x3F00] and
    refills the buffer from [ppu_bus_read(v)]; when [v >= 0x3F00] it returns
    [ppu_bus_read(v)] and refills the buffer from [ppu_bus_read(v - 0x1000)];
    either way [v] then goes up by 32 if bit 2 of PPUCTRL is set and by 1
    otherwise (in 16 bits), and nothing else changes. *)
Theorem ppudata_read : forall nes : nes_t,
  let r := nes_bus_read nes 0x2007 in
  let old := ppu nes in
  let new := ppu (snd r) in
  fst r = (if v old <? 0x3F00 then data_buf old
           else ppu_bus_read (cart nes) old (v old)) /\
  data_buf new =
    ppu_bus_read (cart nes) old
      (if v old <? 0x3F00 then v old else v old - 0x1000) /\
  v new = u16 (v old + (if Z.testbit (ctrl old) 2 then 32 else 1)) /\
  snd r = set_ppu (set_v (v new) (set_data_buf (data_buf new) old)) nes.
Proof.
  intro nes. cbv zeta. unfold nes_bus_read.
  cbn [Z.ltb Z.compare Pos.compare Pos.compare_cont].
  rewrite ppu_cpu_read_data by reflexivity.
  cbn [fst snd ppu set_ppu]. unfold increment_v. rewrite nz_land_4.
  cbn [v data_buf ctrl set_v set_data_buf].
  repeat split.
Qed.

(** *** Controller port *)

(** C9, amended.  A write to $4016 with bit 0 = 1 only raises the strobe
    flag: the shift registers are left as they were, and a read while the
    strobe is high still returns bit 0 of the old shift register.  A write
    with bit 0 = 0 while the strobe is high (the 1 -> 0 edge) latches
    controller[0] and controller[1] into the two shift registers and lowers
    the strobe; with the strobe already low it does nothing. *)
Theorem controller_strobe_write : forall (nes : nes_t) (val : Z),
  let nes' := nes_bus_write nes 0x4016 val in
  if Z.testbit val 0 then
    nes' = set_controller_strobe true nes /\
    fst (nes_bus_read nes' 0x4016) = Z.land (controller_shift nes 0) 0x01
  else if controller_strobe nes then
    controller_shift nes' 0 = controller nes 0 /\
    controller_shift nes' 1 = controller nes 1 /\
    controller_strobe nes' = false
  else nes' = nes.
Proof.
  intros nes val. cbv zeta. unfold nes_bus_write.
  cbn [Z.ltb Z.eqb Z.compare Pos.compare Pos.compare_cont Pos.eqb].
  rewrite nz_land_1.
  destruct (Z.testbit val 0); [split; reflexivity|].
  destruct (controller_strobe nes); [|reflexivity].
  cbn. unfold upd. cbn. auto.
Qed.

(** The falling edge loads the first shift register from controller[0]. *)
Lemma strobe_falling_edge : forall nes val,
  controller_strobe nes = true -> Z.testbit val 0 = false ->
  controller_shift (nes_bus_write nes 0x4016 val) 0 = controller nes 0.
Proof.
  intros nes val Hst Hv. unfold nes_bus_write.
  cbn [Z.ltb Z.eqb Z.compare Pos.compare Pos.compare_cont Pos.eqb].
  rewrite nz_land_1, Hv, Hst. reflexivity.
Qed.

Lemma land_1_bit0 : forall s, Z.land s 1 = Z.b2z (Z.testbit s 0).
Proof.
  intro s. change 1 with (Z.ones 1). rewrite Z.land_ones by lia.
  rewrite Z.bit0_mod. reflexivity.
Qed.

Lemma shiftr1_byte : forall s, 0 <= s < 256 -> 0 <= Z.shiftr s 1 < 256.
Proof.
  intros s H. rewrite Z.shiftr_div_pow2 by lia. change (2 ^ 1) with 2. split.
  - apply Z.div_pos; lia.
  - apply Z.div_lt_upper_bound; lia.
Qed.

(** Successive reads of $4016 shift the register out, low bit first. *)
Lemma controller_reads_shift : forall n nes,
  0 <= controller_shift nes 0 < 256 ->
  controller_reads n nes =
    map (fun i => Z.b2z (Z.testbit (controller_shift nes 0) i)) (zrange n).
Proof.
  induction n as [|n IH]; intros nes Hs.
  - reflexivity.
  - cbn [controller_reads]. unfold zrange. rewrite <- cons_seq, <- seq_shift.
    rewrite !map_cons, !map_map.
    unfold nes_bus_read at 1 2.
    cbn [Z.ltb Z.eqb Z.compare Pos.compare Pos.compare_cont Pos.eqb fst snd].
    f_equal.
    + apply land_1_bit0.
    + pose proof (shiftr1_byte _ Hs) as Hs'.
      assert (E : controller_shift
                    (set_controller_shift
                       (upd (controller_shift nes) 0
                            (u8 (Z.shiftr (controller_shift nes 0) 1))) nes) 0
                  = Z.shiftr (controller_shift nes 0) 1).
      { cbn [controller_shift set_controller_shift]. rewrite upd_same.
        unfold u8. apply Z.mod_small. exact Hs'. }
      rewrite IH by (rewrite E; exact Hs').
      unfold zrange. rewrite map_map. apply map_ext. intro i.
      rewrite E. rewrite Z.shiftr_spec by lia.
      f_equal. f_equal. lia.
Qed.

(** C10.  After a 1 -> 0 strobe edge on $4016 has latched the byte [c] of
    controller 1, the first eight reads of $4016 return bits 0 to 7 of [c]
    in order, and every later read returns 0. *)
Theorem controller_serial_read : forall (nes : nes_t) (val c : Z) (n : nat),
  controller_strobe nes = true -> Z.testbit val 0 = false ->
  controller nes 0 = c -> 0 <= c < 256 ->
  controller_reads n (nes_bus_write nes 0x4016 val) =
    map (fun i => if i <? 8 then Z.b2z (Z.testbit c i) else 0) (zrange n).
Proof.
  intros nes val c n Hst Hv Hc Hr.
  pose proof (strobe_falling_edge nes val Hst Hv) as W0.
  rewrite controller_reads_shift by (rewrite W0, Hc; exact Hr).
  rewrite W0, Hc. apply map_ext_in. intros i Hi.
  destruct (Z.ltb_spec i 8); [reflexivity|].
  replace (Z.testbit c i) with false; [reflexivity|].
  symmetry. apply (testbit_small c 8 i); [exact Hr | lia].
Qed.

(** *** The frame loop and a halted cpu *)

Lemma ppu_cpu_read_frame : forall cart p addr,
  frame (snd (ppu_cpu_read cart p addr)) = frame p.
Proof.
  intros. unfold ppu_cpu_read.
  repeat match goal with |- context [if ?b then _ else _] => destruct b end;
    reflexivity.
Qed.

(** A bus read touches neither the frame counter nor the DMA latch. *)
Lemma nes_bus_read_frame : forall nes addr,
  frame (ppu (snd (nes_bus_read nes addr))) = frame (ppu nes) /\
  dma_pending (snd (nes_bus_read nes addr)) = dma_pending nes.
Proof.
  intros. unfold nes_bus_read.
  repeat match goal with |- context [if ?b then _ else _] => destruct b end;
    cbn [fst snd ppu dma_pending set_ppu set_controller_shift];
    rewrite ?ppu_cpu_read_frame; auto.
Qed.

(** With the cpu halted and no DMA pending, an iteration changes nothing. *)
Lemma nes_step_frame_body_halted : forall c nes,
  halted c = true -> dma_pending nes = false ->
  nes_step_frame_body (c, nes) = (c, nes).
Proof.
  intros c nes Hh Hd. unfold nes_step_frame_body. cbn [fst snd]. rewrite Hd.
  rewrite cpu6502_step_halted by exact Hh. cbn [fst snd].
  rewrite Z.sub_diag. reflexivity.
Qed.

Lemma nes_step_frame_loop_halted : forall fuel start c nes,
  halted c = true -> dma_pending nes = false -> frame (ppu nes) = start ->
  nes_step_frame_loop fuel start (c, nes) = None.
Proof.
  induction fuel as [|fuel IH]; intros start c nes Hh Hd Hf;
    cbn [nes_step_frame_loop snd]; rewrite Hf, Z.eqb_refl.
  - reflexivity.
  - rewrite nes_step_frame_body_halted by assumption. apply IH; assumption.
Qed.

(** The iteration that dispatches an illegal opcode: the cpu halts, no
    cycle is charged and the PPU is not ticked. *)
Lemma nes_step_frame_body_illegal : forall c nes,
  halted c = false -> dma_pending nes = false ->
  In (u8 (fst (nes_bus_read nes (pc c)))) illegal_opcodes ->
  nes_step_frame_body (c, nes) =
    (set_halted true
       (set_cycles (u64 (cycles c))
          (set_pc (u16 (pc c + 1)) (set_page_crossed false c))),
     snd (nes_bus_read nes (pc c))).
Proof.
  intros c nes Hh Hd Hill.
  pose proof (illegal_dispatch nes_bus) as F. rewrite Forall_forall in F.
  destruct (F _ Hill) as [Ef Ec].
  unfold nes_step_frame_body. cbn [fst snd]. rewrite Hd.
  rewrite cpu6502_step_running by exact Hh. cbv zeta.
  change (read nes_bus) with nes_bus_read. rewrite Ef, Ec.
  unfold op_ill, modify. cbn [fst snd cycles set_halted set_cycles].
  rewrite !Z.add_0_r. rewrite u64_sub_self. reflexivity.
Qed.

(** C3 fails on the code.  When the cpu, not halted and with no DMA
    pending, fetches an illegal opcode, the iteration sets [halted], and
    from then on the loop of [nes_step_frame] never leaves: whatever the
    number of iterations allowed, the frame counter has not advanced. *)
Theorem nes_step_frame_hangs_when_halted : forall (c : cpu6502_t) (nes : nes_t),
  halted c = false -> dma_pending nes = false ->
  In (u8 (fst (nes_bus_read nes (pc c)))) illegal_opcodes ->
  halted (fst (nes_step_frame_body (c, nes))) = true /\
  forall fuel, nes_step_frame fuel (c, nes) = None.
Proof.
  intros c nes Hh Hd Hill. rewrite nes_step_frame_body_illegal by assumption.
  split; [reflexivity|].
  intros [|fuel]; unfold nes_step_frame; cbn [nes_step_frame_loop snd];
    rewrite Z.eqb_refl.
  - reflexivity.
  - rewrite nes_step_frame_body_illegal by assumption.
    apply nes_step_frame_loop_halted.
    + reflexivity.
    + rewrite (proj2 (nes_bus_read_frame nes (pc c))). exact Hd.
    + apply (proj1 (nes_bus_read_frame nes (pc c))).
Qed.

End NesFacts.

Lemma controller_serial_read_witness :
  Nes.controller_strobe Examples.strobed_nes = true /\
  Z.testbit 0 0 = false /\
  Nes.controller Examples.strobed_nes 0 = 0xA5 /\
  0 <= 0xA5 < 256 /\
  Runs.controller_reads 10 (Nes.nes_bus_write Examples.strobed_nes 0x4016 0) =
    map (fun i => if i <? 8 then Z.b2z (Z.testbit 0xA5 i) else 0) (Ppu.zrange 10).
Proof.
  split; [reflexivity|]. split; [reflexivity|]. split; [reflexivity|].
  split; [lia|].
  apply (controller_serial_read Examples.strobed_nes 0 0xA5 10);
    [reflexivity | reflexivity | reflexivity | lia].
Defined.

Lemma nes_step_frame_hangs_when_halted_witness :
  Cpu6502.halted (fst Examples.illegal_machine) = false /\
  Nes.dma_pending (snd Examples.illegal_machine) = false /\
  In (u8 (fst (Nes.nes_bus_read (snd Examples.illegal_machine)
                 (Cpu6502.pc (fst Examples.illegal_machine)))))
     Timing.illegal_opcodes /\
  Cpu6502.halted (fst (Nes.nes_step_frame_body Examples.illegal_machine)) = true /\
  forall fuel, Nes.nes_step_frame fuel Examples.illegal_machine = None.
Proof.
  assert (H : In (u8 (fst (Nes.nes_bus_read (snd Examples.illegal_machine)
                             (Cpu6502.pc (fst Examples.illegal_machine)))))
                 Timing.illegal_opcodes) by (vm_compute; left; reflexivity).
  split; [reflexivity|]. split; [reflexivity|]. split; [exact H|].
  apply (nes_step_frame_hangs_when_halted (fst Examples.illegal_machine)
           (snd Examples.illegal_machine)); [reflexivity | reflexivity | exact H].
Defined.

(** C9 as stated fails: with button A held and the strobe raised by a write
    of 1, a read of $4016 returns the stale shift register (0), not the
    live controller bit (1); nothing was latched. *)
Lemma strobe_high_read_not_live :
  let nes' := Nes.nes_bus_write Examples.pad_nes 0x4016 1 in
  Nes.controller_strobe nes' = true /\
  Z.land (Nes.controller nes' 0) 0x01 = 1 /\
  Nes.controller_shift nes' 0 = 0 /\
  fst (Nes.nes_bus_read nes' 0x4016) = 0 /\
  fst (Nes.nes_bus_read nes' 0x4016) <> Z.land (Nes.controller nes' 0) 0x01.
Proof. cbv zeta. repeat split. discriminate. Qed.

(** C8 fails on the code.  During VBlank, with [nmi_occurred] set and NMI
    output off, the cpu stores $80 to $2000.  The write is stored and NMI
    output is on, but the cpu goes on at the next instruction: nothing was
    pushed and the pc is not the NMI vector ($9000), neither after the store
    nor at any later point of the frame.  An NMI entry at that point would
    have left pc = $9000 and sp = $FA. *)
Theorem ppuctrl_nmi_edge_not_delivered :
  Examples.observe (Nes.nes_step_frame_body Examples.ctrl_write_machine)
    = (3, 0xFD, 4, (0x80, true, true), (245, 0)) /\
  option_map Examples.observe (Nes.nes_step_frame 2000 Examples.ctrl_write_machine)
    = Some (3, 0xFD, 1819, (0x80, true, true), (-1, 1)) /\
  Examples.observe
    (snd (Cpu6502.cpu6502_nmi Nes.nes_bus
            (Nes.nes_step_frame_body Examples.ctrl_write_machine)))
    = (0x9000, 0xFA, 11, (0x80, true, true), (245, 0)).
Proof. split; [|split]; vm_compute; reflexivity. Qed.


(* ===================================================================== *)
(** * The arithmetic cores in binary mode *)
(* ===================================================================== *)

Section CoreArith.

Import Cpu6502 Decimal.

Lemma adc_overflow_signed : forall r m cin,
  0 <= r < 256 -> 0 <= m < 256 -> cin = 0 \/ cin = 1 ->
  Z.testbit (Z.land (Z.lnot (Z.lxor r m)) (Z.lxor r (u16 (r + m + cin)))) 7 =
  signed_overflow (i8 r + i8 m + cin).
Proof.
  intros r m cin Hr Hm Hc.
  rewrite Z.land_spec, Z.lnot_spec, !Z.lxor_spec by lia.
  rewrite testbit_u16_low by lia.
  rewrite <- (testbit_u8_low (r + m + cin) 7) by lia.
  pose proof (Z.mod_pos_bound (r + m + cin) 256).
  rewrite !testbit7_byte by lia.
  unfold signed_overflow, i8, u8. rewrite (Z.mod_small r), (Z.mod_small m) by lia.
  pose proof (Z.div_mod (r + m + cin) 256).
  assert (Hq : (r + m + cin) / 256 = 0 \/ (r + m + cin) / 256 = 1).
  { destruct (Z.lt_ge_cases (r + m + cin) 256).
    - left. apply Z.div_small. lia.
    - right. symmetry. apply Z.div_unique with (r := r + m + cin - 256); lia. }
  destruct (Z.leb_spec 128 r), (Z.leb_spec 128 m),
    (Z.leb_spec 128 ((r + m + cin) mod 256)),
    (Z.ltb_spec r 128), (Z.ltb_spec m 128); try lia; cbn [xorb andb negb];
    symmetry; unfold orb;
    repeat match goal with
    | |- context [?p <? ?q] => destruct (Z.ltb_spec p q)
    end; try reflexivity; lia.
Qed.

Lemma a_set_flag : forall f v c, a (cpu_set_flag f v c) = a c.
Proof. intros. unfold cpu_set_flag. destruct v; reflexivity. Qed.

(** X1.  Binary ADC (D clear) on bytes: A becomes the low eight bits of
    A + M + C, C is the carry out of bit 7, V says the signed sum does not
    fit eight bits, Z and N describe the new A. *)
Theorem adc_binary : forall (c : cpu6502_t) (m : Z),
  cpu_get_flag c CPU_FLAG_D = false -> 0 <= a c < 256 -> 0 <= m < 256 ->
  let s := a c + m + carry_in c in
  let c' := do_adc m c in
  a c' = s mod 256 /\
  cpu_get_flag c' CPU_FLAG_C = (255 <? s) /\
  cpu_get_flag c' CPU_FLAG_V = signed_overflow (i8 (a c) + i8 m + carry_in c) /\
  cpu_get_flag c' CPU_FLAG_Z = (s mod 256 =? 0) /\
  cpu_get_flag c' CPU_FLAG_N = Z.testbit (s mod 256) 7.
Proof.
  intros c m HD Ha Hm. cbv zeta. unfold do_adc. rewrite HD. cbv zeta.
  assert (Hc : carry_in c = 0 \/ carry_in c = 1)
    by (unfold carry_in; destruct (cpu_get_flag c CPU_FLAG_C); auto).
  set (cin := carry_in c) in *.
  assert (Ea : u8 (Z.land (u16 (a c + m + cin)) 255) = (a c + m + cin) mod 256).
  { rewrite land_255, u16_mod_256. unfold u8. apply Z.mod_mod. lia. }
  unfold cpu_set_nz. flags_as_bits.
  rewrite !get_flag_bit by lia.
  rewrite !status_set_flag by lia. cbn [Z.eqb Pos.eqb a set_a status set_status].
  rewrite ?status_set_flag by lia. cbn [Z.eqb Pos.eqb a set_a status set_status].
  change (status (set_a ?v ?c)) with (status c).
  rewrite ?status_set_flag by lia. cbn [Z.eqb Pos.eqb].
  rewrite !nz_land_128. rewrite Ea.
  split; [rewrite !a_set_flag; reflexivity|]. split; [|split; [|split]].
  - rewrite Z.gtb_ltb. unfold u16. rewrite Z.mod_small by lia. reflexivity.
  - apply adc_overflow_signed; assumption.
  - reflexivity.
  - reflexivity.
Qed.

Lemma u8_lnot_byte : forall m, 0 <= m < 256 -> u8 (Z.lnot m) = 255 - m.
Proof.
  intros m Hm. unfold u8, Z.lnot. replace (Z.pred (- m)) with (255 - m + (-1) * 256) by lia.
  rewrite Z.mod_add by lia. apply Z.mod_small. lia.
Qed.

Lemma i8_complement : forall m, 0 <= m < 256 -> i8 (255 - m) = - i8 m - 1.
Proof.
  intros m Hm. unfold i8, u8. rewrite !Z.mod_small by lia.
  destruct (Z.ltb_spec (255 - m) 128), (Z.ltb_spec m 128); lia.
Qed.

(** X2.  Binary SBC (D clear) on bytes: A becomes the low eight bits of
    A - M - (1 - C), C is set when no borrow occurred, V says the signed
    difference does not fit eight bits, Z and N describe the new A. *)
Theorem sbc_binary : forall (c : cpu6502_t) (m : Z),
  cpu_get_flag c CPU_FLAG_D = false -> 0 <= a c < 256 -> 0 <= m < 256 ->
  let d := a c - m - borrow_in c in
  let c' := do_sbc m c in
  a c' = d mod 256 /\
  cpu_get_flag c' CPU_FLAG_C = (0 <=? d) /\
  cpu_get_flag c' CPU_FLAG_V = signed_overflow (i8 (a c) - i8 m - borrow_in c) /\
  cpu_get_flag c' CPU_FLAG_Z = (d mod 256 =? 0) /\
  cpu_get_flag c' CPU_FLAG_N = Z.testbit (d mod 256) 7.
Proof.
  intros c m HD Ha Hm. cbv zeta. unfold do_sbc. rewrite HD.
  rewrite u8_lnot_byte by exact Hm.
  assert (Hm' : 0 <= 255 - m < 256) by lia.
  destruct (adc_binary c (255 - m) HD Ha Hm') as (E1 & E2 & E3 & E4 & E5).
  cbv zeta in E1, E2, E3, E4, E5.
  assert (Hc : carry_in c = 0 \/ carry_in c = 1)
    by (unfold carry_in; destruct (cpu_get_flag c CPU_FLAG_C); auto).
  assert (Es : (a c + (255 - m) + carry_in c) mod 256 = (a c - m - borrow_in c) mod 256).
  { unfold borrow_in.
    replace (a c + (255 - m) + carry_in c) with (a c - m - (1 - carry_in c) + 1 * 256) by lia.
    apply Z.mod_add. lia. }
  rewrite E1, E2, E3, E4, E5, Es, i8_complement by exact Hm.
  split; [reflexivity|]. split; [|split; [|split; reflexivity]].
  - unfold borrow_in. destruct (Z.ltb_spec 255 (a c + (255 - m) + carry_in c)),
      (Z.leb_spec 0 (a c - m - (1 - carry_in c))); try reflexivity; lia.
  - f_equal. unfold borrow_in. lia.
Qed.

(** X3.  The compare core on bytes: C is set exactly when the register is
    at least the operand, Z exactly when they are equal, N is bit 7 of the
    8-bit difference; A, X, Y and the V, D and I flags are left alone. *)
Theorem cmp_flags : forall (c : cpu6502_t) (reg m : Z),
  0 <= reg < 256 -> 0 <= m < 256 ->
  let c' := do_cmp reg m c in
  a c' = a c /\ x c' = x c /\ y c' = y c /\
  cpu_get_flag c' CPU_FLAG_C = (m <=? reg) /\
  cpu_get_flag c' CPU_FLAG_Z = (reg =? m) /\
  cpu_get_flag c' CPU_FLAG_N = Z.testbit ((reg - m) mod 256) 7 /\
  cpu_get_flag c' CPU_FLAG_V = cpu_get_flag c CPU_FLAG_V /\
  cpu_get_flag c' CPU_FLAG_D = cpu_get_flag c CPU_FLAG_D /\
  cpu_get_flag c' CPU_FLAG_I = cpu_get_flag c CPU_FLAG_I.
Proof.
  intros c reg m Hr Hm. cbv zeta. unfold do_cmp. cbv zeta.
  flags_as_bits. rewrite !get_flag_bit by lia.
  rewrite !status_set_flag by lia. cbn [Z.eqb Pos.eqb].
  rewrite nz_land_128, testbit_u16_low, <- (testbit_u8_low (reg - m)) by lia.
  unfold cpu_set_flag. 
  repeat split; try (repeat match goal with |- context [if ?b then _ else _] => destruct b end; reflexivity).
  rewrite Z.geb_leb. reflexivity.
Qed.

End CoreArith.

Lemma adc_binary_witness :
  Cpu6502.cpu_get_flag (Samples.cpu_at 0x0600) Cpu6502.CPU_FLAG_D = false /\
  0 <= Cpu6502.a (Samples.cpu_at 0x0600) < 256 /\ 0 <= 0xC0 < 256 /\
  Cpu6502.a (Cpu6502.do_adc 0xC0 (Samples.cpu_at 0x0600)) = 0x03 /\
  Cpu6502.cpu_get_flag (Cpu6502.do_adc 0xC0 (Samples.cpu_at 0x0600))
    Cpu6502.CPU_FLAG_C = true.
Proof.
  assert (D : Cpu6502.cpu_get_flag (Samples.cpu_at 0x0600) Cpu6502.CPU_FLAG_D = false)
    by reflexivity.
  assert (A : 0 <= Cpu6502.a (Samples.cpu_at 0x0600) < 256) by (cbn; lia).
  assert (M : 0 <= 0xC0 < 256) by lia.
  split; [exact D|]. split; [exact A|]. split; [exact M|].
  destruct (adc_binary (Samples.cpu_at 0x0600) 0xC0 D A M) as (E1 & E2 & _).
  split; [rewrite E1 | rewrite E2]; reflexivity.
Defined.

Lemma sbc_binary_witness :
  Cpu6502.cpu_get_flag (Samples.cpu_at 0x0600) Cpu6502.CPU_FLAG_D = false /\
  0 <= Cpu6502.a (Samples.cpu_at 0x0600) < 256 /\ 0 <= 0x50 < 256 /\
  Cpu6502.a (Cpu6502.do_sbc 0x50 (Samples.cpu_at 0x0600)) = 0xF2 /\
  Cpu6502.cpu_get_flag (Cpu6502.do_sbc 0x50 (Samples.cpu_at 0x0600))
    Cpu6502.CPU_FLAG_C = false.
Proof.
  assert (D : Cpu6502.cpu_get_flag (Samples.cpu_at 0x0600) Cpu6502.CPU_FLAG_D = false)
    by reflexivity.
  assert (A : 0 <= Cpu6502.a (Samples.cpu_at 0x0600) < 256) by (cbn; lia).
  assert (M : 0 <= 0x50 < 256) by lia.
  split; [exact D|]. split; [exact A|]. split; [exact M|].
  destruct (sbc_binary (Samples.cpu_at 0x0600) 0x50 D A M) as (E1 & E2 & _).
  split; [rewrite E1 | rewrite E2]; reflexivity.
Defined.

Lemma cmp_flags_witness :
  0 <= 0x42 < 256 /\ 0 <= 0x50 < 256 /\
  Cpu6502.cpu_get_flag (Cpu6502.do_cmp 0x42 0x50 (Samples.cpu_at 0x0600))
    Cpu6502.CPU_FLAG_C = false /\
  Cpu6502.cpu_get_flag (Cpu6502.do_cmp 0x42 0x50 (Samples.cpu_at 0x0600))
    Cpu6502.CPU_FLAG_Z = false.
Proof.
  assert (R : 0 <= 0x42 < 256) by lia. assert (M : 0 <= 0x50 < 256) by lia.
  split; [exact R|]. split; [exact M|].
  destruct (cmp_flags (Samples.cpu_at 0x0600) 0x42 0x50 R M)
    as (_ & _ & _ & E1 & E2 & _).
  split; [rewrite E1 | rewrite E2]; reflexivity.
Defined.

(* ===================================================================== *)
(** * Shifts and rotates *)
(* ===================================================================== *)

Section Shifts.

Import Cpu6502.

Lemma carry_in_bit : forall c, carry_in c = Z.b2z (Z.testbit (status c) 0).
Proof.
  intro c. unfold carry_in. flags_as_bits. rewrite get_flag_bit by lia.
  destruct (Z.testbit (status c) 0); reflexivity.
Qed.

Lemma carry_after_nz : forall v b c,
  carry_in (cpu_set_nz v (cpu_set_flag CPU_FLAG_C b c)) = Z.b2z b.
Proof.
  intros. rewrite carry_in_bit. unfold cpu_set_nz. flags_as_bits.
  rewrite !status_set_flag by lia. reflexivity.
Qed.

Lemma bit0_mod2 : forall v, Z.b2z (Z.testbit v 0) = v mod 2.
Proof. intro v. rewrite Z.bit0_mod. reflexivity. Qed.

Lemma bit7_div128 : forall v, 0 <= v < 256 -> Z.b2z (Z.testbit v 7) = v / 128.
Proof.
  intros v Hv. rewrite testbit7_byte by exact Hv.
  destruct (Z.leb_spec 128 v); cbn [Z.b2z].
  - apply Z.div_unique with (r := v - 128); lia.
  - symmetry. apply Z.div_small; lia.
Qed.

Lemma rol_value : forall v cin, 0 <= v < 256 -> cin = 0 \/ cin = 1 ->
  u8 (Z.lor (Z.shiftl v 1) cin) = (2 * v + cin) mod 256.
Proof.
  intros v cin Hv Hc. rewrite lor_shiftl_low by (change (2 ^ 1) with 2; lia).
  change (2 ^ 1) with 2. unfold u8. f_equal. lia.
Qed.

Lemma ror_value : forall v cin, 0 <= v < 256 -> cin = 0 \/ cin = 1 ->
  u8 (Z.lor (Z.shiftr v 1) (if (cin =? 1) then 0x80 else 0)) = v / 2 + 128 * cin.
Proof.
  intros v cin Hv Hc. rewrite Z.shiftr_div_pow2 by lia. change (2 ^ 1) with 2.
  assert (0 <= v / 2 < 128).
  { split; [apply Z.div_pos; lia | apply Z.div_lt_upper_bound; lia]. }
  replace (if cin =? 1 then 128 else 0) with (Z.shiftl cin 7)
    by (destruct Hc; subst; reflexivity).
  rewrite Z.lor_comm, lor_shiftl_low by (change (2 ^ 7) with 128; lia).
  change (2 ^ 7) with 128. unfold u8. rewrite Z.mod_small by lia. lia.
Qed.

(** X4.  ASL, LSR, ROL and ROR on a byte are arithmetic on the nine bits
    made of the byte and the carry: ASL doubles, LSR halves, ROL and ROR
    also move the old carry in. *)
Theorem shift_rotate_arith : forall (c : cpu6502_t) (v : Z), 0 <= v < 256 ->
  fst (do_asl v c) + 256 * carry_in (snd (do_asl v c)) = 2 * v /\
  2 * fst (do_lsr v c) + carry_in (snd (do_lsr v c)) = v /\
  fst (do_rol v c) + 256 * carry_in (snd (do_rol v c)) = 2 * v + carry_in c /\
  2 * fst (do_ror v c) + carry_in (snd (do_ror v c)) = v + 256 * carry_in c.
Proof.
  intros c v Hv.
  assert (Hc : carry_in c = 0 \/ carry_in c = 1)
    by (unfold carry_in; destruct (cpu_get_flag c CPU_FLAG_C); auto).
  unfold do_asl, do_lsr, do_rol, do_ror. cbv zeta. cbn [fst snd].
  rewrite !carry_after_nz, nz_land_128, nz_land_1, bit0_mod2, bit7_div128 by exact Hv.
  assert (E1 : u8 (Z.shiftl v 1) = (2 * v) mod 256).
  { rewrite Z.shiftl_mul_pow2 by lia. unfold u8. f_equal. lia. }
  assert (E2 : u8 (Z.shiftr v 1) = v / 2).
  { rewrite Z.shiftr_div_pow2 by lia. change (2 ^ 1) with 2. unfold u8.
    apply Z.mod_small. split; [apply Z.div_pos; lia | apply Z.div_lt_upper_bound; lia]. }
  assert (E3 : u8 (Z.lor (Z.shiftl v 1) (if cpu_get_flag c CPU_FLAG_C then 1 else 0))
               = (2 * v + carry_in c) mod 256) by (apply rol_value; assumption).
  assert (E4 : u8 (Z.lor (Z.shiftr v 1) (if cpu_get_flag c CPU_FLAG_C then 128 else 0))
               = v / 2 + 128 * carry_in c).
  { rewrite <- ror_value by assumption. unfold carry_in.
    destruct (cpu_get_flag c CPU_FLAG_C); reflexivity. }
  rewrite E1, E2, E3, E4.
  pose proof (Z.div_mod v 2). pose proof (Z.mod_pos_bound v 2).
  pose proof (Z.div_mod v 128). pose proof (Z.mod_pos_bound v 128).
  pose proof (Z.div_mod (2 * v) 256). pose proof (Z.mod_pos_bound (2 * v) 256).
  pose proof (Z.div_mod (2 * v + carry_in c) 256).
  pose proof (Z.mod_pos_bound (2 * v + carry_in c) 256).
  assert (v / 128 = 0 \/ v / 128 = 1).
  { destruct (Z.lt_ge_cases v 128).
    - left. apply Z.div_small; lia.
    - right. symmetry. apply Z.div_unique with (r := v - 128); lia. }
  assert ((2 * v) / 256 = v / 128).
  { replace 256 with (2 * 128) by lia. apply Z.div_mul_cancel_l; lia. }
  assert ((2 * v + carry_in c) / 256 = v / 128).
  { destruct (Z.lt_ge_cases v 128).
    - rewrite !Z.div_small; lia.
    - rewrite <- (Z.div_unique v 128 1 (v - 128)) by lia. symmetry.
      apply Z.div_unique with (r := 2 * v + carry_in c - 256); lia. }
  lia.
Qed.

(** X5.  ROR undoes ROL and ROL undoes ROR: the byte and the carry are
    both back. *)
Theorem rol_ror_inverse : forall (c : cpu6502_t) (v : Z), 0 <= v < 256 ->
  let l := do_rol v c in
  let r := do_ror v c in
  fst (do_ror (fst l) (snd l)) = v /\
  carry_in (snd (do_ror (fst l) (snd l))) = carry_in c /\
  fst (do_rol (fst r) (snd r)) = v /\
  carry_in (snd (do_rol (fst r) (snd r))) = carry_in c.
Proof.
  intros c v Hv. cbv zeta.
  assert (Hc : carry_in c = 0 \/ carry_in c = 1)
    by (unfold carry_in; destruct (cpu_get_flag c CPU_FLAG_C); auto).
  destruct (shift_rotate_arith c v Hv) as (_ & _ & L & R).
  assert (Bl : 0 <= fst (do_rol v c) < 256) by (apply Z.mod_pos_bound; lia).
  assert (Br : 0 <= fst (do_ror v c) < 256) by (apply Z.mod_pos_bound; lia).
  assert (Cl : carry_in (snd (do_rol v c)) = 0 \/ carry_in (snd (do_rol v c)) = 1)
    by (unfold carry_in; destruct (cpu_get_flag _ CPU_FLAG_C); auto).
  assert (Cr : carry_in (snd (do_ror v c)) = 0 \/ carry_in (snd (do_ror v c)) = 1)
    by (unfold carry_in; destruct (cpu_get_flag _ CPU_FLAG_C); auto).
  destruct (shift_rotate_arith (snd (do_rol v c)) _ Bl) as (_ & _ & _ & R').
  destruct (shift_rotate_arith (snd (do_ror v c)) _ Br) as (_ & _ & L' & _).
  assert (0 <= fst (do_ror (fst (do_rol v c)) (snd (do_rol v c))) < 256)
    by (apply Z.mod_pos_bound; lia).
  assert (0 <= fst (do_rol (fst (do_ror v c)) (snd (do_ror v c))) < 256)
    by (apply Z.mod_pos_bound; lia).
  assert (carry_in (snd (do_ror (fst (do_rol v c)) (snd (do_rol v c)))) = 0 \/
          carry_in (snd (do_ror (fst (do_rol v c)) (snd (do_rol v c)))) = 1)
    by (unfold carry_in; destruct (cpu_get_flag _ CPU_FLAG_C); auto).
  assert (carry_in (snd (do_rol (fst (do_ror v c)) (snd (do_ror v c)))) = 0 \/
          carry_in (snd (do_rol (fst (do_ror v c)) (snd (do_ror v c)))) = 1)
    by (unfold carry_in; destruct (cpu_get_flag _ CPU_FLAG_C); auto).
  lia.
Qed.

End Shifts.

Lemma shift_rotate_arith_witness :
  0 <= 0x81 < 256 /\
  fst (Cpu6502.do_rol 0x81 (Samples.cpu_at 0x0600))
  + 256 * Cpu6502.carry_in (snd (Cpu6502.do_rol 0x81 (Samples.cpu_at 0x0600)))
  = 2 * 0x81 + Cpu6502.carry_in (Samples.cpu_at 0x0600).
Proof.
  assert (V : 0 <= 0x81 < 256) by lia. split; [exact V|].
  exact (proj1 (proj2 (proj2 (shift_rotate_arith (Samples.cpu_at 0x0600) 0x81 V)))).
Defined.

Lemma rol_ror_inverse_witness :
  0 <= 0x81 < 256 /\
  fst (Cpu6502.do_ror (fst (Cpu6502.do_rol 0x81 (Samples.cpu_at 0x0600)))
                      (snd (Cpu6502.do_rol 0x81 (Samples.cpu_at 0x0600)))) = 0x81.
Proof.
  assert (V : 0 <= 0x81 < 256) by lia. split; [exact V|].
  exact (proj1 (rol_ror_inverse (Samples.cpu_at 0x0600) 0x81 V)).
Defined.


(* ===================================================================== *)
(** * Subroutines, interrupts and the stack on flat memory *)
(* ===================================================================== *)

Section FlatRam.

Import Cpu6502 Examples Stack.

Lemma u8_small : forall k, 0 <= k < 256 -> u8 k = k.
Proof. intros. unfold u8. apply Z.mod_small. assumption. Qed.

Lemma u16_small : forall k, 0 <= k < 65536 -> u16 k = k.
Proof. intros. unfold u16. apply Z.mod_small. assumption. Qed.

Lemma u8_sub_l : forall p q, u8 (u8 p - q) = u8 (p - q).
Proof. intros. unfold u8. apply Zminus_mod_idemp_l. Qed.

Lemma u8_add_l : forall p q, u8 (u8 p + q) = u8 (p + q).
Proof. intros. unfold u8. apply Zplus_mod_idemp_l. Qed.

(** The stack pointer one below, and back. *)
Lemma u8_pred_succ : forall s, 0 <= s < 256 -> u8 (u8 (s - 1) + 1) = s.
Proof.
  intros s Hs. unfold u8. rewrite Zplus_mod_idemp_l.
  replace (s - 1 + 1) with s by lia. apply Z.mod_small. exact Hs.
Qed.

Lemma u8_pred_neq : forall s, 0 <= s < 256 -> u8 (s - 1) <> s.
Proof.
  intros s Hs. unfold u8. destruct (Z.eq_dec s 0) as [->|N].
  - cbn. lia.
  - rewrite Z.mod_small by lia. lia.
Qed.

Lemma u8_range : forall k, 0 <= u8 k < 256.
Proof. intro. apply Z.mod_pos_bound. lia. Qed.

Lemma upd_other : forall arr i j v, i <> j -> upd arr i v j = arr j.
Proof.
  intros. unfold upd. destruct (Z.eqb_spec j i); [congruence | reflexivity].
Qed.

Lemma step_flat : forall c ram, halted c = false ->
  cpu6502_step bus_flat (c, ram) =
  opcode_fn bus_flat (u8 (ram (pc c)))
    (set_cycles (u64 (cycles c + opcode_cycles (u8 (ram (pc c)))))
       (set_pc (u16 (pc c + 1)) (set_page_crossed false c)), ram).
Proof. intros c ram H. rewrite cpu6502_step_running by exact H. reflexivity. Qed.

Lemma word_of_bytes : forall t, 0 <= t < 65536 ->
  Z.lor (Z.shiftl (u8 (t / 256)) 8) (u8 (t mod 256)) = t.
Proof.
  intros t Ht. pose proof (Z.mod_pos_bound t 256).
  assert (0 <= t / 256 < 256).
  { split; [apply Z.div_pos; lia | apply Z.div_lt_upper_bound; lia]. }
  rewrite !u8_small by lia.
  rewrite lor_shiftl_low by (change (2 ^ 8) with 256; lia).
  change (2 ^ 8) with 256. pose proof (Z.div_mod t 256). lia.
Qed.

Lemma bytes_of_word : forall t, 0 <= t < 65536 ->
  Z.land (Z.shiftr t 8) 255 = t / 256 /\ Z.land t 255 = t mod 256.
Proof.
  intros t Ht. rewrite !land_255, Z.shiftr_div_pow2 by lia. change (2 ^ 8) with 256.
  split; [|reflexivity]. apply Z.mod_small.
  split; [apply Z.div_pos; lia | apply Z.div_lt_upper_bound; lia].
Qed.


(** Run a handler on flat memory by call-by-value evaluation of the
    monad; the cpu is taken apart first so that every projection
    computes. *)
Ltac run_handler :=
  cbv beta iota zeta delta
    [cpu_pull16 cpu_push16 cpu_pull cpu_push addr_abs fetch bind gets modify ret
     cpu_read cpu_write fst snd pc sp a x y status cycles halted page_crossed
     set_pc set_sp set_a set_x set_y set_status set_cycles set_halted
     set_page_crossed read write bus_flat bus_flat_read bus_flat_write].

Ltac run_exec c Hh :=
  destruct c; cbn [halted pc] in *; subst; run_handler; reflexivity.

Lemma exec_jsr : forall c ram, halted c = false -> ram (pc c) = 0x20 ->
  snd (cpu6502_step bus_flat (c, ram)) =
  (mkCpu (a c) (x c) (y c) (u8 (u8 (sp c - 1) - 1))
         (Z.lor (Z.shiftl (u8 (ram (u16 (u16 (pc c + 1) + 1)))) 8)
                (u8 (ram (u16 (pc c + 1)))))
         (status c) (u64 (cycles c + 6)) false false,
   upd (upd ram (0x100 + sp c)
            (Z.land (Z.shiftr (u16 (u16 (u16 (u16 (pc c + 1) + 1) + 1) - 1)) 8) 0xFF))
       (0x100 + u8 (sp c - 1))
       (Z.land (u16 (u16 (u16 (u16 (pc c + 1) + 1) + 1) - 1)) 0xFF)).
Proof.
  intros c ram Hh Hop. rewrite step_flat by exact Hh. rewrite Hop.
  change (u8 0x20) with 0x20.
  change (opcode_fn bus_flat 0x20) with (op_jsr bus_flat).
  change (opcode_cycles 0x20) with 6.
  unfold op_jsr. run_exec c Hh.
Qed.

Lemma exec_rts : forall c ram, halted c = false -> ram (pc c) = 0x60 ->
  snd (cpu6502_step bus_flat (c, ram)) =
  (mkCpu (a c) (x c) (y c) (u8 (u8 (sp c + 1) + 1))
         (u16 (Z.lor (Z.shiftl (u8 (ram (0x100 + u8 (u8 (sp c + 1) + 1)))) 8)
                     (u8 (ram (0x100 + u8 (sp c + 1)))) + 1))
         (status c) (u64 (cycles c + 6)) false false,
   ram).
Proof.
  intros c ram Hh Hop. rewrite step_flat by exact Hh. rewrite Hop.
  change (u8 0x60) with 0x60.
  change (opcode_fn bus_flat 0x60) with (op_rts bus_flat).
  change (opcode_cycles 0x60) with 6.
  unfold op_rts. run_exec c Hh.
Qed.

(** X6.  On flat memory, [JSR target] followed by the [RTS] found at
    [target] comes back to the instruction after the JSR: the return
    address minus one is on the stack in between, and afterwards the stack
    pointer, the registers and the status are as before; twelve cycles. *)
Theorem jsr_rts_round_trip : forall (c : cpu6502_t) (ram : Z -> Z) (target : Z),
  halted c = false -> 0 <= pc c <= 0xFFFC -> 0 <= sp c < 256 ->
  ram (pc c) = 0x20 ->
  ram (pc c + 1) = target mod 256 -> ram (pc c + 2) = target / 256 ->
  0 <= target < 65536 -> (target < 0x100 \/ 0x200 <= target) ->
  ram target = 0x60 ->
  let s1 := snd (cpu6502_step bus_flat (c, ram)) in
  let s2 := snd (cpu6502_step bus_flat s1) in
  pc (fst s1) = target /\
  sp (fst s1) = u8 (sp c - 2) /\
  snd s1 (0x100 + sp c) = (pc c + 2) / 256 /\
  snd s1 (0x100 + u8 (sp c - 1)) = (pc c + 2) mod 256 /\
  pc (fst s2) = pc c + 3 /\
  sp (fst s2) = sp c /\
  cycles (fst s2) = u64 (cycles c + 12) /\
  (a (fst s2), x (fst s2), y (fst s2), status (fst s2)) = (a c, x c, y c, status c).
Proof.
  intros c ram target Hh Hpc Hsp Hop Hlo Hhi Ht Hcode Hrts. cbv zeta.
  rewrite (exec_jsr c ram Hh Hop).
  rewrite (u16_small (pc c + 1)), (u16_small (pc c + 1 + 1)) by lia.
  replace (pc c + 1 + 1) with (pc c + 2) by lia.
  rewrite (u16_small (pc c + 2 + 1)), (u16_small (pc c + 2 + 1 - 1)) by lia.
  replace (pc c + 2 + 1 - 1) with (pc c + 2) by lia.
  rewrite Hlo, Hhi, word_of_bytes by exact Ht.
  destruct (bytes_of_word (pc c + 2)) as [B1 B2]; [lia|]. rewrite B1, B2.
  set (ram1 := upd (upd ram (256 + sp c) ((pc c + 2) / 256))
                   (256 + u8 (sp c - 1)) ((pc c + 2) mod 256)).
  assert (R1 : ram1 (256 + sp c) = (pc c + 2) / 256).
  { unfold ram1. rewrite upd_other, upd_same; [reflexivity|].
    pose proof (u8_pred_neq (sp c) Hsp). lia. }
  assert (R2 : ram1 (256 + u8 (sp c - 1)) = (pc c + 2) mod 256)
    by (unfold ram1; apply upd_same).
  assert (R3 : ram1 target = 0x60).
  { unfold ram1. pose proof (u8_range (sp c - 1)).
    rewrite !upd_other by lia. exact Hrts. }
  assert (E2 : u8 (u8 (sp c - 1) - 1) = u8 (sp c - 2)).
  { rewrite u8_sub_l. f_equal. lia. }
  rewrite E2. cbn [fst snd pc sp].
  split; [reflexivity|]. split; [reflexivity|]. split; [exact R1|]. split; [exact R2|].
  rewrite exec_rts by (first [exact R3 | exact Hh | reflexivity]).
  cbn [fst snd pc sp a x y status cycles].
  assert (E3 : u8 (u8 (sp c - 2) + 1) = u8 (sp c - 1)).
  { rewrite u8_add_l. f_equal. lia. }
  rewrite E3, u8_pred_succ by exact Hsp. rewrite R1, R2.
  pose proof (Z.mod_pos_bound (pc c + 2) 256).
  rewrite word_of_bytes by lia.
  rewrite u16_small by lia.
  split; [lia|]. split; [reflexivity|]. split; [|reflexivity].
  rewrite u64_add_l. f_equal. lia.
Qed.



Lemma exec_nmi : forall c ram,
  snd (cpu6502_nmi bus_flat (c, ram)) = interrupt_entry 0xFFFA c ram.
Proof.
  intros c ram. unfold cpu6502_nmi, interrupt_entry, cpu_set_flag.
  destruct c; run_handler; reflexivity.
Qed.

Lemma exec_irq : forall c ram, cpu_get_flag c CPU_FLAG_I = false ->
  snd (cpu6502_irq bus_flat (c, ram)) = interrupt_entry 0xFFFE c ram.
Proof.
  intros c ram HI. unfold cpu6502_irq, interrupt_entry.
  unfold bind at 1. unfold gets at 1. cbn [fst snd]. rewrite HI.
  unfold cpu_set_flag. destruct c; run_handler; reflexivity.
Qed.

Lemma exec_rti : forall c ram, halted c = false -> ram (pc c) = 0x40 ->
  snd (cpu6502_step bus_flat (c, ram)) =
  (mkCpu (a c) (x c) (y c) (u8 (u8 (u8 (sp c + 1) + 1) + 1))
         (Z.lor (Z.shiftl (u8 (ram (0x100 + u8 (u8 (u8 (sp c + 1) + 1) + 1)))) 8)
                (u8 (ram (0x100 + u8 (u8 (sp c + 1) + 1)))))
         (u8 (Z.land (u8 (Z.lor (u8 (ram (0x100 + u8 (sp c + 1)))) CPU_FLAG_U))
                     (Z.lnot CPU_FLAG_B)))
         (u64 (cycles c + 6)) false false,
   ram).
Proof.
  intros c ram Hh Hop. rewrite step_flat by exact Hh. rewrite Hop.
  change (u8 0x40) with 0x40.
  change (opcode_fn bus_flat 0x40) with (op_rti bus_flat).
  change (opcode_cycles 0x40) with 6.
  unfold op_rti. run_exec c Hh.
Qed.

Lemma exec_brk : forall c ram, halted c = false -> ram (pc c) = 0x00 ->
  snd (cpu6502_step bus_flat (c, ram)) =
  (let ret_pc := u16 (u16 (pc c + 1) + 1) in
   let ram3 :=
     upd (upd (upd ram (0x100 + sp c) (Z.land (Z.shiftr ret_pc 8) 0xFF))
              (0x100 + u8 (sp c - 1)) (Z.land ret_pc 0xFF))
         (0x100 + u8 (u8 (sp c - 1) - 1))
         (Z.lor (Z.lor (status c) CPU_FLAG_B) CPU_FLAG_U) in
   (mkCpu (a c) (x c) (y c) (u8 (u8 (u8 (sp c - 1) - 1) - 1))
          (Z.lor (u8 (ram3 0xFFFE)) (Z.shiftl (u8 (ram3 0xFFFF)) 8))
          (u8 (Z.lor (status c) CPU_FLAG_I)) (u64 (cycles c + 7)) false false,
    ram3)).
Proof.
  intros c ram Hh Hop. rewrite step_flat by exact Hh. rewrite Hop.
  change (u8 0x00) with 0x00.
  change (opcode_fn bus_flat 0x00) with (op_brk bus_flat).
  change (opcode_cycles 0x00) with 7.
  unfold op_brk, cpu_set_flag. run_exec c Hh.
Qed.

Lemma exec_php : forall c ram, halted c = false -> ram (pc c) = 0x08 ->
  snd (cpu6502_step bus_flat (c, ram)) =
  (mkCpu (a c) (x c) (y c) (u8 (sp c - 1)) (u16 (pc c + 1)) (status c)
         (u64 (cycles c + 3)) false false,
   upd ram (0x100 + sp c) (Z.lor (Z.lor (status c) CPU_FLAG_B) CPU_FLAG_U)).
Proof.
  intros c ram Hh Hop. rewrite step_flat by exact Hh. rewrite Hop.
  change (u8 0x08) with 0x08.
  change (opcode_fn bus_flat 0x08) with (op_php bus_flat).
  change (opcode_cycles 0x08) with 3.
  unfold op_php. run_exec c Hh.
Qed.

Lemma exec_plp : forall c ram, halted c = false -> ram (pc c) = 0x28 ->
  snd (cpu6502_step bus_flat (c, ram)) =
  (mkCpu (a c) (x c) (y c) (u8 (sp c + 1)) (u16 (pc c + 1))
         (u8 (Z.land (u8 (Z.lor (u8 (ram (0x100 + u8 (sp c + 1)))) CPU_FLAG_U))
                     (Z.lnot CPU_FLAG_B)))
         (u64 (cycles c + 4)) false false,
   ram).
Proof.
  intros c ram Hh Hop. rewrite step_flat by exact Hh. rewrite Hop.
  change (u8 0x28) with 0x28.
  change (opcode_fn bus_flat 0x28) with (op_plp bus_flat).
  change (opcode_cycles 0x28) with 4.
  unfold op_plp. run_exec c Hh.
Qed.

Lemma exec_pha : forall c ram, halted c = false -> ram (pc c) = 0x48 ->
  snd (cpu6502_step bus_flat (c, ram)) =
  (mkCpu (a c) (x c) (y c) (u8 (sp c - 1)) (u16 (pc c + 1)) (status c)
         (u64 (cycles c + 3)) false false,
   upd ram (0x100 + sp c) (a c)).
Proof.
  intros c ram Hh Hop. rewrite step_flat by exact Hh. rewrite Hop.
  change (u8 0x48) with 0x48.
  change (opcode_fn bus_flat 0x48) with (op_pha bus_flat).
  change (opcode_cycles 0x48) with 3.
  unfold op_pha. run_exec c Hh.
Qed.

Lemma exec_pla : forall c ram, halted c = false -> ram (pc c) = 0x68 ->
  snd (cpu6502_step bus_flat (c, ram)) =
  (cpu_set_nz (u8 (ram (0x100 + u8 (sp c + 1))))
     (mkCpu (u8 (ram (0x100 + u8 (sp c + 1)))) (x c) (y c) (u8 (sp c + 1))
            (u16 (pc c + 1)) (status c) (u64 (cycles c + 4)) false false),
   ram).
Proof.
  intros c ram Hh Hop. rewrite step_flat by exact Hh. rewrite Hop.
  change (u8 0x68) with 0x68.
  change (opcode_fn bus_flat 0x68) with (op_pla bus_flat).
  change (opcode_cycles 0x68) with 4.
  unfold op_pla. run_exec c Hh.
Qed.


Lemma stack3 : forall s, 0 <= s < 256 ->
  let s1 := u8 (s - 1) in
  let s2 := u8 (s1 - 1) in
  let s3 := u8 (s2 - 1) in
  u8 (s3 + 1) = s2 /\ u8 (s2 + 1) = s1 /\ u8 (s1 + 1) = s /\
  s <> s1 /\ s1 <> s2 /\ s <> s2 /\
  0 <= s1 < 256 /\ 0 <= s2 < 256 /\ s3 = u8 (s - 3).
Proof.
  intros s Hs s1 s2 s3.
  assert (H1 : 0 <= s1 < 256) by apply u8_range.
  assert (H2 : 0 <= s2 < 256) by apply u8_range.
  pose proof (u8_pred_succ s Hs). pose proof (u8_pred_succ s1 H1).
  pose proof (u8_pred_succ s2 H2).
  pose proof (u8_pred_neq s Hs). pose proof (u8_pred_neq s1 H1).
  assert (s <> s2).
  { subst s2 s1. rewrite u8_sub_l. unfold u8.
    destruct (Z_lt_ge_dec s 2).
    - replace (s - 1 - 1) with (s + 254 + (-1) * 256) by lia.
      rewrite Z.mod_add, Z.mod_small by lia. lia.
    - rewrite Z.mod_small by lia. lia. }
  assert (s3 = u8 (s - 3)).
  { subst s3 s2 s1. rewrite (u8_sub_l (s - 1) 1), (u8_sub_l (s - 1 - 1) 1).
    f_equal. lia. }
  repeat split; try assumption; try lia; auto.
Qed.

(** On a status byte with bit 5 set and bit 4 clear, the byte an interrupt
    stacks and the byte RTI or PLP restores from it are the byte itself. *)
Lemma live_status_fixed : forall st, 0 <= st < 256 ->
  Z.testbit st 5 = true -> Z.testbit st 4 = false ->
  interrupt_flags st = st /\
  u8 (Z.land (u8 (Z.lor (u8 st) CPU_FLAG_U)) (Z.lnot CPU_FLAG_B)) = st /\
  u8 (Z.land (u8 (Z.lor (u8 (Z.lor (Z.lor st CPU_FLAG_B) CPU_FLAG_U)) CPU_FLAG_U))
             (Z.lnot CPU_FLAG_B)) = st.
Proof.
  intros st Hst H5 H4.
  assert (K : forallb (fun st =>
            implb (Z.testbit st 5 && negb (Z.testbit st 4))
              ((interrupt_flags st =? st) &&
               (u8 (Z.land (u8 (Z.lor (u8 st) CPU_FLAG_U)) (Z.lnot CPU_FLAG_B)) =? st) &&
               (u8 (Z.land (u8 (Z.lor (u8 (Z.lor (Z.lor st CPU_FLAG_B) CPU_FLAG_U))
                                      CPU_FLAG_U)) (Z.lnot CPU_FLAG_B)) =? st)))
            bytes = true) by (vm_compute; reflexivity).
  rewrite forallb_forall in K. specialize (K st (bytes_In st Hst)).
  rewrite H5, H4 in K. cbn [andb negb implb] in K.
  apply andb_prop in K. destruct K as [K K3]. apply andb_prop in K. destruct K as [K1 K2].
  repeat split; apply Z.eqb_eq; assumption.
Qed.

(** X7.  On flat memory, an NMI entry followed by the [RTI] of the handler
    resumes the interrupted program: the stacked status byte is the live
    one (B clear, bit 5 set), I is set inside the handler, and after RTI
    the program counter, stack pointer, status and registers are those
    before the interrupt; thirteen cycles. *)
Theorem nmi_rti_round_trip : forall (c : cpu6502_t) (ram : Z -> Z) (handler : Z),
  halted c = false ->
  0 <= pc c < 65536 -> 0 <= sp c < 256 -> 0 <= status c < 256 ->
  Status.status_ok c ->
  0 <= handler < 65536 -> (handler < 0x100 \/ 0x200 <= handler) ->
  ram 0xFFFA = handler mod 256 -> ram 0xFFFB = handler / 256 ->
  ram handler = 0x40 ->
  let s1 := snd (cpu6502_nmi bus_flat (c, ram)) in
  let s2 := snd (cpu6502_step bus_flat s1) in
  pc (fst s1) = handler /\
  sp (fst s1) = u8 (sp c - 3) /\
  cpu_get_flag (fst s1) CPU_FLAG_I = true /\
  snd s1 (0x100 + u8 (sp c - 2)) = status c /\
  pc (fst s2) = pc c /\
  sp (fst s2) = sp c /\
  status (fst s2) = status c /\
  cycles (fst s2) = u64 (cycles c + 13) /\
  (a (fst s2), x (fst s2), y (fst s2)) = (a c, x c, y c).
Proof.
  intros c ram handler Hh Hpc Hsp Hst [H5 H4] Hh1 Hh2 Vlo Vhi Hrti. cbv zeta.
  rewrite exec_nmi. unfold interrupt_entry. cbv zeta.
  destruct (stack3 (sp c) Hsp) as (P3 & P2 & P1 & N1 & N2 & N3 & B1 & B2 & E3).
  cbv zeta in P3, P2, P1, N1, N2, N3, B1, B2, E3.
  destruct (live_status_fixed (status c) Hst H5 H4) as (F1 & F2 & _).
  destruct (bytes_of_word (pc c) Hpc) as [W1 W2].
  rewrite F1, W1, W2.
  set (s1 := u8 (sp c - 1)) in *. set (s2 := u8 (s1 - 1)) in *.
  set (ram3 := upd (upd (upd ram (256 + sp c) (pc c / 256)) (256 + s1) (pc c mod 256))
                   (256 + s2) (status c)).
  assert (R0 : ram3 (256 + sp c) = pc c / 256).
  { unfold ram3. rewrite !upd_other by lia. apply upd_same. }
  assert (R1 : ram3 (256 + s1) = pc c mod 256).
  { unfold ram3. rewrite upd_other by lia. apply upd_same. }
  assert (R2 : ram3 (256 + s2) = status c) by (unfold ram3; apply upd_same).
  assert (Rv : ram3 0xFFFA = handler mod 256 /\ ram3 0xFFFB = handler / 256 /\
               ram3 handler = 0x40).
  { unfold ram3. rewrite !upd_other by lia. auto. }
  destruct Rv as (Rlo & Rhi & Rh).
  change (65530 + 1) with 65531. rewrite Rlo, Rhi, word_of_bytes by exact Hh1.
  cbn [fst snd pc sp].
  assert (E2 : s2 = u8 (sp c - 2)).
  { unfold s2, s1. rewrite u8_sub_l. f_equal. lia. }
  split; [reflexivity|]. split; [exact E3|]. split.
  { unfold cpu_get_flag. cbn [status]. flags_as_bits. rewrite nz_land_pow2 by lia.
    unfold u8. rewrite testbit_u8_low by lia. rewrite Z.lor_spec.
    rewrite Z.pow2_bits_true by lia. apply orb_true_r. }
  split; [rewrite <- E2; exact R2|].
  rewrite exec_rti by (first [exact Rh | exact Hh | reflexivity]).
  cbn [fst snd pc sp a x y status cycles].
  rewrite P3, P2, P1, R0, R1, R2, F2.
  pose proof (Z.mod_pos_bound (pc c) 256).
  rewrite word_of_bytes by lia.
  split; [reflexivity|]. split; [reflexivity|]. split; [reflexivity|].
  split; [|reflexivity].
  rewrite u64_add_l. f_equal. lia.
Qed.


(** X8.  On flat memory, [BRK] followed by the [RTI] of the handler resumes
    two bytes after the BRK opcode: the stacked status byte has B set while
    the live register keeps B clear, I is set inside the handler, and RTI
    gives back the status and the stack pointer; thirteen cycles. *)
Theorem brk_rti_round_trip : forall (c : cpu6502_t) (ram : Z -> Z) (handler : Z),
  halted c = false ->
  0 <= pc c <= 0xFFFD -> 0 <= sp c < 256 -> 0 <= status c < 256 ->
  Status.status_ok c ->
  ram (pc c) = 0x00 ->
  0 <= handler < 65536 -> (handler < 0x100 \/ 0x200 <= handler) ->
  ram 0xFFFE = handler mod 256 -> ram 0xFFFF = handler / 256 ->
  ram handler = 0x40 ->
  let s1 := snd (cpu6502_step bus_flat (c, ram)) in
  let s2 := snd (cpu6502_step bus_flat s1) in
  pc (fst s1) = handler /\
  sp (fst s1) = u8 (sp c - 3) /\
  cpu_get_flag (fst s1) CPU_FLAG_I = true /\
  Status.status_ok (fst s1) /\
  snd s1 (0x100 + u8 (sp c - 2)) = Z.lor (status c) CPU_FLAG_B /\
  pc (fst s2) = pc c + 2 /\
  sp (fst s2) = sp c /\
  status (fst s2) = status c /\
  cycles (fst s2) = u64 (cycles c + 13).
Proof.
  intros c ram handler Hh Hpc Hsp Hst [H5 H4] Hop Hh1 Hh2 Vlo Vhi Hrti. cbv zeta.
  rewrite (exec_brk c ram Hh Hop). cbv zeta.
  destruct (stack3 (sp c) Hsp) as (P3 & P2 & P1 & N1 & N2 & N3 & B1 & B2 & E3).
  cbv zeta in P3, P2, P1, N1, N2, N3, B1, B2, E3.
  destruct (live_status_fixed (status c) Hst H5 H4) as (_ & _ & F3).
  rewrite (u16_small (pc c + 1)), (u16_small (pc c + 1 + 1)) by lia.
  replace (pc c + 1 + 1) with (pc c + 2) by lia.
  destruct (bytes_of_word (pc c + 2)) as [W1 W2]; [lia|].
  rewrite W1, W2.
  set (s1 := u8 (sp c - 1)) in *. set (s2 := u8 (s1 - 1)) in *.
  set (pushed := Z.lor (Z.lor (status c) CPU_FLAG_B) CPU_FLAG_U) in *.
  set (ram3 := upd (upd (upd ram (256 + sp c) ((pc c + 2) / 256)) (256 + s1)
                        ((pc c + 2) mod 256)) (256 + s2) pushed).
  assert (R0 : ram3 (256 + sp c) = (pc c + 2) / 256).
  { unfold ram3. rewrite !upd_other by lia. apply upd_same. }
  assert (R1 : ram3 (256 + s1) = (pc c + 2) mod 256).
  { unfold ram3. rewrite upd_other by lia. apply upd_same. }
  assert (R2 : ram3 (256 + s2) = pushed) by (unfold ram3; apply upd_same).
  assert (Rv : ram3 0xFFFE = handler mod 256 /\ ram3 0xFFFF = handler / 256 /\
               ram3 handler = 0x40).
  { unfold ram3. rewrite !upd_other by lia. auto. }
  destruct Rv as (Rlo & Rhi & Rh).
  rewrite Rlo, Rhi, Z.lor_comm, word_of_bytes by exact Hh1.
  cbn [fst snd pc sp status].
  assert (E2 : s2 = u8 (sp c - 2)).
  { unfold s2, s1. rewrite u8_sub_l. f_equal. lia. }
  assert (Ep : pushed = Z.lor (status c) CPU_FLAG_B).
  { unfold pushed. apply Z.bits_inj'. intros n Hn. rewrite !Z.lor_spec.
    flags_as_bits. rewrite !Z.pow2_bits_eqb by lia.
    destruct (Z.eqb_spec 5 n) as [<-|]; [rewrite H5; reflexivity|].
    rewrite orb_false_r. reflexivity. }
  assert (T : forall n, 0 <= n < 8 ->
            Z.testbit (u8 (Z.lor (status c) CPU_FLAG_I)) n
            = (2 =? n) || Z.testbit (status c) n).
  { intros n Hn. unfold u8. rewrite testbit_u8_low by lia. rewrite Z.lor_spec.
    flags_as_bits. rewrite Z.pow2_bits_eqb by lia. apply orb_comm. }
  split; [reflexivity|]. split; [exact E3|]. split.
  { unfold cpu_get_flag. cbn [status]. flags_as_bits. rewrite nz_land_pow2 by lia.
    flags_as_bits. change (2 ^ 2) with CPU_FLAG_I. rewrite T by lia. reflexivity. }
  split.
  { unfold Status.status_ok. cbn [status]. rewrite !T by lia. rewrite H5, H4. auto. }
  split; [rewrite <- E2, <- Ep; exact R2|].
  rewrite exec_rti by (first [exact Rh | exact Hh | reflexivity]).
  cbn [fst snd pc sp a x y status cycles].
  rewrite P3, P2, P1, R0, R1, R2, F3.
  pose proof (Z.mod_pos_bound (pc c + 2) 256).
  rewrite word_of_bytes by lia.
  split; [reflexivity|]. split; [reflexivity|]. split; [reflexivity|].
  rewrite u64_add_l. f_equal. lia.
Qed.

(** X9.  On flat memory, [PHP] followed by [PLP] leaves the status register
    and the stack pointer as they were; the byte stacked in between is the
    status with B set. *)
Theorem php_plp_round_trip : forall (c : cpu6502_t) (ram : Z -> Z),
  halted c = false ->
  0 <= pc c <= 0xFFFD -> 0 <= sp c < 256 -> 0 <= status c < 256 ->
  Status.status_ok c ->
  (pc c + 1 < 0x100 \/ 0x200 <= pc c + 1) ->
  ram (pc c) = 0x08 -> ram (pc c + 1) = 0x28 ->
  let s1 := snd (cpu6502_step bus_flat (c, ram)) in
  let s2 := snd (cpu6502_step bus_flat s1) in
  snd s1 (0x100 + sp c) = Z.lor (status c) CPU_FLAG_B /\
  status (fst s1) = status c /\
  sp (fst s1) = u8 (sp c - 1) /\
  status (fst s2) = status c /\
  sp (fst s2) = sp c /\
  pc (fst s2) = pc c + 2 /\
  cycles (fst s2) = u64 (cycles c + 7).
Proof.
  intros c ram Hh Hpc Hsp Hst [H5 H4] Hcode Hop1 Hop2. cbv zeta.
  rewrite (exec_php c ram Hh Hop1).
  destruct (live_status_fixed (status c) Hst H5 H4) as (_ & _ & F3).
  rewrite (u16_small (pc c + 1)) by lia.
  set (pushed := Z.lor (Z.lor (status c) CPU_FLAG_B) CPU_FLAG_U) in *.
  assert (Ep : pushed = Z.lor (status c) CPU_FLAG_B).
  { unfold pushed. apply Z.bits_inj'. intros n Hn. rewrite !Z.lor_spec.
    flags_as_bits. rewrite !Z.pow2_bits_eqb by lia.
    destruct (Z.eqb_spec 5 n) as [<-|]; [rewrite H5; reflexivity|].
    rewrite orb_false_r. reflexivity. }
  cbn [fst snd status sp].
  split; [rewrite upd_same; exact Ep|]. split; [reflexivity|]. split; [reflexivity|].
  rewrite exec_plp; [| reflexivity | cbn [pc]; rewrite upd_other by lia; exact Hop2].
  cbn [fst snd pc sp a x y status cycles].
  rewrite u8_pred_succ by exact Hsp. rewrite upd_same, F3.
  rewrite u16_small by lia.
  split; [reflexivity|]. split; [reflexivity|]. split; [lia|].
  rewrite u64_add_l. f_equal. lia.
Qed.

(** An interrupt request with I set does nothing, on any bus. *)
Lemma irq_masked : forall (B : Type) (bus : bus_t B) (s : cpu6502_t * B),
  cpu_get_flag (fst s) CPU_FLAG_I = true -> cpu6502_irq bus s = (tt, s).
Proof.
  intros B bus [c ctx] HI. unfold cpu6502_irq.
  unfold bind at 1. unfold gets at 1. cbn [fst snd] in *. rewrite HI. reflexivity.
Qed.

(** X10.  On flat memory, an interrupt request taken with I clear enters the
    handler through the vector at $FFFE with the live status stacked (B
    clear, bit 5 set) and I set; inside the handler a further request is
    ignored, cpu and memory unchanged; the [RTI] of the handler gives back
    program counter, stack pointer, status (I clear again) and registers;
    thirteen cycles. *)
Theorem irq_rti_round_trip : forall (c : cpu6502_t) (ram : Z -> Z) (handler : Z),
  halted c = false ->
  0 <= pc c < 65536 -> 0 <= sp c < 256 -> 0 <= status c < 256 ->
  Status.status_ok c ->
  cpu_get_flag c CPU_FLAG_I = false ->
  0 <= handler < 65536 -> (handler < 0x100 \/ 0x200 <= handler) ->
  ram 0xFFFE = handler mod 256 -> ram 0xFFFF = handler / 256 ->
  ram handler = 0x40 ->
  let s1 := snd (cpu6502_irq bus_flat (c, ram)) in
  let s2 := snd (cpu6502_step bus_flat s1) in
  pc (fst s1) = handler /\
  sp (fst s1) = u8 (sp c - 3) /\
  cpu_get_flag (fst s1) CPU_FLAG_I = true /\
  cpu6502_irq bus_flat s1 = (tt, s1) /\
  snd s1 (0x100 + u8 (sp c - 2)) = status c /\
  pc (fst s2) = pc c /\
  sp (fst s2) = sp c /\
  status (fst s2) = status c /\
  cycles (fst s2) = u64 (cycles c + 13) /\
  (a (fst s2), x (fst s2), y (fst s2)) = (a c, x c, y c).
Proof.
  intros c ram handler Hh Hpc Hsp Hst [H5 H4] HI Hh1 Hh2 Vlo Vhi Hrti. cbv zeta.
  rewrite exec_irq by exact HI. unfold interrupt_entry. cbv zeta.
  destruct (stack3 (sp c) Hsp) as (P3 & P2 & P1 & N1 & N2 & N3 & B1 & B2 & E3).
  cbv zeta in P3, P2, P1, N1, N2, N3, B1, B2, E3.
  destruct (live_status_fixed (status c) Hst H5 H4) as (F1 & F2 & _).
  destruct (bytes_of_word (pc c) Hpc) as [W1 W2].
  rewrite F1, W1, W2.
  set (s1 := u8 (sp c - 1)) in *. set (s2 := u8 (s1 - 1)) in *.
  set (ram3 := upd (upd (upd ram (256 + sp c) (pc c / 256)) (256 + s1) (pc c mod 256))
                   (256 + s2) (status c)).
  assert (R0 : ram3 (256 + sp c) = pc c / 256).
  { unfold ram3. rewrite !upd_other by lia. apply upd_same. }
  assert (R1 : ram3 (256 + s1) = pc c mod 256).
  { unfold ram3. rewrite upd_other by lia. apply upd_same. }
  assert (R2 : ram3 (256 + s2) = status c) by (unfold ram3; apply upd_same).
  assert (Rv : ram3 0xFFFE = handler mod 256 /\ ram3 0xFFFF = handler / 256 /\
               ram3 handler = 0x40).
  { unfold ram3. rewrite !upd_other by lia. auto. }
  destruct Rv as (Rlo & Rhi & Rh).
  change (65534 + 1) with 65535. rewrite Rlo, Rhi, word_of_bytes by exact Hh1.
  cbn [fst snd pc sp].
  assert (E2 : s2 = u8 (sp c - 2)).
  { unfold s2, s1. rewrite u8_sub_l. f_equal. lia. }
  assert (FI : cpu_get_flag
                 (mkCpu (a c) (x c) (y c) (u8 (s2 - 1)) handler
                        (u8 (Z.lor (status c) CPU_FLAG_I)) (u64 (cycles c + 7))
                        (halted c) (page_crossed c)) CPU_FLAG_I = true).
  { unfold cpu_get_flag. cbn [status]. flags_as_bits. rewrite nz_land_pow2 by lia.
    unfold u8. rewrite testbit_u8_low by lia. rewrite Z.lor_spec.
    rewrite Z.pow2_bits_true by lia. apply orb_true_r. }
  split; [reflexivity|]. split; [exact E3|]. split; [exact FI|].
  split; [apply irq_masked; exact FI|].
  split; [rewrite <- E2; exact R2|].
  rewrite exec_rti by (first [exact Rh | exact Hh | reflexivity]).
  cbn [fst snd pc sp a x y status cycles].
  rewrite P3, P2, P1, R0, R1, R2, F2.
  pose proof (Z.mod_pos_bound (pc c) 256).
  rewrite word_of_bytes by lia.
  split; [reflexivity|]. split; [reflexivity|]. split; [reflexivity|].
  split; [|reflexivity].
  rewrite u64_add_l. f_equal. lia.
Qed.

(** X11.  On flat memory, [PHA] stores the accumulator at the top of the
    stack and moves the stack pointer one down, touching no flag and no
    other byte; a later [PLA], executed with the stack pointer where PHA
    left it and the slot unchanged, gives the accumulator that value back,
    sets N and Z from it and restores the stack pointer, whatever the
    program did to the registers in between. *)
Theorem pha_pla_round_trip : forall (c c' : cpu6502_t) (ram ram' : Z -> Z),
  halted c = false -> 0 <= sp c < 256 -> 0 <= a c < 256 ->
  ram (pc c) = 0x48 ->
  let s1 := snd (cpu6502_step bus_flat (c, ram)) in
  halted c' = false -> sp c' = sp (fst s1) ->
  ram' (0x100 + sp c) = snd s1 (0x100 + sp c) ->
  ram' (pc c') = 0x68 ->
  let s2 := snd (cpu6502_step bus_flat (c', ram')) in
  snd s1 = upd ram (0x100 + sp c) (a c) /\
  sp (fst s1) = u8 (sp c - 1) /\
  (a (fst s1), status (fst s1)) = (a c, status c) /\
  a (fst s2) = a c /\
  sp (fst s2) = sp c /\
  status (fst s2) = status (cpu_set_nz (a c) c') /\
  snd s2 = ram' /\
  cycles (fst s2) = u64 (cycles c' + 4).
Proof.
  intros c c' ram ram' Hh Hsp Ha Hop. cbv zeta.
  rewrite (exec_pha c ram Hh Hop). cbn [fst snd sp a status].
  intros Hh' Hsp' Hslot Hop'.
  rewrite (exec_pla c' ram' Hh' Hop').
  rewrite Hsp', u8_pred_succ by exact Hsp. rewrite Hslot, upd_same.
  rewrite (u8_small (a c)) by exact Ha.
  split; [reflexivity|]. split; [reflexivity|]. split; [reflexivity|].
  unfold cpu_set_nz, cpu_set_flag. destruct c'.
  cbn [fst snd a sp status cycles set_status].
  destruct (Cpu6502.a c =? 0), (nz (Z.land (Cpu6502.a c) 128));
    cbn [fst snd a sp status cycles set_status]; repeat split; reflexivity.
Qed.

End FlatRam.

Lemma jsr_rts_round_trip_witness :
  let c := Samples.cpu_at 0x0600 in
  let s1 := snd (Cpu6502.cpu6502_step Examples.bus_flat (c, Samples.rom)) in
  let s2 := snd (Cpu6502.cpu6502_step Examples.bus_flat s1) in
  Cpu6502.pc (fst s1) = 0x0700 /\ Cpu6502.pc (fst s2) = 0x0603 /\
  Cpu6502.sp (fst s2) = 0xFD.
Proof.
  cbv zeta.
  destruct (jsr_rts_round_trip (Samples.cpu_at 0x0600) Samples.rom 0x0700)
    as (E1 & _ & _ & _ & E2 & E3 & _);
    [reflexivity | cbn; lia | cbn; lia | reflexivity | reflexivity | reflexivity
    | lia | lia | reflexivity |].
  split; [exact E1|]. split; [exact E2 | exact E3].
Defined.

Lemma nmi_rti_round_trip_witness :
  let c := Samples.cpu_at 0x0600 in
  let s1 := snd (Cpu6502.cpu6502_nmi Examples.bus_flat (c, Samples.rom)) in
  let s2 := snd (Cpu6502.cpu6502_step Examples.bus_flat s1) in
  Cpu6502.pc (fst s1) = 0x0710 /\ Cpu6502.pc (fst s2) = 0x0600 /\
  Cpu6502.status (fst s2) = 0x25.
Proof.
  cbv zeta.
  destruct (nmi_rti_round_trip (Samples.cpu_at 0x0600) Samples.rom 0x0710)
    as (E1 & _ & _ & _ & E2 & _ & E3 & _);
    [reflexivity | cbn; lia | cbn; lia | cbn; lia | split; reflexivity | lia | lia
    | reflexivity | reflexivity | reflexivity |].
  split; [exact E1|]. split; [exact E2 | exact E3].
Defined.

Lemma brk_rti_round_trip_witness :
  let c := Samples.cpu_at 0x0610 in
  let s1 := snd (Cpu6502.cpu6502_step Examples.bus_flat (c, Samples.rom)) in
  let s2 := snd (Cpu6502.cpu6502_step Examples.bus_flat s1) in
  Cpu6502.pc (fst s1) = 0x0710 /\ Cpu6502.pc (fst s2) = 0x0612 /\
  Cpu6502.status (fst s2) = 0x25.
Proof.
  cbv zeta.
  destruct (brk_rti_round_trip (Samples.cpu_at 0x0610) Samples.rom 0x0710)
    as (E1 & _ & _ & _ & _ & E2 & _ & E3 & _);
    [reflexivity | cbn; lia | cbn; lia | cbn; lia | split; reflexivity | reflexivity
    | lia | lia | reflexivity | reflexivity | reflexivity |].
  split; [exact E1|]. split; [exact E2 | exact E3].
Defined.

Lemma php_plp_round_trip_witness :
  let c := Samples.cpu_at 0x0620 in
  let s1 := snd (Cpu6502.cpu6502_step Examples.bus_flat (c, Samples.rom)) in
  let s2 := snd (Cpu6502.cpu6502_step Examples.bus_flat s1) in
  snd s1 0x01FD = 0x35 /\ Cpu6502.status (fst s2) = 0x25 /\
  Cpu6502.sp (fst s2) = 0xFD.
Proof.
  cbv zeta.
  destruct (php_plp_round_trip (Samples.cpu_at 0x0620) Samples.rom)
    as (E1 & _ & _ & E2 & E3 & _);
    [reflexivity | cbn; lia | cbn; lia | cbn; lia | split; reflexivity | cbn; lia
    | reflexivity | reflexivity |].
  split; [exact E1|]. split; [exact E2 | exact E3].
Defined.

Lemma irq_rti_round_trip_witness :
  let c := Samples.cpu_enabled_at 0x0600 in
  let s1 := snd (Cpu6502.cpu6502_irq Examples.bus_flat (c, Samples.rom)) in
  let s2 := snd (Cpu6502.cpu6502_step Examples.bus_flat s1) in
  Cpu6502.pc (fst s1) = 0x0710 /\ Cpu6502.pc (fst s2) = 0x0600 /\
  Cpu6502.status (fst s2) = 0x21.
Proof.
  cbv zeta.
  destruct (irq_rti_round_trip (Samples.cpu_enabled_at 0x0600) Samples.rom 0x0710)
    as (E1 & _ & _ & _ & _ & E2 & _ & E3 & _);
    [reflexivity | cbn; lia | cbn; lia | cbn; lia | split; reflexivity | reflexivity
    | lia | lia | reflexivity | reflexivity | reflexivity |].
  split; [exact E1|]. split; [exact E2 | exact E3].
Defined.

Lemma pha_pla_round_trip_witness :
  let c := Samples.cpu_at 0x0630 in
  let s1 := snd (Cpu6502.cpu6502_step Examples.bus_flat (c, Samples.rom)) in
  let c' := Cpu6502.set_a 0 (Cpu6502.set_pc 0x0640 (fst s1)) in
  let s2 := snd (Cpu6502.cpu6502_step Examples.bus_flat (c', snd s1)) in
  Cpu6502.a (fst s2) = 0x42 /\ Cpu6502.sp (fst s2) = 0xFD.
Proof.
  cbv zeta.
  destruct (pha_pla_round_trip (Samples.cpu_at 0x0630)
              (Cpu6502.set_a 0 (Cpu6502.set_pc 0x0640
                 (fst (snd (Cpu6502.cpu6502_step Examples.bus_flat
                              (Samples.cpu_at 0x0630, Samples.rom))))))
              Samples.rom
              (snd (snd (Cpu6502.cpu6502_step Examples.bus_flat
                           (Samples.cpu_at 0x0630, Samples.rom)))))
    as (_ & _ & _ & E1 & E2 & _);
    [reflexivity | cbn; lia | cbn; lia | reflexivity | reflexivity | reflexivity
    | reflexivity | reflexivity |].
  split; [exact E1 | exact E2].
Defined.


(* ===================================================================== *)
(** * Halting: illegal opcodes and the standalone driver *)
(* ===================================================================== *)

Section HaltFrames.
Import Cpu6502.

Lemma halted_set_flag f v c : halted (cpu_set_flag f v c) = halted c.
Proof. unfold cpu_set_flag. destruct v; reflexivity. Qed.

Lemma halted_set_nz v c : halted (cpu_set_nz v c) = halted c.
Proof. unfold cpu_set_nz. rewrite !halted_set_flag. reflexivity. Qed.

Lemma halted_do_adc v c : halted (do_adc v c) = halted c.
Proof.
  unfold do_adc. destruct (cpu_get_flag c CPU_FLAG_D); cbv zeta;
    rewrite ?halted_set_nz, ?halted_set_flag; cbn [halted set_a];
    rewrite ?halted_set_flag; reflexivity.
Qed.

Lemma halted_do_sbc v c : halted (do_sbc v c) = halted c.
Proof.
  unfold do_sbc. destruct (cpu_get_flag c CPU_FLAG_D); cbv zeta.
  - cbn [halted set_a]. rewrite !halted_set_flag. reflexivity.
  - apply halted_do_adc.
Qed.

Lemma halted_do_cmp r v c : halted (do_cmp r v c) = halted c.
Proof. unfold do_cmp. cbv zeta. rewrite !halted_set_flag. reflexivity. Qed.

Lemma halted_do_and v c : halted (do_and v c) = halted c.
Proof. unfold do_and. cbv zeta. rewrite halted_set_nz. reflexivity. Qed.

Lemma halted_do_ora v c : halted (do_ora v c) = halted c.
Proof. unfold do_ora. cbv zeta. rewrite halted_set_nz. reflexivity. Qed.

Lemma halted_do_eor v c : halted (do_eor v c) = halted c.
Proof. unfold do_eor. cbv zeta. rewrite halted_set_nz. reflexivity. Qed.

Lemma halted_do_asl v c : halted (snd (do_asl v c)) = halted c.
Proof. unfold do_asl. cbn [snd]. rewrite halted_set_nz, halted_set_flag. reflexivity. Qed.

Lemma halted_do_lsr v c : halted (snd (do_lsr v c)) = halted c.
Proof. unfold do_lsr. cbn [snd]. rewrite halted_set_nz, halted_set_flag. reflexivity. Qed.

Lemma halted_do_rol v c : halted (snd (do_rol v c)) = halted c.
Proof. unfold do_rol. cbn [snd]. rewrite halted_set_nz, halted_set_flag. reflexivity. Qed.

Lemma halted_do_ror v c : halted (snd (do_ror v c)) = halted c.
Proof. unfold do_ror. cbn [snd]. rewrite halted_set_nz, halted_set_flag. reflexivity. Qed.

Lemma halted_charge c : halted (charge_page_cross c) = halted c.
Proof. unfold charge_page_cross. destruct (page_crossed c); reflexivity. Qed.

End HaltFrames.

#[local] Hint Rewrite halted_set_flag halted_set_nz halted_do_adc halted_do_sbc
  halted_do_cmp halted_do_and halted_do_ora halted_do_eor halted_do_asl
  halted_do_lsr halted_do_rol halted_do_ror halted_charge : frame.

Ltac halting_entry_tac :=
  cbn [fst snd];
  lazymatch goal with
  | |- Dispatch.halting_entry ?i _ =>
      unfold Dispatch.halting_entry;
      let b := eval vm_compute in (Dispatch.is_illegal i) in
      change (Dispatch.is_illegal i) with b; cbv iota;
      lazymatch b with
      | true => split; reflexivity
      | false => split; [solve [keeps_tac] | vm_compute; discriminate]
      end
  end.

Section Halting.

Import Cpu6502 Timing Dispatch.

Context {B : Type} (bus : bus_t B).

Lemma opcode_table_halting :
  Forall (fun p => halting_entry (fst p) (snd p))
         (combine (Ppu.zrange 256) (opcode_table bus)).
Proof.
  unfold opcode_table.
  let l := eval vm_compute in (Ppu.zrange 256) in change (Ppu.zrange 256) with l.
  cbn [combine].
  repeat (apply Forall_cons; [halting_entry_tac|]).
  apply Forall_nil.
Qed.


Lemma steps_halted : forall n c ctx, halted c = true -> steps bus n (c, ctx) = (c, ctx).
Proof.
  induction n as [|n IH]; intros c ctx H; [reflexivity|].
  change (steps bus (S n) (c, ctx)) with (snd (cpu6502_step bus (steps bus n (c, ctx)))).
  rewrite IH by exact H. rewrite cpu6502_step_halted by exact H. reflexivity.
Qed.

(** What a step does with the opcode it fetches. *)
Lemma step_outcome : forall (c : cpu6502_t) (ctx : B),
  halted c = false ->
  let opcode := u8 (fst (read bus ctx (pc c))) in
  let s' := snd (cpu6502_step bus (c, ctx)) in
  halted (fst s') = is_illegal opcode /\
  (is_illegal opcode = true ->
     fst s' = set_halted true (set_cycles (u64 (cycles c))
                (set_pc (u16 (pc c + 1)) (set_page_crossed false c))) /\
     forall n, steps bus n s' = s') /\
  (is_illegal opcode = false -> 2 <= opcode_cycles opcode <= 7).
Proof.
  intros c ctx Hh opcode s'. subst s'.
  rewrite cpu6502_step_running by exact Hh. cbv zeta. fold opcode.
  assert (Hop : 0 <= opcode < 256) by (apply Z.mod_pos_bound; lia).
  pose proof (opcode_fn_indexed bus halting_entry opcode_table_halting opcode Hop) as H.
  unfold halting_entry in H. pose proof (opcode_cycles_bounds opcode) as Hb.
  destruct (is_illegal opcode).
  - destruct H as [Ef Ec]. rewrite Ef, Ec, Z.add_0_r.
    unfold op_ill, modify. cbn [fst snd halted set_halted].
    split; [reflexivity|]. split; [|discriminate].
    intros _. split; [reflexivity|]. intro n. apply steps_halted. reflexivity.
  - destruct H as [Hk Hc]. rewrite Hk. cbn [fst halted set_cycles set_pc set_page_crossed].
    split; [exact Hh|]. split; [discriminate|]. intros _. lia.
Qed.


(** X12.  A step halts the cpu exactly when the opcode it fetches is not one
    of the 151 documented ones; such a step only moves the program counter
    past the opcode and charges no cycle, and from then on steps change
    nothing.  A documented opcode costs between two and seven cycles. *)
Theorem step_halts_iff_illegal : forall (c : cpu6502_t) (ctx : B),
  halted c = false ->
  let opcode := u8 (fst (read bus ctx (pc c))) in
  let s' := snd (cpu6502_step bus (c, ctx)) in
  halted (fst s') = is_illegal opcode /\
  (is_illegal opcode = true ->
     fst s' = set_halted true (set_cycles (u64 (cycles c))
                (set_pc (u16 (pc c + 1)) (set_page_crossed false c))) /\
     forall n, steps bus n s' = s') /\
  (is_illegal opcode = false -> 2 <= opcode_cycles opcode <= 7).
Proof. intros c ctx Hh. exact (step_outcome c ctx Hh). Qed.

End Halting.

Lemma step_halts_iff_illegal_witness :
  Cpu6502.halted (fst Examples.illegal_machine) = false /\
  Cpu6502.halted
    (fst (snd (Cpu6502.cpu6502_step Nes.nes_bus Examples.illegal_machine))) = true.
Proof.
  split; [reflexivity|].
  destruct (step_halts_iff_illegal Nes.nes_bus (fst Examples.illegal_machine)
              (snd Examples.illegal_machine) eq_refl) as (E & _).
  exact E.
Defined.

Section DriverFacts.

Import Cpu6502 Examples Driver Timing Dispatch.

Lemma extra_observed_range : forall op c c', 0 <= extra_observed op c c' <= 2.
Proof.
  intros. unfold extra_observed. destruct (classify op);
    repeat match goal with |- context [if ?b then _ else _] => destruct b end; lia.
Qed.

Lemma run_loop_enough : forall fuel s,
  halted (fst s) = true \/
  (0 <= cycles (fst s) /\ CYCLE_LIMIT - cycles (fst s) < 2 * Z.of_nat fuel - 2) \/
  CYCLE_LIMIT <= cycles (fst s) ->
  exists r, run_loop fuel s = Some r.
Proof.
  induction fuel as [|fuel IH]; intros [c ram] H; cbn [fst] in H.
  - cbn [run_loop fst]. destruct H as [H|[H|H]].
    + rewrite H. eexists; reflexivity.
    + destruct (Z.ltb_spec (cycles c) CYCLE_LIMIT); [lia|].
      rewrite andb_false_r. eexists; reflexivity.
    + destruct (Z.ltb_spec (cycles c) CYCLE_LIMIT); [lia|].
      rewrite andb_false_r. eexists; reflexivity.
  - cbn [run_loop fst].
    destruct (halted c) eqn:Hh; [eexists; reflexivity|].
    destruct (Z.ltb_spec (cycles c) CYCLE_LIMIT) as [Hl|Hl];
      [|eexists; reflexivity].
    cbn [negb andb].
    destruct (pc (fst (snd (cpu6502_step bus_flat (c, ram)))) =? pc c);
      [eexists; reflexivity|].
    apply IH.
    destruct H as [H|[[H0 H]|H]]; [congruence| |lia].
    destruct (step_outcome bus_flat c ram Hh) as (E & Hill & Hleg).
    cbv zeta in E, Hill, Hleg.
    destruct (is_illegal (u8 (fst (read bus_flat ram (pc c))))).
    + left. exact E.
    + right. left.
      pose proof (cpu6502_step_cycles_mod bus_flat c ram Hh) as Ec. cbv zeta in Ec.
      pose proof (extra_observed_range (u8 (fst (read bus_flat ram (pc c)))) c
                    (fst (snd (cpu6502_step bus_flat (c, ram))))) as Hx.
      specialize (Hleg eq_refl).
      rewrite u64_small in Ec by (unfold CYCLE_LIMIT in *; lia).
      rewrite Ec. lia.
Qed.

Lemma run_loop_exit : forall fuel s trap s',
  run_loop fuel s = Some (trap, s') ->
  trap = true \/ halted (fst s') = true \/ CYCLE_LIMIT <= cycles (fst s').
Proof.
  induction fuel as [|fuel IH]; intros [c ram] trap s' H; cbn [run_loop fst] in H.
  - destruct (halted c) eqn:Hh; cbn [negb andb] in H.
    + injection H as <- <-. auto.
    + destruct (Z.ltb_spec (cycles c) CYCLE_LIMIT); [discriminate|].
      injection H as <- <-. auto.
  - destruct (halted c) eqn:Hh; cbn [negb andb] in H.
    + injection H as <- <-. auto.
    + destruct (Z.ltb_spec (cycles c) CYCLE_LIMIT).
      * destruct (pc (fst (snd (cpu6502_step bus_flat (c, ram)))) =? pc c).
        -- injection H as <- <-. auto.
        -- apply IH in H. exact H.
      * injection H as <- <-. auto.
Qed.

Lemma main_start_cycles : forall c0 ram start,
  cycles (fst (main_start c0 ram start)) = 7 /\
  halted (fst (main_start c0 ram start)) = false.
Proof.
  intros. unfold main_start, cpu6502_reset, cpu6502_init, bind, modify, cpu_read.
  destruct start; cbn; auto.
Qed.

(** X13.  The loop of the standalone driver always ends: from the state
    [main] starts it in, whatever the memory image and the start address, it
    leaves within 50 000 000 iterations, through the trap test, with the
    cpu halted, or with the cycle limit reached. *)
Theorem driver_loop_terminates : forall (c0 : cpu6502_t) (ram : Z -> Z)
    (start_addr : option Z),
  exists trap s',
    run_loop (Z.to_nat 50000000) (main_start c0 ram start_addr) = Some (trap, s') /\
    (trap = true \/ halted (fst s') = true \/ CYCLE_LIMIT <= cycles (fst s')).
Proof.
  intros c0 ram start.
  destruct (main_start_cycles c0 ram start) as [Ec Eh].
  destruct (run_loop_enough (Z.to_nat 50000000) (main_start c0 ram start))
    as [[trap s'] Hr].
  { right. left. rewrite Ec. unfold CYCLE_LIMIT. lia. }
  exists trap, s'. split; [exact Hr|]. eapply run_loop_exit. exact Hr.
Qed.

End DriverFacts.


(* ===================================================================== *)
(** * The raster: frame period and VBlank *)
(* ===================================================================== *)

Section RasterFacts.

Import Cartridge Ppu Raster.

Lemma compose_pixel_kept : forall y bp bpal spr p x,
  cpu_side (compose_pixel y bp bpal spr p x) = cpu_side p /\
  counters (compose_pixel y bp bpal spr p x) = counters p /\
  v (compose_pixel y bp bpal spr p x) = v p /\
  nmi_occurred (compose_pixel y bp bpal spr p x) = nmi_occurred p.
Proof.
  intros. unfold compose_pixel. cbv zeta.
  destruct (_ && _ && nz (spr_zero spr x) && negb (x =? 255)); repeat split.
Qed.

Lemma compose_row_kept : forall y bp bpal spr l p,
  cpu_side (fold_left (compose_pixel y bp bpal spr) l p) = cpu_side p /\
  counters (fold_left (compose_pixel y bp bpal spr) l p) = counters p /\
  v (fold_left (compose_pixel y bp bpal spr) l p) = v p /\
  nmi_occurred (fold_left (compose_pixel y bp bpal spr) l p) = nmi_occurred p.
Proof.
  induction l as [|x l IH]; intro p; cbn [fold_left]; [auto|].
  destruct (IH (compose_pixel y bp bpal spr p x)) as (A & B & C & D).
  destruct (compose_pixel_kept y bp bpal spr p x) as (A' & B' & C' & D').
  rewrite A, B, C, D. auto.
Qed.

Lemma set_v_kept : forall x q,
  cpu_side (set_v x q) = cpu_side q /\ counters (set_v x q) = counters q /\
  nmi_occurred (set_v x q) = nmi_occurred q.
Proof. intros. repeat split. Qed.

Lemma render_scanline_kept : forall cart p,
  cpu_side (render_scanline cart p) = cpu_side p /\
  counters (render_scanline cart p) = counters p /\
  nmi_occurred (render_scanline cart p) = nmi_occurred p.
Proof.
  intros cart p. unfold render_scanline. cbv zeta.
  match goal with |- context [fold_left (compose_pixel ?y ?bp ?bpal ?spr) ?l p] =>
    pose proof (compose_row_kept y bp bpal spr l p) as K;
    generalize dependent (fold_left (compose_pixel y bp bpal spr) l p)
  end.
  intros q (A & B & C & D).
  destruct (set_v_kept (increment_fine_y (v q)) q) as (A1 & B1 & D1).
  set (q1 := set_v (increment_fine_y (v q)) q) in *.
  destruct (set_v_kept (u16 (Z.lor (Z.land (v q1) (Z.lnot 1055)) (Z.land (t q1) 1055))) q1)
    as (A2 & B2 & D2).
  rewrite A2, B2, D2, A1, B1, D1. auto.
Qed.

(** [ppu_step] is its events followed by [advance], and the events leave
    the counters and everything on the CPU side alone. *)
Lemma ppu_step_events : forall cart p, exists q,
  snd (ppu_step cart p) = advance q /\
  cpu_side q = cpu_side p /\ counters q = counters p.
Proof.
  intros cart p. unfold ppu_step. cbv zeta. cbn [snd].
  destruct (scanline p =? -1).
  - eexists. split; [reflexivity|].
    destruct (cycle p =? 1); destruct (_ && _ && _); split; reflexivity.
  - destruct ((scanline p >=? 0) && (scanline p <? 240)).
    + destruct ((cycle p =? 0) && _); cbn [snd].
      * eexists. split; [reflexivity|].
        destruct (render_scanline_kept cart p) as (A & B & _). auto.
      * eexists. split; [reflexivity|]. auto.
    + destruct ((scanline p =? 241) && (cycle p =? 1)); cbn [snd];
        eexists; (split; [reflexivity|]); split; reflexivity.
Qed.

Lemma advance_cpu_side : forall q, cpu_side (advance q) = cpu_side q.
Proof.
  intro q. unfold advance. cbv zeta. cbn [cycle set_cycle scanline set_scanline].
  destruct (cycle q + 1 >? 340); [|reflexivity].
  destruct (scanline q + 1 >? 260); reflexivity.
Qed.

Lemma advance_counters : forall q, in_raster q ->
  in_raster (advance q) /\
  dot (advance q) = (dot q + 1) mod DOTS_PER_FRAME /\
  frame (advance q) =
    if dot q =? DOTS_PER_FRAME - 1 then u64 (frame q + 1) else frame q.
Proof.
  intros q [Hs Hc]. unfold advance, in_raster, dot, DOTS_PER_FRAME. cbv zeta.
  cbn [cycle set_cycle scanline set_scanline].
  change (341 * 262) with 89342. change (89342 - 1) with 89341.
  destruct (Z.gtb_spec (cycle q + 1) 340) as [H|H].
  - destruct (Z.gtb_spec (scanline q + 1) 260) as [H'|H'];
      cbn [cycle set_cycle scanline set_scanline frame set_frame].
    + assert (scanline q = 260) by lia. assert (cycle q = 340) by lia.
      replace ((scanline q + 1) * 341 + cycle q) with 89341 by lia.
      cbn. repeat split; lia.
    + rewrite Z.mod_small by lia.
      destruct (Z.eqb_spec ((scanline q + 1) * 341 + cycle q) 89341); [lia|].
      repeat split; lia.
  - cbn [cycle set_cycle scanline set_scanline frame set_frame].
    rewrite Z.mod_small by lia.
    destruct (Z.eqb_spec ((scanline q + 1) * 341 + cycle q) 89341); [lia|].
    repeat split; lia.
Qed.

Lemma counters_raster : forall p q, counters q = counters p ->
  (in_raster q <-> in_raster p) /\ dot q = dot p /\ frame q = frame p.
Proof.
  intros p q H. unfold counters in H. injection H as E1 E2 E3.
  unfold in_raster, dot. rewrite E1, E2, E3. tauto.
Qed.

(** One tick moves the raster position one dot on, modulo the frame, and
    counts a frame when the position wraps. *)
Lemma ppu_step_dot : forall cart p, in_raster p ->
  let p' := snd (ppu_step cart p) in
  in_raster p' /\
  dot p' = (dot p + 1) mod DOTS_PER_FRAME /\
  frame p' = (if dot p =? DOTS_PER_FRAME - 1 then u64 (frame p + 1) else frame p) /\
  cpu_side p' = cpu_side p.
Proof.
  intros cart p H. cbv zeta.
  destruct (ppu_step_events cart p) as (q & E & S & C).
  destruct (counters_raster p q C) as (R & D & F).
  rewrite E. destruct (advance_counters q (proj2 R H)) as (A1 & A2 & A3).
  rewrite A2, A3, D, F, advance_cpu_side, S. auto.
Qed.

Lemma dot_range : forall p, in_raster p -> 0 <= dot p < DOTS_PER_FRAME.
Proof. intros p [Hs Hc]. unfold dot, DOTS_PER_FRAME. lia. Qed.

Lemma ticks_dot : forall n cart p, in_raster p ->
  in_raster (ticks n cart p) /\
  dot (ticks n cart p) = (dot p + Z.of_nat n) mod DOTS_PER_FRAME /\
  frame (ticks n cart p) =
    (if dot p + Z.of_nat n <? DOTS_PER_FRAME then frame p
     else u64 (frame p + (dot p + Z.of_nat n) / DOTS_PER_FRAME)) /\
  cpu_side (ticks n cart p) = cpu_side p.
Proof.
  induction n as [|n IH]; intros cart p H.
  - pose proof (dot_range p H) as Hd. cbn [ticks]. rewrite Z.add_0_r.
    rewrite Z.mod_small by exact Hd.
    destruct (Z.ltb_spec (dot p) DOTS_PER_FRAME); [auto | lia].
  - cbn [ticks].
    destruct (ppu_step_dot cart p H) as (R & D & F & C). cbv zeta in R, D, F, C.
    destruct (IH cart _ R) as (R' & D' & F' & C').
    pose proof (dot_range p H) as Hd.
    split; [exact R'|]. rewrite D', F', C', D, F, C.
    replace (dot p + Z.of_nat (S n)) with (dot p + 1 + Z.of_nat n) by lia.
    split; [apply Zplus_mod_idemp_l|]. split; [|reflexivity].
    unfold DOTS_PER_FRAME in *. change (341 * 262) with 89342 in *.
    change (89342 - 1) with 89341.
    destruct (Z.eqb_spec (dot p) 89341) as [E|E].
    + rewrite E. change ((89341 + 1) mod 89342) with 0.
      destruct (Z.ltb_spec (89341 + 1 + Z.of_nat n) 89342); [lia|].
      replace (89341 + 1 + Z.of_nat n) with (Z.of_nat n + 1 * 89342) by lia.
      rewrite Z.div_add by lia. cbn [Z.add].
      destruct (Z.ltb_spec (Z.of_nat n) 89342).
      * rewrite Z.div_small by lia. f_equal; lia.
      * rewrite u64_add_l. f_equal; lia.
    + rewrite Z.mod_small by lia. reflexivity.
Qed.

(** X14.  A frame is 89342 ticks: after that many the PPU stands at the same
    scanline and cycle, one frame later, for whatever program drives it. *)
Theorem ppu_frame_period : forall (cart : cartridge_t) (p : ppu_t),
  in_raster p ->
  let p' := ticks (Z.to_nat 89342) cart p in
  scanline p' = scanline p /\ cycle p' = cycle p /\
  frame p' = u64 (frame p + 1) /\
  cpu_side p' = cpu_side p.
Proof.
  intros cart p H. cbv zeta.
  assert (En : Z.of_nat (Z.to_nat 89342) = 89342) by (apply Z2Nat.id; lia).
  generalize dependent (Z.to_nat 89342). intros n En.
  destruct (ticks_dot n cart p H) as (R & D & F & S).
  pose proof (dot_range p H) as Hd.
  unfold DOTS_PER_FRAME in *. change (341 * 262) with 89342 in *.
  rewrite En in D, F.
  replace (dot p + 89342) with (dot p + 1 * 89342) in D, F by lia.
  rewrite Z.mod_add, Z.mod_small in D by lia.
  rewrite Z.div_add, Z.div_small in F by lia.
  destruct (Z.ltb_spec (dot p + 1 * 89342) 89342); [lia|].
  destruct H as [Hs Hc], R as [Hs' Hc']. unfold dot in D.
  split; [lia|]. split; [lia|]. split; [exact F | exact S].
Qed.

(** *** One NMI signal per frame *)

Lemma signal_at_dot : forall cart p, in_raster p ->
  fst (ppu_step cart p) = (dot p =? VBLANK_DOT) && nmi_output p.
Proof.
  intros cart p [Hs Hc]. rewrite ppu_step_signal. f_equal.
  unfold dot, VBLANK_DOT.
  destruct (Z.eqb_spec (scanline p) 241), (Z.eqb_spec (cycle p) 1),
    (Z.eqb_spec ((scanline p + 1) * 341 + cycle p) (242 * 341 + 1));
    try reflexivity; lia.
Qed.

Lemma nmi_output_step : forall cart p,
  in_raster p -> nmi_output (snd (ppu_step cart p)) = nmi_output p.
Proof.
  intros cart p H. destruct (ppu_step_dot cart p H) as (_ & _ & _ & S).
  cbv zeta in S. unfold cpu_side in S. congruence.
Qed.

Lemma nmi_signals_none : forall n cart p, in_raster p ->
  (forall k, 0 <= k < Z.of_nat n -> (dot p + k) mod DOTS_PER_FRAME <> VBLANK_DOT) ->
  nmi_signals n cart p = 0%nat.
Proof.
  induction n as [|n IH]; intros cart p H Hk; [reflexivity|].
  cbn [nmi_signals]. rewrite signal_at_dot by exact H.
  pose proof (dot_range p H) as Hd.
  destruct (Z.eqb_spec (dot p) VBLANK_DOT) as [E|E].
  - exfalso. apply (Hk 0); [lia|]. rewrite Z.add_0_r, Z.mod_small; assumption.
  - cbn [andb]. destruct (ppu_step_dot cart p H) as (R & D & _). cbv zeta in R, D.
    rewrite IH; [reflexivity | exact R |].
    intros k Hk'. rewrite D, Zplus_mod_idemp_l.
    replace (dot p + 1 + k) with (dot p + (k + 1)) by lia. apply Hk. lia.
Qed.

Lemma nmi_signals_add : forall n m cart p,
  nmi_signals (n + m) cart p =
  (nmi_signals n cart p + nmi_signals m cart (ticks n cart p))%nat.
Proof.
  induction n as [|n IH]; intros m cart p; [reflexivity|].
  cbn [Nat.add nmi_signals ticks]. rewrite IH. lia.
Qed.

(** A shift by fewer than a frame's dots comes back to the same dot only
    when it is no shift. *)
Lemma dot_shift : forall d j, 0 <= j < DOTS_PER_FRAME ->
  (d + j) mod DOTS_PER_FRAME = d mod DOTS_PER_FRAME -> j = 0.
Proof.
  intros d j Hj H. unfold DOTS_PER_FRAME in *. change (341 * 262) with 89342 in *.
  assert (E : (d + j - d) mod 89342 = 0).
  { rewrite Zminus_mod, H, <- Zminus_mod, Z.sub_diag. reflexivity. }
  replace (d + j - d) with j in E by lia. rewrite Z.mod_small in E; lia.
Qed.

(** X15.  In any 89342 consecutive ticks the NMI signal is returned once when
    NMI output is enabled, and never when it is disabled. *)
Theorem one_nmi_per_frame : forall (cart : cartridge_t) (p : ppu_t),
  in_raster p ->
  nmi_signals (Z.to_nat 89342) cart p = if nmi_output p then 1%nat else 0%nat.
Proof.
  intros cart p H. pose proof (dot_range p H) as Hd.
  unfold DOTS_PER_FRAME in Hd. change (341 * 262) with 89342 in Hd.
  set (n1 := (VBLANK_DOT - dot p) mod 89342).
  assert (Hn1 : 0 <= n1 < 89342) by (apply Z.mod_pos_bound; lia).
  assert (Hat : (dot p + n1) mod 89342 = VBLANK_DOT).
  { unfold n1. rewrite Zplus_mod_idemp_r.
    replace (dot p + (VBLANK_DOT - dot p)) with VBLANK_DOT by lia. reflexivity. }
  assert (Es : Z.to_nat 89342 = (Z.to_nat n1 + (1 + Z.to_nat (89341 - n1)))%nat) by lia.
  rewrite Es. clear Es.
  rewrite nmi_signals_add.
  destruct (ticks_dot (Z.to_nat n1) cart p H) as (R1 & D1 & _ & S1).
  rewrite Z2Nat.id in D1 by lia.
  unfold DOTS_PER_FRAME in D1. change (341 * 262) with 89342 in D1.
  rewrite Hat in D1.
  rewrite nmi_signals_none; [| exact H |].
  2:{ intros k Hk. rewrite Z2Nat.id in Hk by lia.
      unfold DOTS_PER_FRAME. change (341 * 262) with 89342. intro E.
      assert (J : n1 - k = 0).
      { apply (dot_shift (dot p + k)).
        - unfold DOTS_PER_FRAME. change (341 * 262) with 89342. lia.
        - unfold DOTS_PER_FRAME. change (341 * 262) with 89342.
          replace (dot p + k + (n1 - k)) with (dot p + n1) by lia. congruence. }
      lia. }
  set (p1 := ticks (Z.to_nat n1) cart p) in *.
  cbn [Nat.add nmi_signals]. rewrite signal_at_dot by exact R1.
  rewrite D1, Z.eqb_refl. cbn [andb].
  assert (En : nmi_output p1 = nmi_output p) by (unfold cpu_side in S1; congruence).
  rewrite En.
  destruct (ppu_step_dot cart p1 R1) as (R2 & D2 & _). cbv zeta in R2, D2.
  rewrite nmi_signals_none; [destruct (nmi_output p); reflexivity | exact R2 |].
  intros k Hk. rewrite Z2Nat.id in Hk by lia. rewrite D2, D1, Zplus_mod_idemp_l.
  intro E.
  assert (J : 1 + k = 0).
  { apply (dot_shift VBLANK_DOT).
    - unfold DOTS_PER_FRAME. change (341 * 262) with 89342. lia.
    - rewrite Z.add_assoc. rewrite E. symmetry. apply Z.mod_small.
      unfold VBLANK_DOT, DOTS_PER_FRAME. lia. }
  lia.
Qed.

End RasterFacts.

Lemma ppu_frame_period_witness :
  Raster.in_raster Ppu.ppu_init /\
  Ppu.scanline (Raster.ticks (Z.to_nat 89342) Examples.cart_empty Ppu.ppu_init) = -1 /\
  Ppu.frame (Raster.ticks (Z.to_nat 89342) Examples.cart_empty Ppu.ppu_init) = 1.
Proof.
  assert (R : Raster.in_raster Ppu.ppu_init) by (split; cbn; lia).
  split; [exact R|].
  destruct (ppu_frame_period Examples.cart_empty Ppu.ppu_init R) as (E1 & _ & E2 & _).
  split; [exact E1 | exact E2].
Defined.

Lemma one_nmi_per_frame_witness :
  Raster.in_raster Examples.pre_vblank_ppu /\
  Raster.nmi_signals (Z.to_nat 89342) Examples.cart_empty Examples.pre_vblank_ppu
    = 1%nat.
Proof.
  assert (R : Raster.in_raster Examples.pre_vblank_ppu) by (split; cbn; lia).
  split; [exact R|].
  exact (one_nmi_per_frame Examples.cart_empty Examples.pre_vblank_ppu R).
Defined.

(* ===================================================================== *)
(** * The renderer and the framebuffer *)
(* ===================================================================== *)

Section RenderFacts.

Import Cartridge Ppu.

Lemma zrange_mem : forall n x, In x (zrange n) <-> 0 <= x < Z.of_nat n.
Proof.
  intros n x. unfold zrange. rewrite in_map_iff. split.
  - intros (k & <- & Hk). apply in_seq in Hk. lia.
  - intro H. exists (Z.to_nat x). split; [lia | apply in_seq; lia].
Qed.

Lemma zrange_NoDup : forall n, NoDup (zrange n).
Proof.
  intro n. unfold zrange. generalize (seq_NoDup n 0). generalize (seq 0 n).
  induction l as [|k l IH]; intro H; cbn [map]; [constructor|].
  inversion H as [|? ? Hk Hl]; subst. constructor; [|apply IH; exact Hl].
  rewrite in_map_iff. intros (j & Hj & Hin). apply Nat2Z.inj in Hj. subst j.
  contradiction.
Qed.

Lemma land_3F_range : forall c, 0 <= Z.land c 0x3F < 64.
Proof.
  intro c. change 0x3F with (Z.ones 6). rewrite Z.land_ones by lia.
  apply Z.mod_pos_bound. lia.
Qed.

Lemma compose_pixel_fb : forall y bp bpal spr p x, exists k,
  0 <= k < 64 /\
  framebuffer (compose_pixel y bp bpal spr p x)
  = upd (framebuffer p) (y * 256 + x) (nes_palette k).
Proof.
  intros. unfold compose_pixel. cbv zeta.
  match goal with |- context [nes_palette (Z.land ?c 63)] =>
    exists (Z.land c 63); split; [apply land_3F_range|] end.
  destruct (_ && _ && nz (spr_zero spr x) && negb (x =? 255)); reflexivity.
Qed.

Lemma compose_row_fb : forall y bp bpal spr l p,
  (forall i, (forall x, In x l -> i <> y * 256 + x) ->
     framebuffer (fold_left (compose_pixel y bp bpal spr) l p) i = framebuffer p i) /\
  (NoDup l -> forall x, In x l -> exists k, 0 <= k < 64 /\
     framebuffer (fold_left (compose_pixel y bp bpal spr) l p) (y * 256 + x)
     = nes_palette k).
Proof.
  induction l as [|x0 l IH]; intro p; cbn [fold_left].
  - split; [reflexivity|]. intros _ x [].
  - destruct (IH (compose_pixel y bp bpal spr p x0)) as [K1 K2].
    destruct (compose_pixel_fb y bp bpal spr p x0) as (k0 & Hk0 & E0).
    split.
    + intros i Hi. rewrite K1 by (intros x Hx; apply Hi; right; exact Hx).
      rewrite E0. unfold upd.
      destruct (Z.eqb_spec i (y * 256 + x0)) as [->|]; [|reflexivity].
      exfalso. apply (Hi x0); [left; reflexivity | reflexivity].
    + intros Hnd x Hx. inversion Hnd as [|? ? Hnotin Hnd']; subst.
      destruct (in_dec Z.eq_dec x l) as [Hin|Hout].
      * apply K2; assumption.
      * destruct Hx as [<-|Hx]; [|contradiction].
        exists k0. split; [exact Hk0|].
        rewrite K1.
        -- rewrite E0. apply upd_same.
        -- intros x' Hx' Heq. assert (x' = x0) by lia. subst. contradiction.
Qed.

Lemma set_v_fb : forall x q, framebuffer (set_v x q) = framebuffer q.
Proof. reflexivity. Qed.

Lemma render_scanline_fb : forall cart p,
  (forall i, (i < scanline p * 256 \/ scanline p * 256 + 256 <= i) ->
     framebuffer (render_scanline cart p) i = framebuffer p i) /\
  (forall x, 0 <= x < 256 -> exists k, 0 <= k < 64 /\
     framebuffer (render_scanline cart p) (scanline p * 256 + x) = nes_palette k).
Proof.
  intros cart p. unfold render_scanline. cbv zeta.
  match goal with |- context [fold_left (compose_pixel ?y ?bp ?bpal ?spr) ?l p] =>
    pose proof (compose_row_fb y bp bpal spr l p) as K;
    generalize dependent (fold_left (compose_pixel y bp bpal spr) l p)
  end.
  intros q [K1 K2]. rewrite !set_v_fb. split.
  - intros i Hi. apply K1. intros x Hx. apply zrange_mem in Hx. lia.
  - intros x Hx. apply K2; [apply zrange_NoDup | apply zrange_mem; lia].
Qed.

Lemma advance_fb : forall q, framebuffer (advance q) = framebuffer q.
Proof.
  intro q. unfold advance. cbv zeta. cbn [cycle set_cycle scanline set_scanline].
  destruct (cycle q + 1 >? 340); [|reflexivity].
  destruct (scanline q + 1 >? 260); reflexivity.
Qed.

(** X16.  One [ppu_step] draws at most one row of the picture: whatever it
    changes in the framebuffer lies in the 256 pixels of row [scanline]; it
    changes nothing at all outside cycle 0 of the visible lines 0-239 or
    with rendering disabled; and when it does render, every pixel of the
    row is inside the 256 x 240 framebuffer and holds one of the 64 colours
    of [nes_palette]. *)
Theorem ppu_step_draws_one_row : forall (cart : cartridge_t) (p : ppu_t),
  let q := snd (ppu_step cart p) in
  (forall i, (i < scanline p * 256 \/ scanline p * 256 + 256 <= i) ->
     framebuffer q i = framebuffer p i) /\
  ((scanline p < 0 \/ 240 <= scanline p \/ cycle p <> 0 \/ Z.land (mask p) 0x18 = 0) ->
     framebuffer q = framebuffer p) /\
  (0 <= scanline p < 240 -> cycle p = 0 -> Z.land (mask p) 0x18 <> 0 ->
     forall x, 0 <= x < 256 ->
       0 <= scanline p * 256 + x < NES_WIDTH * NES_HEIGHT /\
       exists k, 0 <= k < 64 /\
         framebuffer q (scanline p * 256 + x) = nes_palette k).
Proof.
  intros cart p. cbv zeta. unfold ppu_step. cbv zeta. cbn [snd].
  destruct (render_scanline_fb cart p) as [R1 R2].
  destruct (Z.eqb_spec (scanline p) (-1)) as [E|E].
  - cbn [snd]. rewrite advance_fb.
    assert (F : forall q0, framebuffer
              (if negb (Z.land (mask p) 24 =? 0) && (cycle q0 >=? 280) && (cycle q0 <=? 304)
               then set_v (u16 (Z.lor (Z.land (v q0) (Z.lnot 31712)) (Z.land (t q0) 31712))) q0
               else q0) = framebuffer q0).
    { intro q0. destruct (_ && _ && _); reflexivity. }
    rewrite F. destruct (cycle p =? 1); cbn [framebuffer set_status set_nmi_occurred];
      (split; [reflexivity|]; split; [reflexivity|]; intros; lia).
  - destruct (Z.geb_spec (scanline p) 0) as [G|G];
    destruct (Z.ltb_spec (scanline p) 240) as [L|L]; cbn [andb].
    + destruct (Z.eqb_spec (cycle p) 0) as [C|C]; cbn [andb].
      * destruct (Z.eqb_spec (Z.land (mask p) 24) 0) as [M|M]; cbn [negb snd];
          rewrite advance_fb.
        -- split; [reflexivity|]. split; [reflexivity|]. intros; lia.
        -- split; [exact R1|]. split; [intros; lia|].
           intros _ _ _ x Hx. split; [unfold NES_WIDTH, NES_HEIGHT; lia | apply R2; exact Hx].
      * cbn [snd]. rewrite advance_fb.
        split; [reflexivity|]. split; [reflexivity|]. intros; lia.
    + destruct ((scanline p =? 241) && (cycle p =? 1)); cbn [snd]; rewrite advance_fb;
        cbn [framebuffer set_status set_nmi_occurred];
        (split; [reflexivity|]; split; [reflexivity|]; intros; lia).
    + destruct ((scanline p =? 241) && (cycle p =? 1)); cbn [snd]; rewrite advance_fb;
        cbn [framebuffer set_status set_nmi_occurred];
        (split; [reflexivity|]; split; [reflexivity|]; intros; lia).
    + destruct ((scanline p =? 241) && (cycle p =? 1)); cbn [snd]; rewrite advance_fb;
        cbn [framebuffer set_status set_nmi_occurred];
        (split; [reflexivity|]; split; [reflexivity|]; intros; lia).
Qed.

End RenderFacts.


(* ===================================================================== *)
(** * What the handlers leave alone in the bus object *)
(* ===================================================================== *)

Section CtxRules.

Import Cpu6502 Dispatch.

Context {B : Type} (bus : bus_t B).
Context {X : Type} (obs : B -> X).
Hypothesis bus_ok : bus_keeps bus obs.

Lemma ctx_ret {A} (v : A) : keeps_ctx (B:=B) obs (ret v).
Proof. intro s. reflexivity. Qed.

Lemma ctx_bind {A C} (m : @M B A) (f : A -> @M B C) :
  keeps_ctx obs m -> (forall v, keeps_ctx obs (f v)) -> keeps_ctx obs (bind m f).
Proof. intros Hm Hf s. unfold bind. cbv zeta. rewrite Hf. apply Hm. Qed.

Lemma ctx_gets {A} (f : cpu6502_t -> A) : keeps_ctx (B:=B) obs (gets f).
Proof. intro s. reflexivity. Qed.

Lemma ctx_modify (f : cpu6502_t -> cpu6502_t) : keeps_ctx (B:=B) obs (modify f).
Proof. intro s. reflexivity. Qed.

Lemma ctx_call {A} (f : cpu6502_t -> A * cpu6502_t) : keeps_ctx (B:=B) obs (call f).
Proof. intro s. reflexivity. Qed.

Lemma ctx_read addr : keeps_ctx obs (cpu_read bus addr).
Proof. intro s. unfold cpu_read. cbn [fst snd]. apply (proj1 bus_ok). Qed.

Lemma ctx_write addr val : keeps_ctx obs (cpu_write bus addr val).
Proof. intro s. unfold cpu_write. cbn [fst snd]. apply (proj2 bus_ok). Qed.

End CtxRules.

Ltac ctx_step ok :=
  lazymatch goal with
  | |- Dispatch.keeps_ctx _ (Cpu6502.bind _ _) => apply ctx_bind; [| intro]
  | |- Dispatch.keeps_ctx _ (Cpu6502.ret _) => apply ctx_ret
  | |- Dispatch.keeps_ctx _ (Cpu6502.gets _) => apply ctx_gets
  | |- Dispatch.keeps_ctx _ (Cpu6502.cpu_read _ _) => apply ctx_read; exact ok
  | |- Dispatch.keeps_ctx _ (Cpu6502.cpu_write _ _ _) => apply ctx_write; exact ok
  | |- Dispatch.keeps_ctx _ (Cpu6502.modify _) => apply ctx_modify
  | |- Dispatch.keeps_ctx _ (Cpu6502.call _) => apply ctx_call
  | |- Dispatch.keeps_ctx _ (if ?b then _ else _) => destruct b
  | |- Dispatch.keeps_ctx _ (let _ := _ in _) => cbv zeta
  | |- Dispatch.keeps_ctx _ ?m => let h := head_of m in unfold h
  end.

Ltac ctx_tac ok := repeat ctx_step ok.

Section CtxTable.

Import Cpu6502 Dispatch.

Context {B : Type} (bus : bus_t B).
Context {X : Type} (obs : B -> X).
Hypothesis bus_ok : bus_keeps bus obs.

Lemma opcode_table_ctx : Forall (keeps_ctx obs) (opcode_table bus).
Proof.
  unfold opcode_table.
  repeat (apply Forall_cons; [solve [ctx_tac bus_ok]|]).
  apply Forall_nil.
Qed.

Lemma opcode_fn_ctx : forall opcode, keeps_ctx obs (opcode_fn bus opcode).
Proof.
  intro opcode. unfold opcode_fn.
  pose proof opcode_table_ctx as H. rewrite Forall_forall in H.
  destruct (Nat.lt_ge_cases (Z.to_nat opcode) (length (opcode_table bus))) as [Hl|Hl].
  - apply H. apply nth_In. exact Hl.
  - rewrite nth_overflow by exact Hl. ctx_tac bus_ok.
Qed.

Lemma cpu6502_step_ctx : keeps_ctx obs (cpu6502_step bus).
Proof.
  unfold cpu6502_step. apply ctx_bind; [apply ctx_gets|]. intros [|]; [apply ctx_ret|].
  apply ctx_bind; [apply ctx_modify|]. intros _.
  apply ctx_bind; [ctx_tac bus_ok|]. intro opcode.
  apply ctx_bind; [apply ctx_modify|]. intros _. apply opcode_fn_ctx.
Qed.

Lemma cpu6502_nmi_ctx : keeps_ctx obs (cpu6502_nmi bus).
Proof. ctx_tac bus_ok. Qed.

Lemma cpu6502_irq_ctx : keeps_ctx obs (cpu6502_irq bus).
Proof. ctx_tac bus_ok. Qed.

Lemma cpu6502_reset_ctx : keeps_ctx obs (cpu6502_reset bus).
Proof. ctx_tac bus_ok. Qed.

End CtxTable.


(* ===================================================================== *)
(** * The system: frame loop, OAM DMA and the cartridge ROM *)
(* ===================================================================== *)

Section SystemFacts.

Import Cpu6502 Cartridge Ppu Nes Raster Dispatch System.

Ltac split_ifs :=
  repeat match goal with |- context [if ?b then _ else _] => destruct b end.

Lemma ppu_cpu_write_counters : forall cart p addr val,
  counters (fst (ppu_cpu_write cart p addr val)) = counters p.
Proof.
  intros. unfold ppu_cpu_write, ppu_bus_write, increment_v. cbv zeta.
  split_ifs; reflexivity.
Qed.

Lemma ppu_cpu_read_counters : forall cart p addr,
  counters (snd (ppu_cpu_read cart p addr)) = counters p.
Proof.
  intros. unfold ppu_cpu_read, increment_v. cbv zeta. split_ifs; reflexivity.
Qed.

Lemma cartridge_chr_write_rom : forall c addr val,
  rom_image (cartridge_chr_write c addr val) = rom_image c.
Proof. intros. unfold cartridge_chr_write. split_ifs; reflexivity. Qed.

Lemma ppu_cpu_write_rom : forall cart p addr val,
  rom_image (snd (ppu_cpu_write cart p addr val)) = rom_image cart.
Proof.
  intros. unfold ppu_cpu_write, ppu_bus_write. cbv zeta.
  split_ifs; cbn [snd]; rewrite ?cartridge_chr_write_rom; reflexivity.
Qed.

Lemma nes_bus_position : bus_keeps nes_bus position.
Proof.
  split.
  - intros nes addr. unfold position. cbn [read nes_bus]. unfold nes_bus_read.
    split_ifs; cbn [snd ppu set_ppu set_controller_shift];
      rewrite ?ppu_cpu_read_counters; reflexivity.
  - intros nes addr val. unfold position. cbn [write nes_bus]. unfold nes_bus_write.
    split_ifs; cbn [ppu set_ppu set_cart set_ram set_dma_page set_dma_pending
                    set_controller_strobe set_controller_shift];
      rewrite ?ppu_cpu_write_counters; reflexivity.
Qed.

Lemma nes_bus_rom : bus_keeps nes_bus (fun nes => rom_image (cart nes)).
Proof.
  split.
  - intros nes addr. cbn [read nes_bus]. unfold nes_bus_read.
    split_ifs; reflexivity.
  - intros nes addr val. cbn [write nes_bus]. unfold nes_bus_write.
    split_ifs; cbn [cart set_ppu set_cart set_ram set_dma_page set_dma_pending
                    set_controller_strobe set_controller_shift];
      rewrite ?ppu_cpu_write_rom; reflexivity.
Qed.


(** *** The PPU clocked from the frame loop *)

Lemma halted_nmi : forall m, halted (fst (snd (cpu6502_nmi nes_bus m))) = halted (fst m).
Proof.
  assert (K : Timing.keeps (B:=nes_t) halted (cpu6502_nmi nes_bus)) by keeps_tac.
  exact K.
Qed.

(** One [ppu_tick] moves the raster one dot on and leaves [halted]. *)
Lemma ppu_tick_dot : forall m, in_raster (ppu (snd m)) ->
  let m' := ppu_tick m in
  in_raster (ppu (snd m')) /\
  dot (ppu (snd m')) = (dot (ppu (snd m)) + 1) mod DOTS_PER_FRAME /\
  frame (ppu (snd m')) =
    (if dot (ppu (snd m)) =? DOTS_PER_FRAME - 1
     then u64 (frame (ppu (snd m)) + 1) else frame (ppu (snd m))) /\
  halted (fst m') = halted (fst m).
Proof.
  intros [c nes] H. cbn [fst snd] in H. cbv zeta. unfold ppu_tick. cbn [fst snd].
  destruct (ppu_step_dot (cart nes) (ppu nes) H) as (R & D & F & _).
  cbv zeta in R, D, F.
  set (p' := snd (ppu_step (cart nes) (ppu nes))) in *.
  assert (P : position (set_ppu p' nes) = counters p') by reflexivity.
  destruct (fst (ppu_step (cart nes) (ppu nes))).
  - pose proof (cpu6502_nmi_ctx nes_bus position nes_bus_position (c, set_ppu p' nes)) as K.
    cbn [snd] in K. rewrite P in K. unfold position in K.
    destruct (counters_raster p' _ K) as (Rq & Dq & Fq).
    rewrite Dq, Fq, halted_nmi. cbn [fst]. tauto.
  - cbn [fst snd ppu set_ppu]. tauto.
Qed.

Lemma ppu_ticks_succ : forall n m, ppu_ticks (S n) m = ppu_ticks n (ppu_tick m).
Proof. intros. unfold ppu_ticks. apply Nat.iter_succ_r. Qed.

Lemma ppu_ticks_dot : forall n m, in_raster (ppu (snd m)) ->
  let m' := ppu_ticks n m in
  in_raster (ppu (snd m')) /\
  dot (ppu (snd m')) = (dot (ppu (snd m)) + Z.of_nat n) mod DOTS_PER_FRAME /\
  frame (ppu (snd m')) =
    (if dot (ppu (snd m)) + Z.of_nat n <? DOTS_PER_FRAME then frame (ppu (snd m))
     else u64 (frame (ppu (snd m))
               + (dot (ppu (snd m)) + Z.of_nat n) / DOTS_PER_FRAME)) /\
  halted (fst m') = halted (fst m).
Proof.
  induction n as [|n IH]; intros m H; cbv zeta.
  - pose proof (dot_range _ H) as Hd. change (ppu_ticks 0 m) with m.
    rewrite Z.add_0_r. rewrite Z.mod_small by exact Hd.
    destruct (Z.ltb_spec (dot (ppu (snd m))) DOTS_PER_FRAME); [auto | lia].
  - rewrite ppu_ticks_succ.
    destruct (ppu_tick_dot m H) as (R & D & F & Hh). cbv zeta in R, D, F, Hh.
    destruct (IH _ R) as (R' & D' & F' & Hh'). cbv zeta in R', D', F', Hh'.
    pose proof (dot_range _ H) as Hd.
    split; [exact R'|]. rewrite D', F', Hh', D, F, Hh.
    set (d := dot (ppu (snd m))) in *. set (f := frame (ppu (snd m))) in *.
    replace (d + Z.of_nat (S n)) with (d + 1 + Z.of_nat n) by lia.
    split; [apply Zplus_mod_idemp_l|]. split; [|reflexivity].
    unfold DOTS_PER_FRAME in *. change (341 * 262) with 89342 in *.
    change (89342 - 1) with 89341.
    destruct (Z.eqb_spec d 89341) as [E|E].
    + rewrite E. change ((89341 + 1) mod 89342) with 0.
      destruct (Z.ltb_spec (89341 + 1 + Z.of_nat n) 89342); [lia|].
      replace (89341 + 1 + Z.of_nat n) with (Z.of_nat n + 1 * 89342) by lia.
      rewrite Z.div_add by lia. cbn [Z.add].
      destruct (Z.ltb_spec (Z.of_nat n) 89342).
      * rewrite Z.div_small by lia. f_equal; lia.
      * rewrite u64_add_l. f_equal; lia.
    + rewrite Z.mod_small by lia. reflexivity.
Qed.


(** *** One iteration of the frame loop *)

Lemma dma_copy_position : forall l nes,
  position (fold_left dma_copy_byte l nes) = position nes.
Proof.
  induction l as [|i l IH]; intro nes; [reflexivity|].
  cbn [fold_left]. rewrite IH. unfold dma_copy_byte. cbv zeta.
  unfold set_oam_byte, position. cbn [ppu set_ppu].
  change (counters (set_oam ?o ?p)) with (counters p).
  apply (proj1 nes_bus_position).
Qed.

Lemma position_set_dma_pending : forall b nes,
  position (set_dma_pending b nes) = position nes.
Proof. reflexivity. Qed.

Lemma u64_elapsed : forall c k, 0 <= k < 18446744073709551616 ->
  u64 (u64 (c + k) - c) = k.
Proof.
  intros c k Hk. unfold u64. rewrite Zminus_mod_idemp_l.
  replace (c + k - c) with k by lia. apply Z.mod_small. exact Hk.
Qed.

Lemma body_dma : forall c nes, dma_pending nes = true ->
  nes_step_frame_body (c, nes) =
  let nes1 := set_dma_pending false (fold_left dma_copy_byte (zrange 256) nes) in
  let m := ppu_ticks (Z.to_nat 1542) (c, nes1) in
  (set_cycles (u64 (cycles (fst m) + 514)) (fst m), snd m).
Proof.
  intros c nes H. unfold nes_step_frame_body. cbn [fst snd]. rewrite H. reflexivity.
Qed.

Lemma body_cpu : forall c nes, dma_pending nes = false ->
  nes_step_frame_body (c, nes) =
  let m := snd (cpu6502_step nes_bus (c, nes)) in
  ppu_ticks (Z.to_nat (u64 (u64 (cycles (fst m) - cycles c) * 3))) m.
Proof.
  intros c nes H. unfold nes_step_frame_body. cbn [fst snd]. rewrite H. reflexivity.
Qed.

(** An iteration that does not end with the cpu halted clocks the PPU by
    at least 6 and at most 1542 dots. *)
Lemma body_progress : forall m, in_raster (ppu (snd m)) ->
  halted (fst (nes_step_frame_body m)) = false ->
  exists T, 6 <= T <= 1542 /\
    in_raster (ppu (snd (nes_step_frame_body m))) /\
    dot (ppu (snd (nes_step_frame_body m)))
      = (dot (ppu (snd m)) + T) mod DOTS_PER_FRAME /\
    frame (ppu (snd (nes_step_frame_body m))) =
      (if dot (ppu (snd m)) + T <? DOTS_PER_FRAME then frame (ppu (snd m))
       else u64 (frame (ppu (snd m)) + 1)).
Proof.
  intros [c nes] H Hh. cbn [fst snd] in H.
  pose proof (dot_range _ H) as Hd.
  assert (Hq : forall T, 6 <= T <= 1542 ->
            (if dot (ppu nes) + T <? DOTS_PER_FRAME then frame (ppu nes)
             else u64 (frame (ppu nes) + (dot (ppu nes) + T) / DOTS_PER_FRAME))
            = (if dot (ppu nes) + T <? DOTS_PER_FRAME then frame (ppu nes)
               else u64 (frame (ppu nes) + 1))).
  { intros T HT. destruct (Z.ltb_spec (dot (ppu nes) + T) DOTS_PER_FRAME);
      [reflexivity|].
    unfold DOTS_PER_FRAME in *. change (341 * 262) with 89342 in *.
    replace ((dot (ppu nes) + T) / 89342) with 1; [reflexivity|].
    apply Z.div_unique with (r := dot (ppu nes) + T - 89342); lia. }
  destruct (dma_pending nes) eqn:Edma.
  - rewrite body_dma in * by exact Edma. cbv zeta in *.
    exists 1542. split; [lia|].
    set (nes1 := set_dma_pending false (fold_left dma_copy_byte (zrange 256) nes)) in *.
    assert (P : position nes1 = position nes).
    { unfold nes1. rewrite position_set_dma_pending. apply dma_copy_position. }
    unfold position in P. destruct (counters_raster _ _ P) as (R1 & D1 & F1).
    assert (En : Z.of_nat (Z.to_nat 1542) = 1542) by (apply Z2Nat.id; lia).
    generalize dependent (Z.to_nat 1542). intros n Hh En.
    destruct (ppu_ticks_dot n (c, nes1)) as (R & D & F & _);
      [cbn [snd]; tauto|].
    cbv zeta in R, D, F. cbn [fst snd] in R, D, F |- *.
    rewrite D1, F1, En in *.
    rewrite Hq in F by lia. auto.
  - rewrite body_cpu in * by exact Edma. cbv zeta in *.
    destruct (halted c) eqn:Hc.
    { exfalso. rewrite cpu6502_step_halted in Hh by exact Hc.
      cbn [fst snd] in Hh. rewrite Z.sub_diag in Hh.
      change (ppu_ticks (Z.to_nat (u64 (u64 0 * 3))) (c, nes)) with (c, nes) in Hh.
      cbn [fst] in Hh. congruence. }
    pose proof (cpu6502_step_ctx nes_bus position nes_bus_position (c, nes)) as P.
    cbn [snd] in P.
    destruct (step_outcome nes_bus c nes Hc) as (E & _ & Hleg). cbv zeta in E, Hleg.
    pose proof (cpu6502_step_cycles_mod nes_bus c nes Hc) as Ec. cbv zeta in Ec.
    set (m1 := snd (cpu6502_step nes_bus (c, nes))) in *.
    set (op := u8 (fst (read nes_bus nes (pc c)))) in *.
    pose proof (extra_observed_range op c (fst m1)) as Hx.
    unfold position in P. destruct (counters_raster _ _ P) as (R1 & D1 & F1).
    set (n := Z.to_nat (u64 (u64 (cycles (fst m1) - cycles c) * 3))) in *.
    destruct (ppu_ticks_dot n m1 (proj2 R1 H)) as (R & D & F & Hk).
    cbv zeta in R, D, F, Hk.
    rewrite Hk, E in Hh.
    specialize (Hleg Hh).
    assert (En : Z.of_nat n
                 = 3 * (opcode_cycles op + Timing.extra_observed op c (fst m1))).
    { unfold n. rewrite Ec, <- Z.add_assoc.
      rewrite u64_elapsed by lia. rewrite u64_small by lia. lia. }
    exists (Z.of_nat n). split; [lia|].
    rewrite D1, F1 in *. rewrite Hq in F by lia. auto.
Qed.

Lemma loop_leaves : forall fuel start m,
  frame (ppu (snd m)) <> start -> nes_step_frame_loop fuel start m = Some m.
Proof.
  intros fuel start m H. apply Z.eqb_neq in H.
  destruct fuel; cbn [nes_step_frame_loop]; rewrite H; reflexivity.
Qed.

Lemma u64_succ_neq : forall f, u64 (f + 1) <> f.
Proof.
  intros f E. unfold u64 in E.
  pose proof (Z.mod_pos_bound (f + 1) 18446744073709551616).
  destruct (Z.eq_dec (f + 1) 18446744073709551616) as [E1|E1].
  - rewrite E1 in E. cbn in E. lia.
  - rewrite Z.mod_small in E by lia. lia.
Qed.

Lemma iterations_succ : forall k m,
  iterations (S k) m = iterations k (nes_step_frame_body m).
Proof. intros. unfold iterations. apply Nat.iter_succ_r. Qed.

Lemma loop_progress : forall fuel m start,
  in_raster (ppu (snd m)) -> frame (ppu (snd m)) = start ->
  DOTS_PER_FRAME - dot (ppu (snd m)) <= 6 * Z.of_nat fuel - 6 ->
  (exists r, nes_step_frame_loop fuel start m = Some r /\
             frame (ppu (snd r)) = u64 (start + 1) /\
             in_raster (ppu (snd r)) /\ dot (ppu (snd r)) < 1542) \/
  (exists k, (1 <= k <= fuel)%nat /\ halted (fst (iterations k m)) = true).
Proof.
  induction fuel as [|fuel IH]; intros m start H Hf Hd.
  - pose proof (dot_range _ H). lia.
  - cbn [nes_step_frame_loop]. rewrite Hf, Z.eqb_refl.
    destruct (halted (fst (nes_step_frame_body m))) eqn:Hh.
    { right. exists 1%nat. split; [lia | exact Hh]. }
    destruct (body_progress m H Hh) as (T & HT & R & D & F).
    pose proof (dot_range _ H) as Hr.
    unfold DOTS_PER_FRAME in *. change (341 * 262) with 89342 in *.
    destruct (Z.ltb_spec (dot (ppu (snd m)) + T) 89342) as [Hl|Hl].
    + rewrite Z.mod_small in D by lia.
      destruct (IH (nes_step_frame_body m) start R) as [Hret|(k & Hk & Hhk)];
        [congruence | lia | left; exact Hret |].
      right. exists (S k). split; [lia|]. rewrite iterations_succ. exact Hhk.
    + left. exists (nes_step_frame_body m).
      split; [apply loop_leaves; rewrite F, Hf; apply u64_succ_neq|].
      split; [rewrite F, Hf; reflexivity|]. split; [exact R|].
      rewrite D.
      replace (dot (ppu (snd m)) + T) with (dot (ppu (snd m)) + T - 89342 + 1 * 89342)
        by lia.
      rewrite Z.mod_add, Z.mod_small by lia. lia.
Qed.

(** X18.  The frame loop returns unless the cpu halts: from any system state
    with the PPU inside the raster, either [nes_step_frame] returns within
    14892 iterations, with the frame counter one higher and the PPU in the
    first 1542 dots of the new frame, or some iteration ended with the cpu
    halted. *)
Theorem frame_loop_returns_unless_halted : forall m : machine,
  in_raster (ppu (snd m)) ->
  (exists r, nes_step_frame (Z.to_nat 14892) m = Some r /\
             frame (ppu (snd r)) = u64 (frame (ppu (snd m)) + 1) /\
             in_raster (ppu (snd r)) /\ dot (ppu (snd r)) < 1542) \/
  (exists k, (1 <= k <= Z.to_nat 14892)%nat /\
             halted (fst (iterations k m)) = true).
Proof.
  intros m H. unfold nes_step_frame. apply loop_progress; [exact H | reflexivity|].
  pose proof (dot_range _ H). unfold DOTS_PER_FRAME in *. lia.
Qed.

(** *** OAM DMA *)

Lemma nes_bus_write_ram : forall nes addr val, addr < 0x2000 ->
  nes_bus_write nes addr val = set_ram (upd (ram nes) (Z.land addr 0x07FF) val) nes.
Proof.
  intros nes addr val H. unfold nes_bus_write.
  destruct (Z.ltb_spec addr 0x2000); [reflexivity | lia].
Qed.

Lemma nes_bus_read_ram : forall nes addr, addr < 0x2000 ->
  nes_bus_read nes addr = (ram nes (Z.land addr 0x07FF), nes).
Proof.
  intros nes addr H. unfold nes_bus_read.
  destruct (Z.ltb_spec addr 0x2000); [reflexivity | lia].
Qed.

(** With the stack pointer a byte, an NMI entry writes to RAM only. *)
Lemma nmi_dma_frame : forall c nes, 0 <= sp c < 256 ->
  dma_frame (snd (snd (cpu6502_nmi nes_bus (c, nes)))) = dma_frame nes /\
  0 <= sp (fst (snd (cpu6502_nmi nes_bus (c, nes)))) < 256.
Proof.
  intros c nes Hsp. destruct c as [a0 x0 y0 sp0 pc0 st0 cyc0 h0 pg0]. cbn [sp] in Hsp.
  unfold cpu6502_nmi, cpu_set_flag.
  cbv beta iota zeta delta
    [cpu_push16 cpu_push bind gets modify ret cpu_read cpu_write fst snd
     Cpu6502.pc Cpu6502.sp Cpu6502.status Cpu6502.cycles
     set_pc set_sp Cpu6502.set_status set_cycles read write nes_bus].
  pose proof (u8_range (sp0 - 1)). pose proof (u8_range (u8 (sp0 - 1) - 1)).
  pose proof (u8_range (u8 (u8 (sp0 - 1) - 1) - 1)).
  rewrite !nes_bus_write_ram by lia.
  change (nes_bus_read ?n 65530) with (cartridge_cpu_read (cart n) 65530, n).
  cbv beta iota.
  change (nes_bus_read ?n 65531) with (cartridge_cpu_read (cart n) 65531, n).
  cbv beta iota. split; [reflexivity | lia].
Qed.

Lemma ppu_tick_dma_frame : forall m, 0 <= sp (fst m) < 256 ->
  in_raster (ppu (snd m)) ->
  dma_frame (snd (ppu_tick m)) = dma_frame (snd m) /\
  0 <= sp (fst (ppu_tick m)) < 256.
Proof.
  intros [c nes] Hsp H. cbn [fst snd] in *. unfold ppu_tick. cbn [fst snd].
  destruct (ppu_step_dot (cart nes) (ppu nes) H) as (_ & _ & _ & S).
  cbv zeta in S.
  set (p' := snd (ppu_step (cart nes) (ppu nes))) in *.
  assert (E : dma_frame (set_ppu p' nes) = dma_frame nes).
  { unfold dma_frame. cbn [ppu set_ppu dma_pending dma_page].
    unfold cpu_side in S. congruence. }
  destruct (fst (ppu_step (cart nes) (ppu nes))).
  - destruct (nmi_dma_frame c (set_ppu p' nes) Hsp) as [F R].
    rewrite F, E. auto.
  - cbn [fst snd]. auto.
Qed.

Lemma ppu_ticks_dma_frame : forall n m, 0 <= sp (fst m) < 256 ->
  in_raster (ppu (snd m)) ->
  dma_frame (snd (ppu_ticks n m)) = dma_frame (snd m).
Proof.
  induction n as [|n IH]; intros m Hsp H; [reflexivity|].
  rewrite ppu_ticks_succ.
  destruct (ppu_tick_dma_frame m Hsp H) as [F R].
  destruct (ppu_tick_dot m H) as (R' & _).
  rewrite IH by assumption. exact F.
Qed.

(** The copy loop, for a page of RAM: the bytes copied so far are in OAM,
    nothing else has moved. *)
Lemma dma_copy_ram : forall l nes,
  0 <= dma_page nes < 0x20 -> (forall i, In i l -> 0 <= i < 256) ->
  let nes' := fold_left dma_copy_byte l nes in
  ram nes' = ram nes /\ dma_page nes' = dma_page nes /\
  dma_pending nes' = dma_pending nes /\
  counters (ppu nes') = counters (ppu nes) /\
  forall j, oam (ppu nes') j =
    if existsb (Z.eqb j) l
    then ram nes (Z.land (dma_page nes * 256 + j) 0x07FF)
    else oam (ppu nes) j.
Proof.
  induction l as [|i l IH]; intros nes Hp Hl; cbv zeta.
  - cbn [fold_left existsb]. auto.
  - cbn [fold_left].
    assert (Hi : 0 <= i < 256) by (apply Hl; left; reflexivity).
    assert (Es : Z.lor (u16 (Z.shiftl (dma_page nes) 8)) i = dma_page nes * 256 + i).
    { assert (Eu : u16 (Z.shiftl (dma_page nes) 8) = Z.shiftl (dma_page nes) 8).
      { rewrite Z.shiftl_mul_pow2 by lia. change (2 ^ 8) with 256.
        unfold u16. apply Z.mod_small. lia. }
      rewrite Eu, lor_shiftl_low by (change (2 ^ 8) with 256; lia).
      reflexivity. }
    assert (Ed : dma_copy_byte nes i
                 = set_oam_byte i (ram nes (Z.land (dma_page nes * 256 + i) 0x07FF)) nes).
    { unfold dma_copy_byte. cbv zeta. rewrite Es.
      rewrite nes_bus_read_ram by lia. reflexivity. }
    rewrite Ed.
    set (nes1 := set_oam_byte i (ram nes (Z.land (dma_page nes * 256 + i) 0x07FF)) nes).
    destruct (IH nes1) as (A & B & C & D & E);
      [exact Hp | intros k Hk; apply Hl; right; exact Hk |].
    cbv zeta in A, B, C, D, E. rewrite A, B, C, D.
    split; [reflexivity|]. split; [reflexivity|]. split; [reflexivity|].
    split; [reflexivity|].
    intro j. rewrite E. cbn [existsb].
    change (ram nes1) with (ram nes). change (dma_page nes1) with (dma_page nes).
    destruct (existsb (Z.eqb j) l); [rewrite orb_true_r; reflexivity|].
    rewrite orb_false_r. unfold nes1, set_oam_byte. cbn [ppu set_ppu oam set_oam].
    unfold upd. destruct (Z.eqb_spec j i) as [->|]; reflexivity.
Qed.

Lemma zrange_In : forall n i, In i (zrange n) <-> 0 <= i < Z.of_nat n.
Proof.
  intros n i. unfold zrange. rewrite in_map_iff. split.
  - intros (k & <- & Hk). apply in_seq in Hk. lia.
  - intro H. exists (Z.to_nat i). split; [lia | apply in_seq; lia].
Qed.

Lemma existsb_zrange : forall n j, 0 <= j < Z.of_nat n ->
  existsb (Z.eqb j) (zrange n) = true.
Proof.
  intros n j H. apply existsb_exists. exists j. split.
  - apply zrange_In. exact H.
  - apply Z.eqb_refl.
Qed.

Lemma dma_ticks_count : 1542%nat = Z.to_nat 1542.
Proof. lia. Qed.

Lemma snd_pair : forall (A B : Type) (u : A) (v : B), snd (u, v) = v.
Proof. reflexivity. Qed.

Lemma body_dma_nes : forall c nes, dma_pending nes = true ->
  snd (nes_step_frame_body (c, nes)) =
  snd (ppu_ticks (Z.to_nat 1542)
         (c, set_dma_pending false (fold_left dma_copy_byte (zrange 256) nes))).
Proof.
  intros c nes H. rewrite body_dma by exact H. cbv zeta. apply snd_pair.
Qed.

(** X19.  OAM DMA from RAM: the iteration of the frame loop that finds
    [dma_pending] set copies the 256 bytes of the RAM page [dma_page]
    (through the 2 KiB mirror) into OAM and clears [dma_pending]; the PPU
    is clocked 1542 dots meanwhile. *)
Theorem oam_dma_copies_page : forall (c : cpu6502_t) (nes : nes_t),
  dma_pending nes = true -> 0 <= dma_page nes < 0x20 ->
  0 <= sp c < 256 -> in_raster (ppu nes) ->
  let m' := nes_step_frame_body (c, nes) in
  dma_pending (snd m') = false /\
  (forall i, 0 <= i < 256 ->
     oam (ppu (snd m')) i = ram nes (Z.land (dma_page nes * 256 + i) 0x07FF)) /\
  dot (ppu (snd m')) = (dot (ppu nes) + 1542) mod DOTS_PER_FRAME.
Proof.
  intros c nes Hd Hp Hsp H. cbv zeta. rewrite body_dma_nes by exact Hd.
  destruct (dma_copy_ram (zrange 256) nes Hp) as (A & B & C & D & E).
  { intros i Hi. apply zrange_In in Hi. lia. }
  cbv zeta in A, B, C, D, E.
  generalize dependent (fold_left dma_copy_byte (zrange 256) nes).
  intros nes0 A B C D E.
  assert (R0 : in_raster (ppu nes0)).
  { destruct (counters_raster _ _ D) as (R & _). apply R. exact H. }
  assert (En : Z.of_nat (Z.to_nat 1542) = 1542) by (apply Z2Nat.id; lia).
  generalize dependent (Z.to_nat 1542). intros n En.
  pose proof (ppu_ticks_dma_frame n (c, set_dma_pending false nes0) Hsp R0) as F.
  destruct (ppu_ticks_dot n (c, set_dma_pending false nes0) R0) as (_ & Dd & _).
  cbv zeta in Dd. cbn [snd] in F, Dd. unfold dma_frame in F.
  injection F as F1 F2 F3.
  split; [exact F2|]. split.
  - intros i Hi. rewrite F1. cbn [ppu set_dma_pending].
    rewrite E, existsb_zrange by (change (Z.of_nat 256) with 256; lia). reflexivity.
  - rewrite Dd, En. destruct (counters_raster _ _ D) as (_ & Dq & _).
    cbn [ppu set_dma_pending]. rewrite Dq. reflexivity.
Qed.

(** *** The cartridge ROM never changes *)

Lemma ppu_tick_rom : forall m,
  rom_image (cart (snd (ppu_tick m))) = rom_image (cart (snd m)).
Proof.
  intros [c nes]. unfold ppu_tick. cbn [fst snd].
  destruct (fst (ppu_step (cart nes) (ppu nes))); [|reflexivity].
  rewrite (cpu6502_nmi_ctx nes_bus _ nes_bus_rom). reflexivity.
Qed.

Lemma ppu_ticks_rom : forall n m,
  rom_image (cart (snd (ppu_ticks n m))) = rom_image (cart (snd m)).
Proof.
  induction n as [|n IH]; intro m; [reflexivity|].
  rewrite ppu_ticks_succ, IH. apply ppu_tick_rom.
Qed.

Lemma dma_copy_rom : forall l nes,
  rom_image (cart (fold_left dma_copy_byte l nes)) = rom_image (cart nes).
Proof.
  induction l as [|i l IH]; intro nes; [reflexivity|].
  cbn [fold_left]. rewrite IH. unfold dma_copy_byte. cbv zeta.
  unfold set_oam_byte. cbn [cart set_ppu].
  apply (proj1 nes_bus_rom).
Qed.

Lemma cart_set_dma_pending : forall b nes, cart (set_dma_pending b nes) = cart nes.
Proof. reflexivity. Qed.

Lemma body_rom : forall m,
  rom_image (cart (snd (nes_step_frame_body m))) = rom_image (cart (snd m)).
Proof.
  intros [c nes]. rewrite (snd_pair _ _ c nes). destruct (dma_pending nes) eqn:Hd.
  - rewrite body_dma_nes by exact Hd.
    generalize (Z.to_nat 1542). intro n.
    rewrite ppu_ticks_rom, snd_pair, cart_set_dma_pending.
    apply dma_copy_rom.
  - rewrite body_cpu by exact Hd. cbv zeta. rewrite ppu_ticks_rom.
    pose proof (cpu6502_step_ctx nes_bus _ nes_bus_rom (c, nes)) as K.
    cbv beta in K. rewrite snd_pair in K. exact K.
Qed.

(** X20.  No program can change the cartridge ROM: PRG ROM, CHR ROM and the
    header fields are the same after any number of iterations of the frame
    loop, so every read of cartridge space returns what it returned
    before. *)
Theorem rom_is_read_only : forall (n : nat) (m : machine),
  rom_image (cart (snd (iterations n m))) = rom_image (cart (snd m)) /\
  forall addr,
    cartridge_cpu_read (cart (snd (iterations n m))) addr
    = cartridge_cpu_read (cart (snd m)) addr.
Proof.
  intros n m.
  assert (E : rom_image (cart (snd (iterations n m))) = rom_image (cart (snd m))).
  { induction n as [|n IH]; [reflexivity|].
    change (iterations (S n) m) with (nes_step_frame_body (iterations n m)).
    rewrite body_rom. exact IH. }
  split; [exact E|]. intro addr. unfold rom_image in E.
  injection E as E1 E2 E3 E4 E5 E6. unfold cartridge_cpu_read. rewrite E1, E3.
  reflexivity.
Qed.

End SystemFacts.

Lemma frame_loop_returns_unless_halted_witness :
  Raster.in_raster (Nes.ppu (snd Examples.ctrl_write_machine)) /\
  ((exists r, Nes.nes_step_frame (Z.to_nat 14892) Examples.ctrl_write_machine = Some r /\
              Ppu.frame (Nes.ppu (snd r))
                = u64 (Ppu.frame (Nes.ppu (snd Examples.ctrl_write_machine)) + 1) /\
              Raster.in_raster (Nes.ppu (snd r)) /\
              Raster.dot (Nes.ppu (snd r)) < 1542) \/
   (exists k, (1 <= k <= Z.to_nat 14892)%nat /\
              Cpu6502.halted (fst (System.iterations k Examples.ctrl_write_machine))
                = true)).
Proof.
  assert (R : Raster.in_raster (Nes.ppu (snd Examples.ctrl_write_machine)))
    by (split; cbn; lia).
  split; [exact R|].
  exact (frame_loop_returns_unless_halted Examples.ctrl_write_machine R).
Defined.

Lemma oam_dma_copies_page_witness :
  Nes.dma_pending Samples.dma_nes = true /\
  0 <= Nes.dma_page Samples.dma_nes < 0x20 /\
  0 <= Cpu6502.sp (Samples.cpu_at 0x0600) < 256 /\
  Raster.in_raster (Nes.ppu Samples.dma_nes) /\
  Ppu.oam (Nes.ppu (snd (Nes.nes_step_frame_body
                            (Samples.cpu_at 0x0600, Samples.dma_nes)))) 5 = 0x77.
Proof.
  assert (D : Nes.dma_pending Samples.dma_nes = true) by reflexivity.
  assert (P : 0 <= Nes.dma_page Samples.dma_nes < 0x20) by (cbn; lia).
  assert (S : 0 <= Cpu6502.sp (Samples.cpu_at 0x0600) < 256) by (cbn; lia).
  assert (R : Raster.in_raster (Nes.ppu Samples.dma_nes)) by (split; cbn; lia).
  split; [exact D|]. split; [exact P|]. split; [exact S|]. split; [exact R|].
  destruct (oam_dma_copies_page (Samples.cpu_at 0x0600) Samples.dma_nes D P S R)
    as (_ & E & _).
  rewrite (E 5) by lia. reflexivity.
Defined.

(* ===================================================================== *)
(** * Work RAM, PPU ports and PPU bus: what is written is what is read *)
(* ===================================================================== *)

Section PortFacts.
Import Cartridge Ppu Nes Ports.

(** *** Work RAM *)

Lemma land_7FF : forall a, Z.land a 0x07FF = a mod 2048.
Proof. intro a. change 0x07FF with (Z.ones 11). rewrite Z.land_ones by lia. reflexivity. Qed.

(** X21.  The 2 KiB of work RAM are seen four times in $0000-$1FFF: a byte
    written at one address reads back at every address congruent modulo
    $800, and at no other; the write touches nothing but RAM. *)
Theorem ram_mirrors : forall (nes : nes_t) (a a' v : Z),
  0 <= a < 0x2000 -> 0 <= a' < 0x2000 ->
  let nes' := nes_bus_write nes a v in
  fst (nes_bus_read nes' a') =
    (if a' mod 2048 =? a mod 2048 then v else fst (nes_bus_read nes a')) /\
  snd (nes_bus_read nes' a') = nes' /\
  nes' = set_ram (ram nes') nes.
Proof.
  intros nes a a' v Ha Ha'. cbv zeta. unfold nes_bus_write, nes_bus_read.
  destruct (Z.ltb_spec a 0x2000); [|lia]. destruct (Z.ltb_spec a' 0x2000); [|lia].
  cbn [fst snd ram set_ram]. rewrite !land_7FF. unfold upd.
  split; [reflexivity|]. split; reflexivity.
Qed.

(** *** PPUADDR / PPUDATA *)

Lemma land_lor_FF00 : forall tt hi,
  Z.land (Z.lor (Z.land tt 0x00FF) (Z.shiftl (Z.land hi 0x3F) 8)) 0xFF00
  = Z.shiftl (Z.land hi 0x3F) 8.
Proof.
  intros tt hi. apply Z.bits_inj'. intros n Hn.
  rewrite Z.land_spec, Z.lor_spec, Z.land_spec.
  destruct (Z.lt_ge_cases n 8).
  - rewrite Z.shiftl_spec_low by lia.
    replace (Z.testbit 0xFF00 n) with false; [apply andb_false_r|].
    symmetry. change 0xFF00 with (Z.shiftl 0xFF 8). apply Z.shiftl_spec_low. lia.
  - replace (Z.testbit 0x00FF n) with false
      by (symmetry; apply (testbit_small 0xFF 8 n); [change (2 ^ 8) with 256; lia | lia]).
    rewrite andb_false_r. cbn [orb].
    destruct (Z.lt_ge_cases n 16).
    + replace (Z.testbit 0xFF00 n) with true; [apply andb_true_r|].
      symmetry. change 0xFF00 with (Z.shiftl 0xFF 8). rewrite Z.shiftl_spec by lia.
      change 0xFF with (Z.ones 8). apply Z.ones_spec_low. lia.
    + rewrite Z.shiftl_spec by lia. rewrite Z.land_spec.
      replace (Z.testbit 0x3F (n - 8)) with false
        by (symmetry; apply (testbit_small 0x3F 6); [change (2 ^ 6) with 64; lia | lia]).
      rewrite andb_false_r. reflexivity.
Qed.

(** *** The registers one by one *)

Lemma nes_ppu_write : forall nes addr val, 0x2000 <= addr < 0x4000 ->
  nes_bus_write nes addr val =
  set_cart (snd (ppu_cpu_write (cart nes) (ppu nes) (Z.land addr 0x0007) val))
           (set_ppu (fst (ppu_cpu_write (cart nes) (ppu nes) (Z.land addr 0x0007) val))
                    nes).
Proof.
  intros nes addr val H. unfold nes_bus_write.
  destruct (Z.ltb_spec addr 0x2000); [lia|].
  destruct (Z.ltb_spec addr 0x4000); [reflexivity | lia].
Qed.

Lemma nes_ppu_read : forall nes addr, 0x2000 <= addr < 0x4000 ->
  nes_bus_read nes addr =
  (fst (ppu_cpu_read (cart nes) (ppu nes) (Z.land addr 0x0007)),
   set_ppu (snd (ppu_cpu_read (cart nes) (ppu nes) (Z.land addr 0x0007))) nes).
Proof.
  intros nes addr H. unfold nes_bus_read.
  destruct (Z.ltb_spec addr 0x2000); [lia|].
  destruct (Z.ltb_spec addr 0x4000); [reflexivity | lia].
Qed.

Lemma ppu_read_status : forall cart p,
  ppu_cpu_read cart p 2 =
  ((if nmi_occurred p then Z.lor (Z.land (status p) 0xE0) 0x80
    else Z.land (status p) 0xE0),
   set_w false (set_nmi_occurred false p)).
Proof. reflexivity. Qed.

Lemma ppu_write_addr : forall cart p val,
  ppu_cpu_write cart p 6 val =
  if w p
  then (set_w false (set_v (Z.lor (Z.land (t p) 0xFF00) val)
                       (set_t (Z.lor (Z.land (t p) 0xFF00) val) p)), cart)
  else (set_w true (set_t (Z.lor (Z.land (t p) 0x00FF)
                                 (Z.shiftl (Z.land val 0x3F) 8)) p), cart).
Proof.
  intros. unfold ppu_cpu_write. change (Z.land 6 7) with 6. cbn [Z.eqb Pos.eqb].
  destruct (w p); reflexivity.
Qed.

Lemma ppu_write_data : forall cart p val,
  ppu_cpu_write cart p 7 val =
  (increment_v (fst (ppu_bus_write cart p (v p) val)),
   snd (ppu_bus_write cart p (v p) val)).
Proof. reflexivity. Qed.

Lemma ppu_read_data : forall cart p,
  ppu_cpu_read cart p 7 =
    (if v p <? 0x3F00 then data_buf p else ppu_bus_read cart p (v p),
     increment_v
       (set_data_buf
          (ppu_bus_read cart p (if v p <? 0x3F00 then v p else v p - 0x1000)) p)).
Proof. intros. apply ppu_cpu_read_data. reflexivity. Qed.

Lemma ppu_write_oam_addr : forall cart p val,
  ppu_cpu_write cart p 3 val = (set_oam_addr val p, cart).
Proof. reflexivity. Qed.

Lemma ppu_write_oam_data : forall cart p val,
  ppu_cpu_write cart p 4 val =
  (set_oam_addr (u8 (oam_addr p + 1)) (set_oam (upd (oam p) (oam_addr p) val) p), cart).
Proof. reflexivity. Qed.

Lemma ppu_read_oam_data : forall cart p,
  ppu_cpu_read cart p 4 = (oam p (oam_addr p), p).
Proof. reflexivity. Qed.

(** After the address protocol [v] and [t] hold the selected address and
    the write toggle is clear, whatever the toggle was before; nothing else
    has moved but [nmi_occurred], cleared by the status read. *)
Lemma set_vram_addr_ppu : forall nes hi lo,
  set_vram_addr nes hi lo =
  set_ppu (set_w false
             (set_v (vram_addr hi lo)
                (set_t (vram_addr hi lo) (set_nmi_occurred false (ppu nes))))) nes.
Proof.
  intros nes hi lo. unfold set_vram_addr. cbv zeta.
  rewrite nes_ppu_read by lia. change (Z.land 0x2002 7) with 2.
  rewrite ppu_read_status. cbn [fst snd].
  rewrite nes_ppu_write by lia. change (Z.land 0x2006 7) with 6.
  rewrite ppu_write_addr. cbn [ppu set_ppu cart w set_w fst snd].
  rewrite nes_ppu_write by lia. change (Z.land 0x2006 7) with 6.
  rewrite ppu_write_addr. cbn [ppu set_ppu cart set_cart w set_w fst snd t set_t].
  rewrite land_lor_FF00. destruct nes as [p c r k ks st dp dg da dd sc].
  destruct p. reflexivity.
Qed.


Lemma land_3FFF_small : forall a, 0 <= a < 0x4000 -> Z.land a 0x3FFF = a.
Proof.
  intros a H. change 0x3FFF with (Z.ones 14). rewrite Z.land_ones by lia.
  apply Z.mod_small. exact H.
Qed.

Lemma ppu_bus_write_nt : forall cart p a b, 0x2000 <= a < 0x3F00 ->
  ppu_bus_write cart p a b =
  (set_nametable (upd (nametable p) (nametable_index cart a) b) p, cart).
Proof.
  intros cart p a b H. unfold ppu_bus_write. rewrite land_3FFF_small by lia.
  destruct (Z.ltb_spec a 0x2000); [lia|].
  destruct (Z.ltb_spec a 0x3F00); [reflexivity | lia].
Qed.

Lemma ppu_bus_read_nt : forall cart p a, 0x2000 <= a < 0x3F00 ->
  ppu_bus_read cart p a = nametable p (nametable_index cart a).
Proof.
  intros cart p a H. unfold ppu_bus_read. rewrite land_3FFF_small by lia.
  destruct (Z.ltb_spec a 0x2000); [lia|].
  destruct (Z.ltb_spec a 0x3F00); [reflexivity | lia].
Qed.

Lemma increment_v_range : forall p,
  v (increment_v p) = u16 (v p + 1) \/ v (increment_v p) = u16 (v p + 32).
Proof.
  intro p. unfold increment_v. cbn [v set_v].
  destruct (nz (Z.land (ctrl p) 4)); auto.
Qed.

(** X22.  A byte written through $2007 at a nametable address is read back
    through $2007 at the same address, on the second read: the first read
    returns the stale buffer. *)
Theorem vram_write_read_round_trip : forall (nes : nes_t) (hi lo b : Z),
  0x2000 <= vram_addr hi lo < 0x3000 ->
  let n1 := nes_bus_write (set_vram_addr nes hi lo) 0x2007 b in
  let n2 := set_vram_addr n1 hi lo in
  let r1 := nes_bus_read n2 0x2007 in
  let r2 := nes_bus_read (snd r1) 0x2007 in
  ppu_bus_read (cart n1) (ppu n1) (vram_addr hi lo) = b /\
  fst r1 = data_buf (ppu nes) /\
  fst r2 = b.
Proof.
  intros nes hi lo b Ha. cbv zeta.
  set (A := vram_addr hi lo) in *.
  rewrite (set_vram_addr_ppu nes).
  rewrite nes_ppu_write by lia. change (Z.land 0x2007 7) with 7.
  rewrite ppu_write_data. cbn [ppu set_ppu cart v set_v set_w].
  rewrite ppu_bus_write_nt by lia. cbn [fst snd].
  fold A.
  set (p0 := set_w false (set_v A (set_t A (set_nmi_occurred false (ppu nes))))).
  set (p1 := increment_v (set_nametable (upd (nametable p0) (nametable_index (cart nes) A) b) p0)).
  set (n1 := set_cart (cart nes) (set_ppu p1 (set_ppu p0 nes))).
  assert (N1 : nametable p1 (nametable_index (cart nes) A) = b).
  { unfold p1, increment_v. cbn [nametable set_v set_nametable]. apply upd_same. }
  assert (C1 : cart n1 = cart nes) by reflexivity.
  assert (P1 : ppu n1 = p1) by reflexivity.
  split.
  { rewrite C1, P1, ppu_bus_read_nt by lia. exact N1. }
  rewrite (set_vram_addr_ppu n1). fold A. rewrite P1.
  set (p2 := set_w false (set_v A (set_t A (set_nmi_occurred false p1)))).
  rewrite nes_ppu_read by lia. change (Z.land 0x2007 7) with 7.
  cbn [cart set_ppu ppu]. rewrite ppu_read_data.
  assert (V2 : v p2 = A) by reflexivity.
  rewrite V2. destruct (Z.ltb_spec A 0x3F00); [|lia].
  cbn [fst snd].
  split; [reflexivity|].
  rewrite nes_ppu_read by lia. change (Z.land 0x2007 7) with 7.
  cbn [cart set_ppu ppu fst]. rewrite ppu_read_data. cbn [fst].
  set (p3 := set_data_buf (ppu_bus_read (cart n1) p2 A) p2).
  assert (V3 : v (increment_v p3) < 0x3F00).
  { destruct (increment_v_range p3) as [E|E]; rewrite E;
      change (v p3) with A; unfold u16; rewrite Z.mod_small; lia. }
  destruct (Z.ltb_spec (v (increment_v p3)) 0x3F00); [|lia].
  unfold increment_v. cbn [data_buf set_v]. unfold p3. cbn [data_buf set_data_buf].
  rewrite C1, ppu_bus_read_nt by lia. exact N1.
Qed.

(** *** OAMADDR / OAMDATA *)

(** X23.  A byte written through $2004 lands in OAM at the address selected
    through $2003 and the address moves one up, modulo 256; reading $2004
    returns the byte at the selected address and leaves the address. *)
Theorem oam_write_read_round_trip : forall (nes : nes_t) (a b : Z),
  let n1 := nes_bus_write (nes_bus_write nes 0x2003 a) 0x2004 b in
  let r := nes_bus_read (nes_bus_write n1 0x2003 a) 0x2004 in
  oam (ppu n1) a = b /\
  (forall i, i <> a -> oam (ppu n1) i = oam (ppu nes) i) /\
  oam_addr (ppu n1) = u8 (a + 1) /\
  fst r = b /\
  oam_addr (ppu (snd r)) = a.
Proof.
  intros nes a b. cbv zeta.
  rewrite (nes_ppu_write nes) by lia. change (Z.land 0x2003 7) with 3.
  rewrite ppu_write_oam_addr. cbn [fst snd].
  rewrite nes_ppu_write by lia. change (Z.land 0x2004 7) with 4.
  rewrite ppu_write_oam_data. cbn [fst snd ppu set_ppu cart set_cart oam_addr
    set_oam_addr oam set_oam].
  rewrite nes_ppu_write by lia. change (Z.land 0x2003 7) with 3.
  rewrite ppu_write_oam_addr. cbn [fst snd ppu set_ppu cart set_cart].
  rewrite nes_ppu_read by lia. change (Z.land 0x2004 7) with 4.
  rewrite ppu_read_oam_data. cbn [fst snd ppu set_ppu cart set_cart oam_addr
    set_oam_addr oam set_oam].
  split; [apply upd_same|]. split.
  { intros i Hi. unfold upd. destruct (Z.eqb_spec i a); [contradiction | reflexivity]. }
  split; [reflexivity|]. split; [apply upd_same | reflexivity].
Qed.


(** *** Nametable mirroring *)

Lemma nametable_index_slot : forall cart a,
  nametable_index cart a = slot (mirror cart) a.
Proof. intros. unfold slot, nametable_index. cbn [mirror]. reflexivity. Qed.

Lemma mirror_check_all : forall a, 0x2000 <= a < 0x3000 -> mirror_check a = true.
Proof.
  intros a H.
  assert (K : forallb mirror_check nametable_addrs = true) by (vm_compute; reflexivity).
  rewrite forallb_forall in K. apply K. unfold nametable_addrs.
  apply in_map_iff. exists (a - 0x2000). split; [lia|].
  unfold zrange. apply in_map_iff. exists (Z.to_nat (a - 0x2000)).
  split; [lia | apply in_seq; lia].
Qed.

(** X24.  Nametable mirroring on the PPU bus.  A byte written at an address of
    $2000-$2FFF reads back there and in the $3000 mirror; with horizontal
    mirroring also at the address that differs in bit 10 (same physical
    table), while the address that differs in bit 11 is untouched; with
    vertical mirroring the two bits change roles.  The slot written is
    inside the 2 KiB of nametable memory. *)
Theorem nametable_mirroring : forall (cart : cartridge_t) (p : ppu_t) (a b : Z),
  0x2000 <= a < 0x3000 ->
  let p' := fst (ppu_bus_write cart p a b) in
  0 <= nametable_index cart a < 2048 /\
  ppu_bus_read cart p' a = b /\
  (a < 0x2F00 -> ppu_bus_read cart p' (a + 0x1000) = b) /\
  match mirror cart with
  | MIRROR_HORIZONTAL =>
      ppu_bus_read cart p' (Z.lxor a 0x400) = b /\
      ppu_bus_read cart p' (Z.lxor a 0x800) = ppu_bus_read cart p (Z.lxor a 0x800)
  | MIRROR_VERTICAL =>
      ppu_bus_read cart p' (Z.lxor a 0x800) = b /\
      ppu_bus_read cart p' (Z.lxor a 0x400) = ppu_bus_read cart p (Z.lxor a 0x400)
  end.
Proof.
  intros cart p a b H. cbv zeta.
  pose proof (mirror_check_all a H) as K. unfold mirror_check in K. cbv zeta in K.
  repeat (apply andb_prop in K; let K' := fresh "K" in destruct K as [K K']).
  repeat match goal with
         | E : (_ <=? _) = true |- _ => apply Z.leb_le in E
         | E : (_ <? _) = true |- _ => apply Z.ltb_lt in E
         | E : (_ =? _) = true |- _ => apply Z.eqb_eq in E
         | E : negb (_ =? _) = true |- _ => apply negb_true_iff, Z.eqb_neq in E
         end.
  rewrite ppu_bus_write_nt by lia. cbn [fst].
  rewrite !nametable_index_slot.
  split; [destruct (mirror cart); lia|].
  rewrite (ppu_bus_read_nt cart _ a) by lia. cbn [nametable set_nametable].
  rewrite nametable_index_slot.
  split; [apply upd_same|]. split.
  { intro Hlt. rewrite ppu_bus_read_nt by lia. cbn [nametable set_nametable].
    rewrite nametable_index_slot.
    destruct (mirror cart);
      match goal with E : slot ?m (a + 4096) = _ |- context [slot ?m (a + 4096)] =>
        rewrite E end; apply upd_same. }
  rewrite !(ppu_bus_read_nt cart _ (Z.lxor a 1024)) by lia.
  rewrite !(ppu_bus_read_nt cart _ (Z.lxor a 2048)) by lia.
  cbn [nametable set_nametable]. rewrite !nametable_index_slot.
  destruct (mirror cart).
  - split.
    + match goal with E : slot MIRROR_HORIZONTAL (Z.lxor a 1024) = _ |- _ => rewrite E end.
      apply upd_same.
    + apply upd_other. congruence.
  - split.
    + match goal with E : slot MIRROR_VERTICAL (Z.lxor a 2048) = _ |- _ => rewrite E end.
      apply upd_same.
    + apply upd_other. congruence.
Qed.

(** *** Palette RAM *)

Lemma land_1F : forall a, Z.land a 0x1F = a mod 32.
Proof. intro a. change 0x1F with (Z.ones 5). rewrite Z.land_ones by lia. reflexivity. Qed.

Lemma palette_check_all : forall i j, 0 <= i < 32 -> 0 <= j < 32 ->
  palette_check i j = true.
Proof.
  intros i j Hi Hj.
  assert (K : forallb (fun i => forallb (palette_check i) (zrange 32)) (zrange 32) = true)
    by (vm_compute; reflexivity).
  assert (In32 : forall k, 0 <= k < 32 -> In k (zrange 32)).
  { intros k Hk. unfold zrange. apply in_map_iff. exists (Z.to_nat k).
    split; [lia | apply in_seq; lia]. }
  rewrite forallb_forall in K. specialize (K i (In32 i Hi)).
  rewrite forallb_forall in K. exact (K j (In32 j Hj)).
Qed.

Lemma ppu_bus_write_palette : forall cart p a b, 0x3F00 <= a < 0x4000 ->
  ppu_bus_write cart p a b =
  (set_palette (upd (palette p) (palette_index (a mod 32)) (Z.land b 0x3F)) p, cart).
Proof.
  intros cart p a b H. unfold ppu_bus_write. rewrite land_3FFF_small by lia.
  destruct (Z.ltb_spec a 0x2000); [lia|].
  destruct (Z.ltb_spec a 0x3F00); [lia|]. rewrite land_1F. reflexivity.
Qed.

Lemma ppu_bus_read_palette : forall cart p a, 0x3F00 <= a < 0x4000 ->
  ppu_bus_read cart p a = palette p (palette_index (a mod 32)).
Proof.
  intros cart p a H. unfold ppu_bus_read. rewrite land_3FFF_small by lia.
  destruct (Z.ltb_spec a 0x2000); [lia|].
  destruct (Z.ltb_spec a 0x3F00); [lia|]. rewrite land_1F. reflexivity.
Qed.

(** X25.  Palette RAM on the PPU bus.  A write at an address of
    $3F00-$3FFF keeps the low six bits of the byte and lands in one of 32
    entries; it reads back at every address of the range with the same low
    five bits, and, when the address is a multiple of four, also at the
    addresses with the same low four bits ($3F10 is $3F00, $3F14 is $3F04,
    and so on); every other palette address reads what it read before. *)
Theorem palette_mirroring : forall (cart : cartridge_t) (p : ppu_t) (a a' b : Z),
  0x3F00 <= a < 0x4000 -> 0x3F00 <= a' < 0x4000 ->
  let p' := fst (ppu_bus_write cart p a b) in
  0 <= palette_index (Z.land a 0x1F) < 32 /\
  snd (ppu_bus_write cart p a b) = cart /\
  ppu_bus_read cart p' a' =
    (if (a' mod 32 =? a mod 32) || ((a mod 4 =? 0) && (a' mod 16 =? a mod 16))
     then Z.land b 0x3F
     else ppu_bus_read cart p a').
Proof.
  intros cart p a a' b Ha Ha'. cbv zeta.
  pose proof (Z.mod_pos_bound a 32) as Hi. pose proof (Z.mod_pos_bound a' 32) as Hj.
  pose proof (palette_check_all (a mod 32) (a' mod 32)) as K.
  unfold palette_check, same_entry in K.
  rewrite (Z.mod_mod_divide a 32 4), (Z.mod_mod_divide a 32 16),
          (Z.mod_mod_divide a' 32 16) in K
    by (first [exists 8; reflexivity | exists 2; reflexivity]).
  specialize (K ltac:(lia) ltac:(lia)).
  apply andb_prop in K. destruct K as [K K3]. apply andb_prop in K. destruct K as [K1 K2].
  apply Z.leb_le in K2. apply Z.ltb_lt in K3. apply eqb_prop in K1.
  rewrite ppu_bus_write_palette, !ppu_bus_read_palette by lia.
  cbn [fst snd palette set_palette]. rewrite land_1F.
  split; [lia|]. split; [reflexivity|].
  rewrite <- K1. unfold upd. reflexivity.
Qed.

(** *** Pattern tables *)

(** X26.  Pattern-table memory on the PPU bus.  On a cartridge without CHR
    banks a byte written at an address of $0000-$1FFF reads back there and
    nowhere else in the range; on a cartridge with CHR banks the write
    changes nothing.  The PPU itself is untouched either way. *)
Theorem chr_ram_round_trip : forall (cart : cartridge_t) (p : ppu_t) (a a' b : Z),
  0 <= a < 0x2000 -> 0 <= a' < 0x2000 ->
  let r := ppu_bus_write cart p a b in
  fst r = p /\
  if chr_banks cart =? 0
  then ppu_bus_read (snd r) p a' = (if a' =? a then b else ppu_bus_read cart p a')
  else snd r = cart.
Proof.
  intros cart p a a' b Ha Ha'. cbv zeta. unfold ppu_bus_write, ppu_bus_read.
  rewrite !land_3FFF_small by lia.
  destruct (Z.ltb_spec a 0x2000); [|lia]. destruct (Z.ltb_spec a' 0x2000); [|lia].
  cbn [fst snd]. split; [reflexivity|].
  unfold cartridge_chr_write, cartridge_chr_read.
  assert (L : forall k, 0 <= k < 0x2000 -> Z.land k 0x1FFF = k).
  { intros k Hk. change 0x1FFF with (Z.ones 13). rewrite Z.land_ones by lia.
    apply Z.mod_small. exact Hk. }
  rewrite !L by lia.
  destruct (Z.eqb_spec (chr_banks cart) 0) as [E|E]; [|reflexivity].
  cbn [chr_banks set_chr_ram chr_ram]. rewrite E. cbn [Z.gtb Z.compare].
  unfold upd. reflexivity.
Qed.

End PortFacts.

Lemma ram_mirrors_witness :
  fst (Nes.nes_bus_read (Nes.nes_bus_write Samples.dma_nes 0x0005 0x99) 0x1805) = 0x99.
Proof.
  destruct (ram_mirrors Samples.dma_nes 0x0005 0x1805 0x99) as (E & _); [lia | lia |].
  rewrite E. reflexivity.
Defined.

Lemma vram_write_read_round_trip_witness :
  0x2000 <= Ports.vram_addr 0x21 0x08 < 0x3000 /\
  let n1 := Nes.nes_bus_write (Ports.set_vram_addr Samples.dma_nes 0x21 0x08) 0x2007 0x5A in
  let r1 := Nes.nes_bus_read (Ports.set_vram_addr n1 0x21 0x08) 0x2007 in
  fst (Nes.nes_bus_read (snd r1) 0x2007) = 0x5A.
Proof.
  assert (R : 0x2000 <= Ports.vram_addr 0x21 0x08 < 0x3000) by (vm_compute; split; [discriminate | reflexivity]).
  split; [exact R|]. cbv zeta.
  exact (proj2 (proj2 (vram_write_read_round_trip Samples.dma_nes 0x21 0x08 0x5A R))).
Defined.

Lemma nametable_mirroring_witness :
  Ppu.ppu_bus_read Examples.cart_empty
    (fst (Ppu.ppu_bus_write Examples.cart_empty Ppu.ppu_init 0x2005 0x5A)) 0x2005 = 0x5A.
Proof.
  destruct (nametable_mirroring Examples.cart_empty Ppu.ppu_init 0x2005 0x5A)
    as (_ & E & _); [lia|].
  exact E.
Defined.

Lemma palette_mirroring_witness :
  Ppu.ppu_bus_read Examples.cart_empty
    (fst (Ppu.ppu_bus_write Examples.cart_empty Ppu.ppu_init 0x3F10 0xFF)) 0x3F00 = 0x3F.
Proof.
  destruct (palette_mirroring Examples.cart_empty Ppu.ppu_init 0x3F10 0x3F00 0xFF)
    as (_ & _ & E); [lia | lia |].
  rewrite E. reflexivity.
Defined.

Lemma chr_ram_round_trip_witness :
  Ppu.ppu_bus_read
    (snd (Ppu.ppu_bus_write Examples.cart_empty Ppu.ppu_init 0x0010 0x5A))
    Ppu.ppu_init 0x0010 = 0x5A.
Proof.
  pose proof (chr_ram_round_trip Examples.cart_empty Ppu.ppu_init 0x0010 0x0010 0x5A)
    as H.
  cbv zeta in H. destruct H as [_ E]; [lia | lia |]. exact E.
Defined.

(* ===================================================================== *)
(** * The iNES loader: what it accepts and what the cartridge then reads *)
(* ===================================================================== *)

Section LoaderFacts.
Import Cartridge Loader.

Lemma fread_some : forall n s a b,
  fread n s = Some (a, b) <->
  (n <= length s)%nat /\ a = firstn n s /\ b = skipn n s.
Proof.
  intros n s a b. unfold fread.
  destruct (Nat.leb_spec n (length s)); split.
  - intro E. injection E as <- <-. auto.
  - intros (_ & -> & ->). reflexivity.
  - discriminate.
  - intros (Hl & _). lia.
Qed.

Lemma fread_none : forall n s, fread n s = None <-> (length s < n)%nat.
Proof.
  intros n s. unfold fread. destruct (Nat.leb_spec n (length s)); split;
    try discriminate; try lia; auto.
Qed.

Lemma nth_header : forall f i, (i < 16)%nat -> nth i (firstn 16 f) 0 = nth i f 0.
Proof.
  intros f i H. rewrite nth_firstn.
  destruct (Nat.ltb_spec i 16); [reflexivity | lia].
Qed.

Lemma firstn4_header : forall f : list Z, firstn 4 (firstn 16 f) = firstn 4 f.
Proof. intro f. rewrite firstn_firstn. reflexivity. Qed.

Lemma nth_byte : forall f i, is_bytes f -> 0 <= nth i f 0 < 256.
Proof.
  intros f i H. destruct (Nat.lt_ge_cases i (length f)) as [Hl|Hl].
  - unfold is_bytes in H. rewrite forallb_forall in H.
    specialize (H _ (nth_In f 0 Hl)). apply andb_prop in H. lia.
  - rewrite nth_overflow by exact Hl. lia.
Qed.

(** The loader and the description of what it does, side by side. *)
Lemma cartridge_load_unfold : forall f, is_bytes f ->
  cartridge_load (Some f) =
  if ines_ok f then
    Some (mkCart
            (buffer (firstn (Z.to_nat (header_prg f * PRG_BANK_SIZE))
                            (skipn (Z.to_nat (prg_offset f)) f)))
            (if header_chr f >? 0
             then buffer (firstn (Z.to_nat (header_chr f * CHR_BANK_SIZE))
                            (skipn (Z.to_nat (prg_offset f + header_prg f * PRG_BANK_SIZE)) f))
             else fun _ => 0)
            (fun _ => 0)
            (header_prg f) (header_chr f) 0
            (if Z.testbit (nth 6 f 0) 0 then MIRROR_VERTICAL else MIRROR_HORIZONTAL))
  else None.
Proof.
  intros f Hb. unfold cartridge_load, ines_ok, INES_HEADER_SIZE.
  pose proof (nth_byte f 4 Hb) as B4. pose proof (nth_byte f 5 Hb) as B5.
  pose proof (nth_byte f 6 Hb) as B6.
  destruct (fread 16 f) as [[header rest]|] eqn:E.
  2:{ apply fread_none in E. destruct (Z.leb_spec 16 (Z.of_nat (length f))); [lia|].
      reflexivity. }
  apply fread_some in E. destruct E as (Hl & -> & ->).
  destruct (Z.leb_spec 16 (Z.of_nat (length f))); [|lia]. cbn [andb].
  rewrite firstn4_header.
  destruct (list_eq_dec Z.eq_dec (firstn 4 f) ines_magic); [|reflexivity].
  cbv zeta. rewrite !nth_header by lia. cbn [andb].
  fold (header_mapper f). fold (header_prg f). fold (header_chr f).
  destruct (Z.eqb_spec (header_mapper f) 0) as [Em|Em]; [|reflexivity].
  cbn [negb andb]. rewrite Em.
  destruct (Z.eqb_spec (header_prg f) 0) as [Ep|Ep]; [reflexivity|].
  cbn [negb andb]. rewrite nz_land_4, nz_land_1.
  unfold header_prg, header_chr in *. unfold prg_offset, header_trainer, TRAINER_SIZE.
  unfold PRG_BANK_SIZE, CHR_BANK_SIZE.
  set (P := nth 4 f 0) in *. set (C := nth 5 f 0) in *.
  assert (Hrest : (if Z.testbit (nth 6 f 0) 2 then skipn 512 (skipn 16 f) else skipn 16 f)
                  = skipn (Z.to_nat (16 + (if Z.testbit (nth 6 f 0) 2 then 512 else 0))) f).
  { destruct (Z.testbit (nth 6 f 0) 2).
    - rewrite skipn_skipn. reflexivity.
    - reflexivity. }
  rewrite Hrest. set (T := if Z.testbit (nth 6 f 0) 2 then 512 else 0) in *.
  assert (HT : 0 <= T <= 512) by (unfold T; destruct (Z.testbit _ 2); lia).
  destruct (fread (Z.to_nat (P * 16384)) (skipn (Z.to_nat (16 + T)) f))
    as [[prg rest]|] eqn:E1.
  2:{ apply fread_none in E1. rewrite length_skipn in E1.
      destruct (Z.leb_spec (16 + T + P * 16384 + C * 8192) (Z.of_nat (length f)));
        [lia | reflexivity]. }
  apply fread_some in E1. destruct E1 as (Hl1 & -> & ->).
  rewrite length_skipn in Hl1. rewrite skipn_skipn.
  replace (Z.to_nat (P * 16384) + Z.to_nat (16 + T))%nat
    with (Z.to_nat (16 + T + P * 16384)) by lia.
  destruct (Z.gtb_spec C 0) as [Hc|Hc].
  - destruct (fread (Z.to_nat (C * 8192)) (skipn (Z.to_nat (16 + T + P * 16384)) f))
      as [[chr rest]|] eqn:E2.
    + apply fread_some in E2. destruct E2 as (Hl2 & -> & ->).
      rewrite length_skipn in Hl2.
      destruct (Z.leb_spec (16 + T + P * 16384 + C * 8192) (Z.of_nat (length f)));
        [reflexivity | lia].
    + apply fread_none in E2. rewrite length_skipn in E2.
      destruct (Z.leb_spec (16 + T + P * 16384 + C * 8192) (Z.of_nat (length f)));
        [lia | reflexivity].
  - assert (C = 0) by lia.
    destruct (Z.leb_spec (16 + T + P * 16384 + C * 8192) (Z.of_nat (length f)));
      [reflexivity | lia].
Qed.


(** X27.  The loader fails when the file cannot be opened, and otherwise
    succeeds exactly on the images that carry the magic, name mapper 0 and
    at least one PRG bank, and are as long as their header announces
    (header, optional 512-byte trainer, PRG banks, CHR banks). *)
Theorem cartridge_load_accepts_iff : forall f : list Z,
  is_bytes f ->
  cartridge_load None = None /\
  ((exists c, cartridge_load (Some f) = Some c) <-> ines_ok f = true).
Proof.
  intros f Hb. split; [reflexivity|].
  rewrite cartridge_load_unfold by exact Hb.
  destruct (ines_ok f); split.
  - reflexivity.
  - intros _. eexists. reflexivity.
  - intros [c E]. discriminate.
  - discriminate.
Qed.

Lemma buffer_slice : forall (f : list Z) n k i, 0 <= i < Z.of_nat n ->
  buffer (firstn n (skipn k f)) i = nth (k + Z.to_nat i) f 0.
Proof.
  intros f n k i Hi. unfold buffer. rewrite nth_firstn.
  destruct (Nat.ltb_spec (Z.to_nat i) n); [|lia]. apply nth_skipn.
Qed.

Lemma land_3FFF_mod : forall a, Z.land a 0x3FFF = a mod 0x4000.
Proof. intro a. change 0x3FFF with (Z.ones 14). rewrite Z.land_ones by lia. reflexivity. Qed.

Lemma land_1FFF_mod : forall a, Z.land a 0x1FFF = a mod 0x2000.
Proof. intro a. change 0x1FFF with (Z.ones 13). rewrite Z.land_ones by lia. reflexivity. Qed.

(** What a loaded cartridge answers: the statement of the theorem below. *)
Lemma loaded_cartridge_facts : forall (f : list Z) (c : cartridge_t),
  is_bytes f -> cartridge_load (Some f) = Some c ->
  prg_banks c = header_prg f /\ chr_banks c = header_chr f /\ mapper_id c = 0 /\
  mirror c = (if Z.testbit (nth 6 f 0) 0 then MIRROR_VERTICAL else MIRROR_HORIZONTAL) /\
  (forall addr, 0x8000 <= addr < 0x10000 ->
     0 <= prg_index (prg_banks c) addr < prg_banks c * PRG_BANK_SIZE /\
     prg_offset f + prg_index (prg_banks c) addr < Z.of_nat (length f) /\
     cartridge_cpu_read c addr
       = nth (Z.to_nat (prg_offset f + prg_index (prg_banks c) addr)) f 0) /\
  (forall addr, addr < 0x8000 -> cartridge_cpu_read c addr = 0) /\
  (forall addr,
     cartridge_chr_read c addr =
       if header_chr f >? 0
       then nth (Z.to_nat (prg_offset f + header_prg f * PRG_BANK_SIZE
                           + addr mod 0x2000)) f 0
       else 0) /\
  (header_chr f > 0 ->
   prg_offset f + header_prg f * PRG_BANK_SIZE + 0x2000 <= Z.of_nat (length f)).
Proof.
  intros f c Hb E. rewrite cartridge_load_unfold in E by exact Hb.
  destruct (ines_ok f) eqn:Hok; [|discriminate]. injection E as <-.
  cbn [prg_banks chr_banks mapper_id mirror].
  unfold ines_ok in Hok.
  repeat (apply andb_prop in Hok; let K := fresh "K" in destruct Hok as [Hok K]).
  apply Z.leb_le in K. apply negb_true_iff, Z.eqb_neq in K0.
  pose proof (nth_byte f 4 Hb) as B4. pose proof (nth_byte f 5 Hb) as B5.
  fold (header_prg f) in B4. fold (header_chr f) in B5.
  assert (HT : 0 <= header_trainer f <= 512)
    by (unfold header_trainer; destruct (Z.testbit _ 2); lia).
  unfold prg_offset, PRG_BANK_SIZE, CHR_BANK_SIZE in *.
  set (P := header_prg f) in *. set (C := header_chr f) in *.
  set (T := header_trainer f) in *.
  split; [reflexivity|]. split; [reflexivity|]. split; [reflexivity|].
  split; [reflexivity|]. split; [|split; [|split]].
  - intros addr Ha.
    pose proof (Z.mod_pos_bound addr 0x4000) as Hm.
    assert (Hi : 0 <= prg_index P addr < P * 16384).
    { unfold prg_index. destruct (Z.ltb_spec addr 0xC000); cbn [orb]; [lia|].
      destruct (Z.eqb_spec P 1); lia. }
    split; [exact Hi|]. split; [lia|].
    unfold cartridge_cpu_read. cbn [prg_rom prg_banks].
    destruct (Z.geb_spec addr 0x8000); [|lia].
    rewrite land_3FFF_mod.
    assert (Eb : forall i, 0 <= i < P * 16384 ->
              buffer (firstn (Z.to_nat (P * 16384)) (skipn (Z.to_nat (16 + T)) f)) i
              = nth (Z.to_nat (16 + T + i)) f 0).
    { intros i Hi'. rewrite buffer_slice by lia. f_equal. lia. }
    unfold prg_index in *.
    destruct (Z.ltb_spec addr 0xC000); cbn [orb] in *.
    + apply Eb. lia.
    + destruct (Z.eqb_spec P 1); apply Eb; lia.
  - intros addr Ha. unfold cartridge_cpu_read.
    destruct (Z.geb_spec addr 0x8000); [lia | reflexivity].
  - intro addr. unfold cartridge_chr_read. cbn [chr_banks chr_rom chr_ram].
    rewrite land_1FFF_mod. pose proof (Z.mod_pos_bound addr 0x2000) as Hm.
    destruct (Z.gtb_spec C 0); [|reflexivity].
    rewrite buffer_slice by lia. f_equal. lia.
  - lia.
Qed.

(** X28.  What a loaded cartridge answers.  Every CPU read of $8000-$FFFF
    returns a byte of the PRG image in the file, at an offset inside the
    banks that were loaded (the single bank of a 16 KiB image is seen
    twice); reads below $8000 return 0; a CHR read returns a byte of the
    CHR image in the file, or 0 from the fresh CHR RAM when the image has
    no CHR bank. *)
Theorem loaded_cartridge_reads : forall (f : list Z) (c : cartridge_t),
  is_bytes f -> cartridge_load (Some f) = Some c ->
  prg_banks c = header_prg f /\ chr_banks c = header_chr f /\ mapper_id c = 0 /\
  mirror c = (if Z.testbit (nth 6 f 0) 0 then MIRROR_VERTICAL else MIRROR_HORIZONTAL) /\
  (forall addr, 0x8000 <= addr < 0x10000 ->
     0 <= prg_index (prg_banks c) addr < prg_banks c * PRG_BANK_SIZE /\
     prg_offset f + prg_index (prg_banks c) addr < Z.of_nat (length f) /\
     cartridge_cpu_read c addr
       = nth (Z.to_nat (prg_offset f + prg_index (prg_banks c) addr)) f 0) /\
  (forall addr, addr < 0x8000 -> cartridge_cpu_read c addr = 0) /\
  (forall addr,
     cartridge_chr_read c addr =
       if header_chr f >? 0
       then nth (Z.to_nat (prg_offset f + header_prg f * PRG_BANK_SIZE
                           + addr mod 0x2000)) f 0
       else 0) /\
  (header_chr f > 0 ->
   prg_offset f + header_prg f * PRG_BANK_SIZE + 0x2000 <= Z.of_nat (length f)).
Proof. exact loaded_cartridge_facts. Qed.

End LoaderFacts.

Section BootFacts.
Import Cpu6502 Cartridge Ppu Nes Loader Boot.

Lemma nes_bus_read_cart : forall nes addr, 0x4020 <= addr ->
  nes_bus_read nes addr = (cartridge_cpu_read (cart nes) addr, nes).
Proof.
  intros nes addr H. unfold nes_bus_read.
  destruct (Z.ltb_spec addr 0x2000); [lia|].
  destruct (Z.ltb_spec addr 0x4000); [lia|].
  destruct (Z.eqb_spec addr 0x4016); [lia|].
  destruct (Z.eqb_spec addr 0x4017); [lia|].
  destruct (Z.ltb_spec addr 0x4020); [lia|]. reflexivity.
Qed.

Lemma reset_nes : forall c nes,
  snd (cpu6502_reset nes_bus (c, nes)) =
  (mkCpu (Cpu6502.a c) (Cpu6502.x c) (Cpu6502.y c) 0xFD
         (Z.lor (Z.shiftl (u8 (cartridge_cpu_read (cart nes) 0xFFFD)) 8)
                (u8 (cartridge_cpu_read (cart nes) 0xFFFC)))
         (u8 (Z.lor (u8 (Z.lor (Cpu6502.status c) CPU_FLAG_I)) CPU_FLAG_U))
         (u64 (Cpu6502.cycles c + 7)) false (Cpu6502.page_crossed c),
   nes).
Proof.
  intros c nes. unfold cpu6502_reset. destruct c.
  cbv beta iota zeta delta
    [bind gets modify ret cpu_read fst snd Cpu6502.pc Cpu6502.sp Cpu6502.a Cpu6502.x
     Cpu6502.y Cpu6502.status Cpu6502.cycles Cpu6502.halted Cpu6502.page_crossed
     set_pc set_sp set_status set_cycles set_halted read write nes_bus].
  rewrite !nes_bus_read_cart by lia. reflexivity.
Qed.

(** X29.  Power-on.  [nes_init] on an image the loader accepts leaves the
    cpu about to execute at the reset vector, which is read from the PRG
    image in the file (the bytes that CPU addresses $FFFC and $FFFD map
    to), with A, X and Y zero, the stack pointer at $FD, status $24 (I and
    bit 5), seven cycles on the counter and not halted; the PPU in its
    initial state on the pre-render line, work RAM zero, no DMA pending,
    and the cartridge the one the loader built. *)
Theorem power_on_state : forall f : list Z,
  is_bytes f -> ines_ok f = true ->
  exists m, nes_init_file (Some f) = Some m /\
    Cpu6502.pc (fst m) = prg_byte f 0xFFFD * 256 + prg_byte f 0xFFFC /\
    0 <= Cpu6502.pc (fst m) < 65536 /\
    (Cpu6502.a (fst m), Cpu6502.x (fst m), Cpu6502.y (fst m)) = (0, 0, 0) /\
    Cpu6502.sp (fst m) = 0xFD /\
    Cpu6502.status (fst m) = 0x24 /\
    Cpu6502.cycles (fst m) = 7 /\
    Cpu6502.halted (fst m) = false /\
    ppu (snd m) = ppu_init /\
    cartridge_load (Some f) = Some (cart (snd m)) /\
    (forall i, ram (snd m) i = 0) /\
    dma_pending (snd m) = false.
Proof.
  intros f Hb Hok. unfold nes_init_file.
  destruct (cartridge_load (Some f)) as [c|] eqn:E.
  2:{ rewrite cartridge_load_unfold, Hok in E by exact Hb. discriminate E. }
  destruct (loaded_cartridge_facts f c Hb E) as (Ep & _ & _ & _ & R & _).
  rewrite Ep in R.
  destruct (R 0xFFFC) as (_ & _ & R0); [lia|]. destruct (R 0xFFFD) as (_ & _ & R1); [lia|].
  fold (prg_byte f 0xFFFC) in R0. fold (prg_byte f 0xFFFD) in R1.
  assert (B0 : 0 <= prg_byte f 0xFFFC < 256) by (apply nth_byte; exact Hb).
  assert (B1 : 0 <= prg_byte f 0xFFFD < 256) by (apply nth_byte; exact Hb).
  eexists. split; [reflexivity|].
  unfold nes_init. cbv zeta. rewrite reset_nes.
  cbn [fst snd Cpu6502.pc Cpu6502.sp Cpu6502.a Cpu6502.x Cpu6502.y Cpu6502.status
       Cpu6502.cycles Cpu6502.halted cart ppu ram dma_pending].
  rewrite R0, R1, !(u8_small (prg_byte f _)) by lia.
  rewrite !lor_shiftl_low by (change (2 ^ 8) with 256; lia).
  change (2 ^ 8) with 256.
  split; [reflexivity|]. split; [lia|].
  repeat split; reflexivity.
Qed.
End BootFacts.


Lemma cartridge_load_accepts_iff_witness :
  Loader.is_bytes Loader.sample_image /\
  exists c, Loader.cartridge_load (Some Loader.sample_image) = Some c.
Proof.
  assert (B : Loader.is_bytes Loader.sample_image) by (vm_compute; reflexivity).
  split; [exact B|].
  apply (proj2 (proj2 (cartridge_load_accepts_iff Loader.sample_image B))).
  vm_compute. reflexivity.
Defined.

Lemma loaded_cartridge_reads_witness :
  Loader.is_bytes Loader.sample_image /\
  exists c, Loader.cartridge_load (Some Loader.sample_image) = Some c /\
            Cartridge.cartridge_cpu_read c 0xFFFD = 0x80 /\
            Cartridge.cartridge_cpu_read c 0xBFFD = 0x80 /\
            Cartridge.cartridge_cpu_read c 0x8000 = 0xEA.
Proof.
  assert (B : Loader.is_bytes Loader.sample_image) by (vm_compute; reflexivity).
  assert (K : Loader.ines_ok Loader.sample_image = true) by (vm_compute; reflexivity).
  split; [exact B|].
  destruct (Loader.cartridge_load (Some Loader.sample_image)) as [c|] eqn:E.
  - exists c. split; [reflexivity|].
    destruct (loaded_cartridge_reads Loader.sample_image c B E)
      as (Ep & _ & _ & _ & R & _).
    rewrite Ep in R.
    destruct (R 0xFFFD) as (_ & _ & ->); [lia|].
    destruct (R 0xBFFD) as (_ & _ & ->); [lia|].
    destruct (R 0x8000) as (_ & _ & ->); [lia|].
    vm_compute. repeat split.
  - rewrite (cartridge_load_unfold Loader.sample_image B), K in E. discriminate E.
Defined.

Lemma power_on_state_witness :
  Loader.is_bytes Loader.sample_image /\
  Loader.ines_ok Loader.sample_image = true /\
  exists m, Boot.nes_init_file (Some Loader.sample_image) = Some m /\
            Cpu6502.pc (fst m) = 0x8000.
Proof.
  assert (B : Loader.is_bytes Loader.sample_image) by (vm_compute; reflexivity).
  assert (K : Loader.ines_ok Loader.sample_image = true) by (vm_compute; reflexivity).
  split; [exact B|]. split; [exact K|].
  destruct (power_on_state Loader.sample_image B K) as (m & E & P & _).
  exists m. split; [exact E|]. rewrite P. vm_compute. reflexivity.
Defined.
